(** * AI multi-agent orchestration system: pipeline, aggregation, polling and
      channel adapters

    A shallow embedding of

    - [orchestrator.py] ([Orchestrator.process_message],
      [process_messages] and the four stage wrappers),
    - [services/message_pull_service.py] ([pull_all_messages],
      [send_response], [start_polling], [stop_polling]),
    - [channels/email_channel.py], [channels/whatsapp_channel.py] and
      [channels/teams_channel.py] ([pull_messages], [send_message] and
      [handle_webhook]),
    - [agents/classification_agent.py] and [agents/task_creation_agent.py]
      ([classify_message], [create_task] and their fallbacks),
    - [services/idit_api_client.py] ([execute_action], [health_check]),

    followed by the properties of these functions.

    Python values are an inductive type, dictionaries are finite maps with
    string keys, an exception is represented by the text [str(e)] that the
    code logs or stores, and every [try: ... except Exception] of the source
    is a [try_catch] of the model.  Exceptions that are not instances of
    [Exception] (task cancellation, interpreter exit) are outside the model,
    and so are floating-point numbers. *)

From stdpp Require Import gmap strings list.
From Stdlib Require Import ZArith Ascii.

Set Warnings "-register-all,-clear-no-such-hyp".

Local Open Scope string_scope.
Local Open Scope Z_scope.

(** ** Python values *)

Inductive value : Type :=
  | VNone
  | VBool (b : bool)
  | VInt (z : Z)
  | VStr (s : string)
  | VList (l : list value)
  | VDict (d : gmap string value).

(** [Dict[str, Any]] *)
Abbreviation dict := (gmap string value).

(** The outcome of a call: it returns, or it raises an exception whose
    [str(e)] is [e]. *)
Inductive res (A : Type) : Type :=
  | Ok (a : A)
  | Exn (e : string).
Arguments Ok {A} a.
Arguments Exn {A} e.

(** [type(v).__name__] *)
Definition type_name (v : value) : string :=
  match v with
  | VNone => "NoneType"
  | VBool _ => "bool"
  | VInt _ => "int"
  | VStr _ => "str"
  | VList _ => "list"
  | VDict _ => "dict"
  end.

(** [str(AttributeError)] for a missing attribute *)
Definition attribute_error (v : value) (attr : string) : string :=
  "'" ++ type_name v ++ "' object has no attribute '" ++ attr ++ "'".

(** [bool(v)]: the test of [if v] and [if not v] *)
Definition truthy (v : value) : bool :=
  match v with
  | VNone => false
  | VBool b => b
  | VInt z => negb (z =? 0)
  | VStr s => negb (String.eqb s "")
  | VList l => match l with [] => false | _ => true end
  | VDict d => negb (Nat.eqb (size d) 0)
  end.

(** [v == 'literal'] *)
Definition eq_str (v : value) (s : string) : bool :=
  match v with
  | VStr s' => String.eqb s' s
  | _ => false
  end.

(** [d.get(k)] and [d.get(k, dflt)] on a dictionary *)
Definition dict_get (d : dict) (k : string) (dflt : value) : value :=
  default dflt (d !! k).

(** [v.get(k, dflt)] on any value: only a dictionary has the method. *)
Definition value_get (v : value) (k : string) (dflt : value) : res value :=
  match v with
  | VDict d => Ok (dict_get d k dflt)
  | _ => Exn (attribute_error v "get")
  end.

Definition lower_ascii (c : ascii) : ascii :=
  let n := nat_of_ascii c in
  if (Nat.leb 65 n && Nat.leb n 90)%bool then ascii_of_nat (n + 32) else c.

(** [s.lower()].  Strings are byte strings here; only the letters A-Z are
    mapped.  For the comparisons of the source (with ['email'], ['whatsapp']
    and ['teams']) this agrees with Python: no other character lower-cases to
    a letter of these three words. *)
Fixpoint str_lower (s : string) : string :=
  match s with
  | EmptyString => EmptyString
  | String c s' => String (lower_ascii c) (str_lower s')
  end.

(** [v.lower()] *)
Definition value_lower (v : value) : res string :=
  match v with
  | VStr s => Ok (str_lower s)
  | _ => Exn (attribute_error v "lower")
  end.

(** [f"{v}"]: the string itself, or [str(v)]; [repr] gives the text of
    numbers, lists and dictionaries. *)
Definition py_str (repr : value -> string) (v : value) : string :=
  match v with
  | VStr s => s
  | VNone => "None"
  | VBool true => "True"
  | VBool false => "False"
  | _ => repr v
  end.

(** ** Effects of the orchestrator

    A pipeline run calls collaborators that this core treats as opaque: the
    three agents and the channel handlers' [send_message].  What they answer
    during one run is the run's environment [Env].  What the run does to the
    outside is recorded as a list of events: taking and giving back the slot
    of the semaphore, calling an agent, and handing a response to a channel
    handler. *)

Inductive stage : Type := Classify | CreateTask | Execute.

Inductive event : Type :=
  | EvAcquire
  | EvRelease
  | EvStage (s : stage)
  | EvSend (handler : string) (recipient content : value) (metadata : dict)
           (sent : bool).

(** A computation that returns or raises, and emits events on the way. *)
Definition M (A : Type) : Type := res A * list event.

Definition ret {A} (a : A) : M A := (Ok a, []).
Definition emit (ev : event) : M unit := (Ok (), [ev]).
Definition lift {A} (r : res A) : M A := (r, []).

Definition bind {A B} (m : M A) (f : A -> M B) : M B :=
  match m with
  | (Ok a, l) => let '(r, l') := f a in (r, (l ++ l')%list)
  | (Exn e, l) => (Exn e, l)
  end.

(** [try: m except Exception as e: h(str(e))] *)
Definition try_catch {A} (m : M A) (h : string -> M A) : M A :=
  match m with
  | (Ok a, l) => (Ok a, l)
  | (Exn e, l) => let '(r, l') := h e in (r, (l ++ l')%list)
  end.

(** [async with self.semaphore: m]: the slot is taken on entry and given
    back by [__aexit__] when the block is left, by [return] or by an
    exception, which then propagates. *)
Definition with_semaphore {A} (m : M A) : M A :=
  let '(r, l) := m in (r, (EvAcquire :: l ++ [EvRelease])%list).

Declare Scope orch_scope.
Delimit Scope orch_scope with orch.
Notation "x <- m ;; k" := (bind m (fun x => k))
  (at level 100, m at next level, right associativity) : orch_scope.
Notation "m ;;; k" := (bind m (fun _ => k))
  (at level 100, right associativity) : orch_scope.
Local Open Scope orch_scope.

(** The collaborators of one run.  The agents return any value or raise; a
    handler's [send_message] catches every exception itself and returns a
    boolean. *)
Record Env : Type := {
  classify_message : dict -> res value;
  create_task : value -> dict -> res value;
  execute_task : value -> dict -> res value;
  email_send_message : value -> value -> dict -> bool;
  whatsapp_send_message : value -> value -> dict -> bool;
  teams_send_message : value -> value -> dict -> bool;
  (** [str(v)] of a number, a list or a dictionary, as an f-string formats
      it *)
  py_repr : value -> string
}.


(** ** [MessagePullService.send_response] *)

Definition send_response (env : Env) (channel recipient content : value)
    (metadata : dict) : M bool :=
  try_catch
    (c <- lift (value_lower channel) ;;
     if String.eqb c "email" then
       let ok := email_send_message env recipient content metadata in
       emit (EvSend "email" recipient content metadata ok) ;;; ret ok
     else if String.eqb c "whatsapp" then
       let ok := whatsapp_send_message env recipient content metadata in
       emit (EvSend "whatsapp" recipient content metadata ok) ;;; ret ok
     else if String.eqb c "teams" then
       let ok := teams_send_message env recipient content metadata in
       emit (EvSend "teams" recipient content metadata ok) ;;; ret ok
     else ret false)
    (fun _ => ret false).

(** ** [Orchestrator] *)

Definition _create_error_result (message : dict) (error : string) : value :=
  VDict (<["status" := VStr "error"]>
        (<["message_id" := dict_get message "message_id" VNone]>
        (<["channel" := dict_get message "channel" VNone]>
        (<["error" := VStr error]>
        (<["classification" := VNone]>
        (<["task" := VNone]>
        (<["execution" := VNone]>
        (<["response_sent" := VBool false]> ∅)))))))).

Definition _classify_message (env : Env) (message : dict) : M value :=
  try_catch
    (emit (EvStage Classify) ;;; lift (classify_message env message))
    (fun _ => ret VNone).

Definition _create_task (env : Env) (classification : value) (message : dict)
    : M value :=
  try_catch
    (_ <- lift (value_get classification "action_id" VNone) ;;
     emit (EvStage CreateTask) ;;;
     lift (create_task env classification message))
    (fun _ => ret VNone).

(** The body of the [try] of [_execute_task]. *)
Definition execute_body (env : Env) (task_data : value) (message : dict)
    : M value :=
  _ <- lift (value_get task_data "task_id" VNone) ;;
  emit (EvStage Execute) ;;;
  lift (execute_task env task_data message).

Definition execution_failure (e : string) : value :=
  VDict (<["execution_status" := VStr "failed"]>
        (<["error" := VStr e]>
        (<["user_response" :=
             VStr "An error occurred while processing your request."]> ∅))).

Definition _execute_task (env : Env) (task_data : value) (message : dict)
    : M value :=
  try_catch (execute_body env task_data message)
            (fun e => ret (execution_failure e)).

Definition response_metadata (env : Env) (execution_result : value)
    (message : dict) : res dict :=
  let channel := dict_get message "channel" VNone in
  if eq_str channel "email" then
    match value_get (dict_get message "metadata" (VDict ∅)) "subject" (VStr "")
    with
    | Exn e => Exn e
    | Ok original_subject =>
        Ok {[ "subject" :=
                if truthy original_subject
                then VStr ("Re: " ++ py_str (py_repr env) original_subject)
                else VStr "Response to your inquiry" ]}
    end
  else if eq_str channel "teams" then
    match value_get execution_result "execution_status" VNone with
    | Exn e => Exn e
    | Ok st =>
        Ok (<["title" := VStr "Task Update"]>
           (<["type" := VStr (if eq_str st "success" then "success"
                              else "error")]> ∅))
    end
  else Ok ∅.

Definition _send_response (env : Env) (execution_result : value)
    (message : dict) : M bool :=
  try_catch
    (let channel := dict_get message "channel" VNone in
     let sender := dict_get message "sender" VNone in
     response_text <-
       lift (value_get execution_result "user_response"
                       (VStr "Your request has been processed.")) ;;
     metadata <- lift (response_metadata env execution_result message) ;;
     send_response env channel sender response_text metadata)
    (fun _ => ret false).

Definition final_result (message : dict)
    (classification_result task_data execution_result : value)
    (status : value) (response_sent : bool) : value :=
  VDict (<["status" := VStr (if eq_str status "success" then "success"
                             else "failed")]>
        (<["message_id" := dict_get message "message_id" VNone]>
        (<["channel" := dict_get message "channel" VNone]>
        (<["classification" := classification_result]>
        (<["task" := task_data]>
        (<["execution" := execution_result]>
        (<["response_sent" := VBool response_sent]> ∅))))))).

(** The body of the [try] of [process_message]. *)
Definition pipeline_body (env : Env) (message : dict) : M value :=
  classification_result <- _classify_message env message ;;
  if negb (truthy classification_result) then
    ret (_create_error_result message "Classification failed")
  else
    task_data <- _create_task env classification_result message ;;
    if negb (truthy task_data) then
      ret (_create_error_result message "Task creation failed")
    else
      execution_result <- _execute_task env task_data message ;;
      response_sent <- _send_response env execution_result message ;;
      status <- lift (value_get execution_result "execution_status" VNone) ;;
      ret (final_result message classification_result task_data
                        execution_result status response_sent).

Definition process_message (env : Env) (message : dict) : M value :=
  with_semaphore
    (try_catch (pipeline_body env message)
               (fun e => ret (_create_error_result message e))).

(** ** Reading a run *)

Definition is_send (ev : event) : bool :=
  match ev with EvSend _ _ _ _ _ => true | _ => false end.

Definition is_gate (ev : event) : bool :=
  match ev with EvAcquire | EvRelease => true | _ => false end.

(** The responses a run handed to a channel handler, in order. *)
Definition send_attempts (tr : list event) : list event := List.filter is_send tr.

(** [o[k]] on an outcome dictionary ([None] when the key is missing) *)
Definition outcome_field (o : value) (k : string) : value :=
  match o with
  | VDict d => dict_get d k VNone
  | _ => VNone
  end.

(** The events of a run that got past classification: the events of task
    creation [l2], of execution [l3] and of the response stage [ls], inside
    the slot. *)
Definition run_trace (l2 l3 ls : list event) : list event :=
  (EvAcquire :: EvStage Classify :: l2 ++ l3 ++ ls ++ [EvRelease])%list.

(** The same agents with other channel handlers behind them. *)
Definition with_senders (env : Env) (e w t : value -> value -> dict -> bool)
    : Env :=
  {| classify_message := classify_message env;
     create_task := create_task env;
     execute_task := execute_task env;
     email_send_message := e;
     whatsapp_send_message := w;
     teams_send_message := t;
     py_repr := py_repr env |}.

(** The run ends in the state [Errored]. *)
Definition errored (o : value) : Prop := outcome_field o "status" = VStr "error".

(** The respond-on-failure property as the specification words it: an
    errored run hands a response for the original sender to a channel
    handler, and [response_sent] is what that handler answered. *)
Definition respond_on_failure (env : Env) (message : dict) : Prop :=
  forall o tr,
    process_message env message = (Ok o, tr) ->
    errored o ->
    exists h content md b,
      In (EvSend h (dict_get message "sender" VNone) content md b) tr /\
      outcome_field o "response_sent" = VBool b.

(** The status rule as the specification words it: every run that reaches
    the Execute stage ends with the status ["success"] when the
    [execution_status] of its execution result is ["success"], and with
    ["failed"] otherwise. *)
Definition status_mirrors_execution (env : Env) (message : dict) : Prop :=
  forall c t x l1 l2 l3 o tr,
    _classify_message env message = (Ok c, l1) -> truthy c = true ->
    _create_task env c message = (Ok t, l2) -> truthy t = true ->
    _execute_task env t message = (Ok x, l3) ->
    process_message env message = (Ok o, tr) ->
    outcome_field o "status"
    = VStr (if eq_str (outcome_field x "execution_status") "success"
            then "success" else "failed").

(** ** Sample runs

    The message of [examples.py] ([example_1_process_single_message]) with
    collaborators that all succeed, and variants in which one of them fails. *)

Definition sample_message : dict :=
  <["message_id" := VStr "test-001"]>
  (<["channel" := VStr "email"]>
  (<["sender" := VStr "customer@example.com"]>
  (<["content" :=
       VStr "I would like to check the status of my claim #CLM-12345"]>
  (<["timestamp" := VStr "2025-11-03T10:00:00"]>
  (<["metadata" := VDict {[ "subject" := VStr "Claim Status Inquiry" ]}]>
   ∅))))).

Definition sample_classification : value :=
  VDict (<["action_id" := VStr "claim_status"]>
        (<["category" := VStr "claim"]> ∅)).

Definition sample_task : value :=
  VDict (<["task_id" := VStr "t-1"]>
        (<["action_type" := VStr "claim_status"]> ∅)).

Definition sample_execution : dict :=
  <["execution_status" := VStr "success"]>
  (<["user_response" := VStr "Your claim is being reviewed."]> ∅).

Definition env_ok : Env :=
  {| classify_message := fun _ => Ok sample_classification;
     create_task := fun _ _ => Ok sample_task;
     execute_task := fun _ _ => Ok (VDict sample_execution);
     email_send_message := fun _ _ _ => true;
     whatsapp_send_message := fun _ _ _ => true;
     teams_send_message := fun _ _ _ => true;
     py_repr := fun _ => "" |}.

(** The classification agent raises. *)
Definition env_classify_fails : Env :=
  {| classify_message := fun _ => Exn "model unavailable";
     create_task := create_task env_ok;
     execute_task := execute_task env_ok;
     email_send_message := email_send_message env_ok;
     whatsapp_send_message := whatsapp_send_message env_ok;
     teams_send_message := teams_send_message env_ok;
     py_repr := py_repr env_ok |}.

(** The execution agent raises. *)
Definition env_execute_raises : Env :=
  {| classify_message := classify_message env_ok;
     create_task := create_task env_ok;
     execute_task := fun _ _ => Exn "IDIT API timeout";
     email_send_message := email_send_message env_ok;
     whatsapp_send_message := whatsapp_send_message env_ok;
     teams_send_message := teams_send_message env_ok;
     py_repr := py_repr env_ok |}.

(** The execution agent returns [None] instead of a dictionary. *)
Definition env_execute_none : Env :=
  {| classify_message := classify_message env_ok;
     create_task := create_task env_ok;
     execute_task := fun _ _ => Ok VNone;
     email_send_message := email_send_message env_ok;
     whatsapp_send_message := whatsapp_send_message env_ok;
     teams_send_message := teams_send_message env_ok;
     py_repr := py_repr env_ok |}.

(** Every delivery fails. *)
Definition env_send_fails : Env :=
  with_senders env_ok (fun _ _ _ => false) (fun _ _ _ => false)
               (fun _ _ _ => false).

(** ** [Orchestrator.process_messages] *)

(** [asyncio.gather] over the tasks with [return_exceptions=True].  [results] holds,
    in the order of the arguments, what each task returns or raises;
    [completed] lists the indices of the tasks in the order in which they
    finish.  [gather] resumes its caller once every task has finished, and
    then reads the results off the tasks in the order of the arguments; until
    then the caller stays suspended ([None]). *)
Definition gather {A} (completed : list nat) (results : list A)
    : option (list A) :=
  if forallb (fun i => existsb (Nat.eqb i) completed)
             (seq 0 (length results))
  then Some results
  else None.

(** The loop over [enumerate(results)], from index [idx] on, appending to
    [processed_results]. *)
Fixpoint collect_results (messages : list dict) (idx : nat)
    (results : list (res value)) (processed_results : list value)
    : res (list value) :=
  match results with
  | [] => Ok processed_results
  | Exn e :: rest =>
      match messages !! idx with
      | Some m =>
          collect_results messages (S idx) rest
            (processed_results ++ [_create_error_result m e])%list
      | None => Exn "list index out of range"
      end
  | Ok r :: rest =>
      collect_results messages (S idx) rest (processed_results ++ [r])%list
  end.

(** [process_messages] over tasks of which the one of index [i], started on
    message [m], completes with [task i m]. *)
Definition process_messages_with (task : nat -> dict -> res value)
    (completed : list nat) (messages : list dict)
    : option (res (list value)) :=
  match gather completed (imap task messages) with
  | Some results => Some (collect_results messages 0 results [])
  | None => None
  end.

(** [process_messages]: the task of index [i] is [process_message] on the
    [i]-th message, with the collaborators behaving as [envs i] during that
    run. *)
Definition process_messages (envs : nat -> Env) (completed : list nat)
    (messages : list dict) : option (res (list value)) :=
  process_messages_with (fun i m => fst (process_message (envs i) m))
                        completed messages.

(** What stands at an index of the result for a task that completed with
    [r] on message [m]. *)
Definition outcome_of (m : dict) (r : res value) : value :=
  match r with
  | Ok o => o
  | Exn e => _create_error_result m e
  end.



(** ** The semaphore under interleaving

    [asyncio] runs the tasks of a batch on one event loop and switches
    between them where a task awaits.  A task is represented by the events of
    its run, split into those it has performed and those still ahead; the
    system is the counter of the semaphore together with the tasks.  The
    scheduler picks a task and lets it perform its next event:

    - [EvAcquire] ([Semaphore.acquire]) needs a positive counter and
      decrements it; with the counter at zero the task stays suspended;
    - [EvRelease] ([Semaphore.release]) increments the counter;
    - any other event leaves the counter alone. *)

Record task : Type := {
  performed : list event;
  pending : list event
}.

Record system : Type := {
  permits : nat;
  tasks : list task
}.

Definition advance (t : task) (ev : event) (rest : list event) : task :=
  {| performed := (performed t ++ [ev])%list; pending := rest |}.

(** The scheduler resumes task [i]. *)
Definition fire (s : system) (i : nat) : system :=
  match tasks s !! i with
  | None => s
  | Some t =>
      match pending t with
      | [] => s
      | EvAcquire :: rest =>
          match permits s with
          | O => s
          | S n => {| permits := n;
                      tasks := <[i := advance t EvAcquire rest]> (tasks s) |}
          end
      | EvRelease :: rest =>
          {| permits := S (permits s);
             tasks := <[i := advance t EvRelease rest]> (tasks s) |}
      | ev :: rest =>
          {| permits := permits s;
             tasks := <[i := advance t ev rest]> (tasks s) |}
      end
  end.

Definition run_schedule (s : system) (schedule : list nat) : system :=
  foldl fire s schedule.

(** [asyncio.Semaphore(max_concurrent_tasks)] and one task per message, none
    of them started. *)
Definition start_batch (max_concurrent_tasks : nat) (envs : nat -> Env)
    (messages : list dict) : system :=
  {| permits := max_concurrent_tasks;
     tasks := imap (fun i m =>
                      {| performed := [];
                         pending := snd (process_message (envs i) m) |})
                   messages |}.

Definition nonempty {A} (l : list A) : bool :=
  match l with [] => false | _ => true end.

(** The task is inside the [async with] block of [process_message], that is
    somewhere from Classifying to Responding: it has entered and has not
    left. *)
Definition in_stage (t : task) : bool :=
  nonempty (performed t) && nonempty (pending t).

Definition in_flight (s : system) : nat :=
  length (List.filter in_stage (tasks s)).

Definition finished (t : task) : bool :=
  match pending t with [] => true | _ => false end.

(** The task runs a trace that takes the slot first, gives it back last, and
    touches the semaphore nowhere in between. *)
Definition task_wf (t : task) : Prop :=
  exists body,
    (performed t ++ pending t)%list = (EvAcquire :: body ++ [EvRelease])%list /\
    List.filter is_gate body = [].

(** The counter and the tasks inside the block add up to [N], and every task
    runs such a trace. *)
Definition gate_invariant (N : nat) (s : system) : Prop :=
  (permits s + in_flight s = N)%nat /\ Forall task_wf (tasks s).

(** ** [MessagePullService.pull_all_messages] *)

Definition channel_names : list string := ["email"; "whatsapp"; "teams"].

(** The loop over [enumerate(results)], from index [idx] on: the list of an
    adapter that returned is appended to [all_messages], the exception of an
    adapter that raised is logged under the adapter's name. *)
Fixpoint combine_results (idx : nat) (results : list (res (list dict)))
    (all_messages : list dict) (log : list string)
    : res (list dict) * list string :=
  match results with
  | [] => (Ok all_messages, log)
  | Exn e :: rest =>
      match channel_names !! idx with
      | Some channel_name =>
          combine_results (S idx) rest all_messages
            (log ++ [("Error pulling from " ++ channel_name ++ ": " ++ e)%string])%list
      | None => (Exn "list index out of range", log)
      end
  | Ok l :: rest =>
      combine_results (S idx) rest (all_messages ++ l)%list log
  end.

(** [email], [whatsapp] and [teams] are what the three [pull_messages] calls
    return or raise; [gather] hands them over in this order.  The result
    comes with the error lines written to the log. *)
Definition pull_all_messages (email whatsapp teams : res (list dict))
    : res (list dict) * list string :=
  match combine_results 0 [email; whatsapp; teams] [] [] with
  | (Ok all_messages, log) => (Ok all_messages, log)
  | (Exn e, log) => (Ok [], (log ++ [("Error in pull_all_messages: " ++ e)%string])%list)
  end.

(** The messages of an adapter whose pull succeeded. *)
Definition messages_of (r : res (list dict)) : list dict :=
  match r with
  | Ok l => l
  | Exn _ => []
  end.

(** ** [MessagePullService.start_polling] and [stop_polling] *)

Record service : Type := {
  is_running : bool;
  poll_interval : Z
}.

Definition stop_polling (svc : service) : service :=
  {| is_running := false; poll_interval := poll_interval svc |}.

(** The three awaits of an iteration. *)
Inductive phase : Type := Pulling | Processing | Sleeping.

Inductive poll_event : Type :=
  | PollPull
  | PollCallback (messages : list dict)
  | PollSleep (seconds : Z)
  | PollError (e : string).

(** What surrounds one iteration of the loop: what the three adapters yield,
    what the callback does with a batch, and whether some other task calls
    [stop_polling] while the loop is suspended in a given await. *)
Record iteration_env : Type := {
  pulled : res (list dict) * res (list dict) * res (list dict);
  callback : list dict -> res unit;
  stop_requested : phase -> bool
}.

(** The loop is suspended in the await [p]; other tasks run meanwhile. *)
Definition suspended (ie : iteration_env) (p : phase) (svc : service)
    : service :=
  if stop_requested ie p then stop_polling svc else svc.

Definition pulled_messages (ie : iteration_env) : res (list dict) :=
  let '(email, whatsapp, teams) := pulled ie in
  fst (pull_all_messages email whatsapp teams).

(** The body of the [try] of the loop. *)
Definition iteration_body (ie : iteration_env) (svc : service)
    : res unit * list poll_event * service :=
  let svc1 := suspended ie Pulling svc in
  match pulled_messages ie with
  | Exn e => (Exn e, [PollPull], svc1)
  | Ok messages =>
      if nonempty messages then
        let svc2 := suspended ie Processing svc1 in
        match callback ie messages with
        | Exn e => (Exn e, [PollPull; PollCallback messages], svc2)
        | Ok _ =>
            (Ok (),
             [PollPull; PollCallback messages; PollSleep (poll_interval svc2)],
             suspended ie Sleeping svc2)
        end
      else
        (Ok (), [PollPull; PollSleep (poll_interval svc1)],
         suspended ie Sleeping svc1)
  end.

(** One pass through the body of [while self.is_running]. *)
Definition polling_iteration (ie : iteration_env) (svc : service)
    : list poll_event * service :=
  match iteration_body ie svc with
  | (Ok _, evs, svc') => (evs, svc')
  | (Exn e, evs, svc') =>
      ((evs ++ [PollError e; PollSleep (poll_interval svc')])%list,
       suspended ie Sleeping svc')
  end.

(** The [while] loop, for at most [fuel] tests of its condition.  [envs k]
    surrounds the iteration of index [k].  The boolean says whether the loop
    was left ([start_polling] returned). *)
Fixpoint polling_loop (fuel : nat) (envs : nat -> iteration_env) (k : nat)
    (svc : service) : list poll_event * service * bool :=
  match fuel with
  | O => ([], svc, false)
  | S fuel' =>
      if is_running svc then
        let '(evs, svc') := polling_iteration (envs k) svc in
        let '(rest, svc'', returned) := polling_loop fuel' envs (S k) svc' in
        ((evs ++ rest)%list, svc'', returned)
      else ([], svc, true)
  end.

Definition start_polling (fuel : nat) (envs : nat -> iteration_env)
    (svc : service) : list poll_event * service * bool :=
  polling_loop fuel envs 0
    {| is_running := true; poll_interval := poll_interval svc |}.

(** The events of an iteration, read off what the adapters and the callback
    do: pull; process the batch when there is one; sleep, also after a
    fault. *)
Definition iteration_events (interval : Z) (ie : iteration_env)
    : list poll_event :=
  match pulled_messages ie with
  | Exn e => [PollPull; PollError e; PollSleep interval]
  | Ok messages =>
      if nonempty messages then
        match callback ie messages with
        | Ok _ => [PollPull; PollCallback messages; PollSleep interval]
        | Exn e =>
            [PollPull; PollCallback messages; PollError e; PollSleep interval]
        end
      else [PollPull; PollSleep interval]
  end.

(** [stop_polling] ran while the iteration was suspended in one of its
    awaits. *)
Definition stop_fired (ie : iteration_env) : bool :=
  stop_requested ie Pulling
  || (stop_requested ie Processing
      && match pulled_messages ie with
         | Ok messages => nonempty messages
         | Exn _ => false
         end)
  || stop_requested ie Sleeping.

(** The events of the iterations [k], ..., [k + n - 1]. *)
Fixpoint iterations_events (interval : Z) (envs : nat -> iteration_env)
    (k n : nat) : list poll_event :=
  match n with
  | O => []
  | S n' =>
      (iteration_events interval (envs k)
       ++ iterations_events interval envs (S k) n')%list
  end.

Definition is_sleep (ev : poll_event) : bool :=
  match ev with PollSleep _ => true | _ => false end.

(** Sample surroundings of an iteration: WhatsApp fails and the callback
    raises; nothing arrives and [stop_polling] is called during the sleep. *)
Definition iteration_faulty : iteration_env :=
  {| pulled := (Ok [sample_message], Exn "HTTP 503", Ok []);
     callback := fun _ => Exn "callback failed";
     stop_requested := fun _ => false |}.

Definition iteration_stopped : iteration_env :=
  {| pulled := (Ok [], Ok [], Ok []);
     callback := fun _ => Ok ();
     stop_requested :=
       fun p => match p with Sleeping => true | _ => false end |}.

Definition sample_iterations (k : nat) : iteration_env :=
  match k with
  | O => iteration_faulty
  | _ => iteration_stopped
  end.

Definition sample_service : service :=
  {| is_running := false; poll_interval := 60 |}.

(** ** Effects of a channel adapter

    A pull returns or raises, and it updates the adapter's
    [processed_messages] on the way; what was added to the set before an
    exception stays added. *)

Definition ST (S A : Type) : Type := S -> res A * S.

Definition st_ret {S A} (a : A) : ST S A := fun s => (Ok a, s).

Definition st_lift {S A} (r : res A) : ST S A := fun s => (r, s).

Definition st_bind {S A B} (m : ST S A) (f : A -> ST S B) : ST S B :=
  fun s =>
    match m s with
    | (Ok a, s') => f a s'
    | (Exn e, s') => (Exn e, s')
    end.

(** [try: m except Exception as e: h(str(e))] *)
Definition st_try {S A} (m : ST S A) (h : string -> ST S A) : ST S A :=
  fun s =>
    match m s with
    | (Ok a, s') => (Ok a, s')
    | (Exn e, s') => h e s'
    end.

Declare Scope st_scope.
Delimit Scope st_scope with st.
Notation "x <- m ;; k" := (st_bind m (fun x => k))
  (at level 100, m at next level, right associativity) : st_scope.

(** The keys of the canonical message. *)
Definition canonical_keys : list string :=
  ["message_id"; "channel"; "sender"; "content"; "timestamp"; "metadata"].

(** A canonical message of a channel: a dictionary with exactly these keys,
    the channel's name under [channel] and a dictionary under [metadata]. *)
Definition canonical (channel : string) (m : dict) : Prop :=
  dom m = list_to_set canonical_keys /\
  m !! "channel" = Some (VStr channel) /\
  exists md, m !! "metadata" = Some (VDict md).

(** ** [EmailChannelHandler] *)

(** What [_parse_email_message] reads from a message with the [email]
    library: the address of the sender, the headers, the stripped text of the
    body and the date in ISO format (the current time when the header does
    not parse). *)
Record email_fields : Type := {
  from_addr : string;
  subject : value;
  body : string;
  date_iso : string;
  header_to : value;
  header_cc : value
}.

(** The dictionary [_parse_email_message] returns.  [msg_id] is the decoded
    id: a byte string and its decoding have one representation here. *)
Definition _parse_email_message (f : email_fields) (msg_id : string) : dict :=
  <["message_id" := VStr msg_id]>
  (<["channel" := VStr "email"]>
  (<["sender" := VStr (from_addr f)]>
  (<["content" := VStr (body f)]>
  (<["timestamp" := VStr (date_iso f)]>
  (<["metadata" :=
       VDict (<["subject" := subject f]>
             (<["to" := header_to f]>
             (<["cc" := header_cc f]> ∅)))]> ∅))))).

(** The mail server during one pull.  Every call may raise.
    [imap_search] gives the status and [message_ids[0].split()];
    [imap_fetch idx msg_id], for the id at position [idx] of that list, gives
    the status and what reading the fetched message yields
    ([msg_data[0][1]], [email.message_from_bytes], [msg_id.decode()] and the
    extraction of [_parse_email_message]), which may raise too. *)
Record imap_session : Type := {
  imap_connect : res unit;
  imap_login : res unit;
  imap_select : res unit;
  imap_search : res (string * res (list string));
  imap_fetch : nat -> string -> res (string * res email_fields);
  imap_close : res unit;
  imap_logout : res unit
}.

(** The loop over [message_id_list], from position [idx] on. *)
Fixpoint email_loop (io : imap_session) (idx : nat)
    (message_id_list : list string) (messages : list dict)
    : ST (gset string) (list dict) :=
  match message_id_list with
  | [] => st_ret messages
  | msg_id :: rest =>
      fun processed_messages =>
        if decide (msg_id ∈ processed_messages) then
          email_loop io (S idx) rest messages processed_messages
        else
          (fetched <- st_lift (imap_fetch io idx msg_id) ;;
           if negb (String.eqb (fst fetched) "OK") then
             email_loop io (S idx) rest messages
           else
             fields <- st_lift (snd fetched) ;;
             fun processed_messages =>
               email_loop io (S idx) rest
                 (messages ++ [_parse_email_message fields msg_id])%list
                 ({[ msg_id ]} ∪ processed_messages))%st
            processed_messages
  end.

(** The body of the [try] of [pull_messages]. *)
Definition email_pull_body (io : imap_session)
    : ST (gset string) (list dict) :=
  (_ <- st_lift (imap_connect io) ;;
   _ <- st_lift (imap_login io) ;;
   _ <- st_lift (imap_select io) ;;
   found <- st_lift (imap_search io) ;;
   if negb (String.eqb (fst found) "OK") then st_ret []
   else
     message_id_list <- st_lift (snd found) ;;
     messages <- email_loop io 0 message_id_list [] ;;
     _ <- st_lift (imap_close io) ;;
     _ <- st_lift (imap_logout io) ;;
     st_ret messages)%st.

Definition email_pull_messages (io : imap_session)
    : ST (gset string) (list dict) :=
  st_try (email_pull_body io) (fun _ => st_ret []).

(** ** [WhatsAppChannelHandler] *)

(** The elements of a Python set of message ids: [None], numbers and strings
    ([True] and [1], [False] and [0] are the same element). *)
Inductive hkey : Type :=
  | KNone
  | KInt (z : Z)
  | KStr (s : string).

#[global] Instance hkey_eq_dec : EqDecision hkey.
Proof. solve_decision. Defined.

#[global] Instance hkey_countable : Countable hkey.
Proof.
  refine (inj_countable'
            (fun k => match k with
                      | KNone => inl ()
                      | KInt z => inr (inl z)
                      | KStr s => inr (inr s)
                      end)
            (fun x => match x with
                      | inl _ => KNone
                      | inr (inl z) => KInt z
                      | inr (inr s) => KStr s
                      end) _).
  intros []; reflexivity.
Defined.

(** [hash(v)], as far as membership in a set needs it: lists and
    dictionaries are unhashable. *)
Definition hash_key (v : value) : res hkey :=
  match v with
  | VNone => Ok KNone
  | VBool b => Ok (KInt (if b then 1 else 0))
  | VInt z => Ok (KInt z)
  | VStr s => Ok (KStr s)
  | VList _ => Exn "unhashable type: 'list'"
  | VDict _ => Exn "unhashable type: 'dict'"
  end.

Fixpoint chars (s : string) : list value :=
  match s with
  | EmptyString => []
  | String c s' => VStr (String c EmptyString) :: chars s'
  end.

(** [for x in v]: the elements of a list, the characters of a string, the
    keys of a dictionary (their order plays no part below: the loop that
    iterates raises at the first key). *)
Definition py_iter (v : value) : res (list value) :=
  match v with
  | VList l => Ok l
  | VStr s => Ok (chars s)
  | VDict d => Ok (VStr <$> (map_to_list d).*1)
  | _ => Exn ("'" ++ type_name v ++ "' object is not iterable")
  end.

(** The WhatsApp API during one pull: [client.get] raises, or answers with a
    status code and a body that [response.json()] parses or rejects.
    [wa_clock] is the ISO timestamp computed from the [timestamp] field (the
    current time when it does not convert), [wa_repr] the text of a value
    inside an f-string. *)
Record whatsapp_exchange : Type := {
  http_get : res (Z * res value);
  wa_clock : value -> string;
  wa_repr : value -> string
}.

Definition nested_get (msg_data : dict) (outer inner : string) (dflt : value)
    : res value :=
  value_get (dict_get msg_data outer (VDict ∅)) inner dflt.

Definition whatsapp_content (io : whatsapp_exchange) (msg_data : dict)
    (msg_type : value) : res value :=
  if eq_str msg_type "text" then
    nested_get msg_data "text" "body" (VStr "")
  else if eq_str msg_type "image" then
    match nested_get msg_data "image" "caption" (VStr "") with
    | Ok c => Ok (VStr ("[Image] " ++ py_str (wa_repr io) c))
    | Exn e => Exn e
    end
  else if eq_str msg_type "document" then
    match nested_get msg_data "document" "filename" (VStr "") with
    | Ok c => Ok (VStr ("[Document] " ++ py_str (wa_repr io) c))
    | Exn e => Exn e
    end
  else if eq_str msg_type "audio" then Ok (VStr "[Audio Message]")
  else if eq_str msg_type "video" then
    match nested_get msg_data "video" "caption" (VStr "") with
    | Ok c => Ok (VStr ("[Video] " ++ py_str (wa_repr io) c))
    | Exn e => Exn e
    end
  else Ok (VStr "").

Definition _parse_whatsapp_message (io : whatsapp_exchange) (msg_data : dict)
    : res dict :=
  let msg_type := dict_get msg_data "type" (VStr "text") in
  match whatsapp_content io msg_data msg_type with
  | Exn e => Exn e
  | Ok content =>
      let timestamp := wa_clock io (dict_get msg_data "timestamp" (VInt 0)) in
      match nested_get msg_data "profile" "name" (VStr "") with
      | Exn e => Exn e
      | Ok name =>
          Ok (<["message_id" := dict_get msg_data "id" (VStr "unknown")]>
             (<["channel" := VStr "whatsapp"]>
             (<["sender" := dict_get msg_data "from" (VStr "unknown")]>
             (<["content" := content]>
             (<["timestamp" := VStr timestamp]>
             (<["metadata" :=
                  VDict (<["type" := msg_type]>
                        (<["name" := name]>
                        (<["context" :=
                             dict_get msg_data "context" (VDict ∅)]> ∅)))]>
              ∅))))))
      end
  end.

(** The loop over [data.get('messages', [])]. *)
Fixpoint whatsapp_loop (io : whatsapp_exchange) (items : list value)
    (messages : list dict) : ST (gset hkey) (list dict) :=
  match items with
  | [] => st_ret messages
  | item :: rest =>
      match item with
      | VDict msg_data =>
          let msg_id := dict_get msg_data "id" VNone in
          (k <- st_lift (hash_key msg_id) ;;
           fun processed_messages =>
             if decide (k ∈ processed_messages) then
               whatsapp_loop io rest messages processed_messages
             else
               (standardized_message <-
                  st_lift (_parse_whatsapp_message io msg_data) ;;
                fun processed_messages =>
                  whatsapp_loop io rest
                    (messages ++ [standardized_message])%list
                    ({[ k ]} ∪ processed_messages))%st
                 processed_messages)%st
      | _ => st_lift (Exn (attribute_error item "get"))
      end
  end.

(** The body of the [try] of [pull_messages]. *)
Definition whatsapp_pull_body (io : whatsapp_exchange)
    : ST (gset hkey) (list dict) :=
  (response <- st_lift (http_get io) ;;
   if negb (fst response =? 200) then st_ret []
   else
     data <- st_lift (snd response) ;;
     listed <- st_lift (value_get data "messages" (VList [])) ;;
     items <- st_lift (py_iter listed) ;;
     whatsapp_loop io items [])%st.

Definition whatsapp_pull_messages (io : whatsapp_exchange)
    : ST (gset hkey) (list dict) :=
  st_try (whatsapp_pull_body io) (fun _ => st_ret []).

(** ** [TeamsChannelHandler] *)

Definition teams_pull_body : ST (gset hkey) (list dict) := st_ret [].

Definition teams_pull_messages : ST (gset hkey) (list dict) :=
  st_try teams_pull_body (fun _ => st_ret []).

(** ** Reading a pull *)

(** [m['message_id']] *)
Definition message_id_of (m : dict) : value := dict_get m "message_id" VNone.

(** The [(channel, message_id)] pairs a pull delivered. *)
Definition delivered_pairs (r : res (list dict)) : list (value * value) :=
  match r with
  | Ok l => (fun m => (dict_get m "channel" VNone, message_id_of m)) <$> l
  | Exn _ => []
  end.

(** The id under which the adapter recorded the payload of a delivered
    message [m] is [k]: the hash of [m['message_id']], or, for a payload
    without an [id], [None] next to the message id ['unknown']. *)
Definition recorded_as (m : dict) (k : hkey) : Prop :=
  hash_key (message_id_of m) = Ok k \/
  (k = KNone /\ message_id_of m = VStr "unknown").

(** Successive pulls of one handler within a process: the set left by a pull
    is the set the next one starts from.  The result lists what each pull
    delivered. *)
Fixpoint email_pulls (ios : list imap_session) (processed : gset string)
    : list (list dict) :=
  match ios with
  | [] => []
  | io :: rest =>
      let '(r, processed') := email_pull_messages io processed in
      messages_of r :: email_pulls rest processed'
  end.

Fixpoint whatsapp_pulls (ios : list whatsapp_exchange) (processed : gset hkey)
    : list (list dict) :=
  match ios with
  | [] => []
  | io :: rest =>
      let '(r, processed') := whatsapp_pull_messages io processed in
      messages_of r :: whatsapp_pulls rest processed'
  end.

(** Sample payloads: a text message without an [id], and one whose [id] is
    the string ['unknown']. *)
Definition wa_without_id : value :=
  VDict (<["from" := VStr "15550001"]>
        (<["type" := VStr "text"]>
        (<["text" := VDict {[ "body" := VStr "hello" ]}]> ∅))).

Definition wa_id_unknown : value :=
  VDict (<["id" := VStr "unknown"]>
        (<["from" := VStr "15550002"]>
        (<["type" := VStr "text"]>
        (<["text" := VDict {[ "body" := VStr "hi again" ]}]> ∅)))).

(** The API answers 200 with the given payloads under [messages]. *)
Definition wa_response (items : list value) : whatsapp_exchange :=
  {| http_get := Ok (200, Ok (VDict {[ "messages" := VList items ]}));
     wa_clock := fun _ => "2025-11-03T10:00:00";
     wa_repr := fun _ => "" |}.

(** A mail server with two unseen messages, of which the second cannot be
    fetched. *)
Definition sample_fields : email_fields :=
  {| from_addr := "customer@example.com";
     subject := VStr "Claim Status Inquiry";
     body := "I would like to check the status of my claim";
     date_iso := "2025-11-03T10:00:00";
     header_to := VStr "support@example.com";
     header_cc := VStr "" |}.

Definition imap_second_fetch_fails : imap_session :=
  {| imap_connect := Ok ();
     imap_login := Ok ();
     imap_select := Ok ();
     imap_search := Ok ("OK", Ok ["1"; "2"]);
     imap_fetch := fun idx _ =>
       if Nat.eqb idx 0 then Ok ("OK", Ok sample_fields)
       else Exn "socket error";
     imap_close := Ok ();
     imap_logout := Ok () |}.

(** ** [MessagePullService.pull_from_channel]

    The service holds the three handlers; each handler holds its own
    [processed_messages]. *)

Record handlers_state : Type := {
  email_processed : gset string;
  whatsapp_processed : gset hkey;
  teams_processed : gset hkey
}.

(** What the providers do while the service pulls. *)
Record providers : Type := {
  email_io : imap_session;
  whatsapp_io : whatsapp_exchange
}.

Definition pull_email (io : providers) : ST handlers_state (list dict) :=
  fun st =>
    let '(r, p) := email_pull_messages (email_io io) (email_processed st) in
    (r, {| email_processed := p;
           whatsapp_processed := whatsapp_processed st;
           teams_processed := teams_processed st |}).

Definition pull_whatsapp (io : providers) : ST handlers_state (list dict) :=
  fun st =>
    let '(r, p) :=
      whatsapp_pull_messages (whatsapp_io io) (whatsapp_processed st) in
    (r, {| email_processed := email_processed st;
           whatsapp_processed := p;
           teams_processed := teams_processed st |}).

Definition pull_teams : ST handlers_state (list dict) :=
  fun st =>
    let '(r, p) := teams_pull_messages (teams_processed st) in
    (r, {| email_processed := email_processed st;
           whatsapp_processed := whatsapp_processed st;
           teams_processed := p |}).

Definition pull_from_channel (io : providers) (channel_name : value)
    : ST handlers_state (list dict) :=
  st_try
    (name <- st_lift (value_lower channel_name) ;;
     if String.eqb name "email" then pull_email io
     else if String.eqb name "whatsapp" then pull_whatsapp io
     else if String.eqb name "teams" then pull_teams
     else st_ret [])%st
    (fun _ => st_ret []).

(** [pull_all_messages] on the handlers of the service: the three pulls,
    which touch disjoint state, and the combination of their results. *)
Definition service_pull_all (io : providers) : ST handlers_state (list dict) :=
  fun st =>
    let '(e, st1) := pull_email io st in
    let '(w, st2) := pull_whatsapp io st1 in
    let '(t, st3) := pull_teams st2 in
    (fst (pull_all_messages e w t), st3).

(** ** [Orchestrator.start]

    [start] hands [process_messages] to [start_polling] as the callback.
    The callback returns when [gather] has seen every task complete. *)

Definition process_messages_completed (envs : nat -> Env)
    (messages : list dict) : res (list value) :=
  collect_results messages 0
    (imap (fun i m => fst (process_message (envs i) m)) messages) [].

(** What surrounds one iteration of the orchestrator's loop: the adapters'
    results, the collaborators of each pipeline run of the batch, and the
    calls of [stop]. *)
Record orchestrator_iteration : Type := {
  o_pulled : res (list dict) * res (list dict) * res (list dict);
  o_runs : nat -> Env;
  o_stop_requested : phase -> bool
}.

Definition orchestrator_callback (oi : orchestrator_iteration)
    (messages : list dict) : res unit :=
  match process_messages_completed (o_runs oi) messages with
  | Ok _ => Ok ()
  | Exn e => Exn e
  end.

Definition orchestrator_env (oi : orchestrator_iteration) : iteration_env :=
  {| pulled := o_pulled oi;
     callback := orchestrator_callback oi;
     stop_requested := o_stop_requested oi |}.

Definition orchestrator_start (fuel : nat)
    (surroundings : nat -> orchestrator_iteration) (svc : service)
    : list poll_event * service * bool :=
  start_polling fuel (fun k => orchestrator_env (surroundings k)) svc.

Definition is_poll_error (ev : poll_event) : bool :=
  match ev with PollError _ => true | _ => false end.

(** ** [WhatsAppChannelHandler.handle_webhook]

    The webhook walks [entry] / [changes] / [value] / [messages] and treats
    each message as the loop of [pull_messages] does; both share the
    handler's [processed_messages]. *)

(** The loop over [entry.get('changes', [])]. *)
Fixpoint webhook_changes (io : whatsapp_exchange) (changes : list value)
    (messages : list dict) : ST (gset hkey) (list dict) :=
  match changes with
  | [] => st_ret messages
  | change :: rest =>
      (payload <- st_lift (value_get change "value" (VDict ∅)) ;;
       listed <- st_lift (value_get payload "messages" (VList [])) ;;
       items <- st_lift (py_iter listed) ;;
       messages' <- whatsapp_loop io items messages ;;
       webhook_changes io rest messages')%st
  end.

(** The loop over [webhook_data.get('entry', [])]. *)
Fixpoint webhook_entries (io : whatsapp_exchange) (entries : list value)
    (messages : list dict) : ST (gset hkey) (list dict) :=
  match entries with
  | [] => st_ret messages
  | entry :: rest =>
      (listed <- st_lift (value_get entry "changes" (VList [])) ;;
       changes <- st_lift (py_iter listed) ;;
       messages' <- webhook_changes io changes messages ;;
       webhook_entries io rest messages')%st
  end.

(** The body of the [try] of [handle_webhook]. *)
Definition whatsapp_webhook_body (io : whatsapp_exchange)
    (webhook_data : dict) : ST (gset hkey) (list dict) :=
  (entries <- st_lift (py_iter (dict_get webhook_data "entry" (VList []))) ;;
   webhook_entries io entries [])%st.

Definition whatsapp_handle_webhook (io : whatsapp_exchange)
    (webhook_data : dict) : ST (gset hkey) (list dict) :=
  st_try (whatsapp_webhook_body io webhook_data) (fun _ => st_ret []).

(** One intake of the WhatsApp handler: a pull or a webhook call. *)
Inductive whatsapp_intake : Type :=
  | WaPull (io : whatsapp_exchange)
  | WaWebhook (io : whatsapp_exchange) (webhook_data : dict).

Definition whatsapp_take (x : whatsapp_intake) : ST (gset hkey) (list dict) :=
  match x with
  | WaPull io => whatsapp_pull_messages io
  | WaWebhook io webhook_data => whatsapp_handle_webhook io webhook_data
  end.

(** Successive intakes of one handler; the result lists what each
    delivered. *)
Fixpoint whatsapp_intakes (xs : list whatsapp_intake) (processed : gset hkey)
    : list (list dict) :=
  match xs with
  | [] => []
  | x :: rest =>
      let '(r, processed') := whatsapp_take x processed in
      messages_of r :: whatsapp_intakes rest processed'
  end.

(** ** [TeamsChannelHandler._parse_teams_message] and [handle_webhook] *)

(** [now] is [datetime.utcnow().isoformat()], the default of the
    timestamp. *)
Definition _parse_teams_message (now : string) (activity : dict) : res dict :=
  let content := dict_get activity "text" (VStr "") in
  let sender_info := dict_get activity "from" (VDict ∅) in
  match value_get sender_info "id" (VStr "unknown") with
  | Exn e => Exn e
  | Ok sender_id =>
      match value_get sender_info "name" sender_id with
      | Exn e => Exn e
      | Ok sender =>
          let timestamp := dict_get activity "timestamp" (VStr now) in
          let conversation := dict_get activity "conversation" (VDict ∅) in
          match value_get conversation "id" (VStr "") with
          | Exn e => Exn e
          | Ok conversation_id =>
              match value_get (dict_get activity "recipient" (VDict ∅))
                              "name" (VStr "") with
              | Exn e => Exn e
              | Ok recipient =>
                  Ok (<["message_id" :=
                          dict_get activity "id" (VStr "unknown")]>
                     (<["channel" := VStr "teams"]>
                     (<["sender" := sender]>
                     (<["content" := content]>
                     (<["timestamp" := timestamp]>
                     (<["metadata" :=
                          VDict
                            (<["conversation_id" := conversation_id]>
                            (<["channel_id" :=
                                 dict_get activity "channelId" (VStr "")]>
                            (<["service_url" :=
                                 dict_get activity "serviceUrl" (VStr "")]>
                            (<["recipient" := recipient]>
                            (<["activity_type" :=
                                 dict_get activity "type" (VStr "message")]>
                             ∅)))))]> ∅))))))
              end
          end
      end
  end.

(** The body of the [try] of [handle_webhook]: the standardized message, or
    [None]. *)
Definition teams_webhook_body (now : string) (activity : dict)
    : ST (gset hkey) value :=
  fun processed_messages =>
    let message_id := dict_get activity "id" VNone in
    if truthy message_id then
      match hash_key message_id with
      | Exn e => (Exn e, processed_messages)
      | Ok k =>
          if decide (k ∈ processed_messages) then (Ok VNone, processed_messages)
          else
            match _parse_teams_message now activity with
            | Exn e => (Exn e, processed_messages)
            | Ok standardized_message =>
                (Ok (VDict standardized_message),
                 {[ k ]} ∪ processed_messages)
            end
      end
    else (Ok VNone, processed_messages).

Definition teams_handle_webhook (now : string) (activity : dict)
    : ST (gset hkey) value :=
  st_try (teams_webhook_body now activity) (fun _ => st_ret VNone).

(** The messages a sequence of webhook calls delivered: the results that
    are not [None]. *)
Fixpoint teams_webhooks (calls : list (string * dict)) (processed : gset hkey)
    : list dict :=
  match calls with
  | [] => []
  | (now, activity) :: rest =>
      let '(r, processed') := teams_handle_webhook now activity processed in
      match r with
      | Ok (VDict m) => m :: teams_webhooks rest processed'
      | _ => teams_webhooks rest processed'
      end
  end.

(** What a loop of the WhatsApp handler leaves behind when it started with
    the list [messages] and the set [p]: the set has grown, and when the loop
    returned, it appended canonical messages whose recorded ids are pairwise
    different, were not in the set before and are in it now. *)
Definition whatsapp_loop_post (messages : list dict) (p : gset hkey)
    (r : res (list dict)) (p' : gset hkey) : Prop :=
  (p ⊆ p') /\
  forall l, r = Ok l ->
    exists new ks,
      l = (messages ++ new)%list /\
      Forall (canonical "whatsapp") new /\
      Forall2 recorded_as new ks /\
      NoDup ks /\
      forall k, k ∈ ks -> (k ∉ p) /\ (k ∈ p').

(** Sample activities of the Teams webhook: one whose [from] is not an
    object, and the same activity well formed. *)
Definition teams_activity_malformed : dict :=
  <["id" := VStr "a-1"]> (<["text" := VStr "hello"]>
  (<["from" := VStr "user2"]> ∅)).

Definition teams_activity_ok : dict :=
  <["id" := VStr "a-1"]> (<["text" := VStr "hello"]>
  (<["from" := VDict {[ "name" := VStr "user2" ]}]> ∅)).

(** ** Sequencing of calls that return or raise *)

Definition res_bind {A B} (r : res A) (f : A -> res B) : res B :=
  match r with
  | Ok a => f a
  | Exn e => Exn e
  end.

Declare Scope res_scope.
Delimit Scope res_scope with res.
Notation "x <- m ;; k" := (res_bind m (fun x => k))
  (at level 100, m at next level, right associativity) : res_scope.

(** [[f(x) for x in l]], stopping at the first exception *)
Fixpoint res_map {A B} (f : A -> res B) (l : list A) : res (list B) :=
  match l with
  | [] => Ok []
  | x :: rest =>
      (y <- f x ;; ys <- res_map f rest ;; Ok (y :: ys))%res
  end.

(** ** [EmailChannelHandler.send_message] *)

(** The message handed to the SMTP server. *)
Record outgoing_email : Type := {
  mail_from : string;
  mail_to : value;
  mail_subject : value;
  mail_body : string
}.

(** The SMTP server during one send.  Every call may raise. *)
Record smtp_session : Type := {
  smtp_connect : res unit;
  smtp_starttls : res unit;
  smtp_login : res unit;
  smtp_send : outgoing_email -> res unit;
  smtp_quit : res unit
}.

Definition default_subject : string := "Response to your inquiry".

(** [metadata.get('subject', default) if metadata else default] *)
Definition email_subject (metadata : value) : res value :=
  if truthy metadata then value_get metadata "subject" (VStr default_subject)
  else Ok (VStr default_subject).

(** [MIMEText(content, 'plain')]: the text must be a string. *)
Definition mime_text (content : value) : res string :=
  match content with
  | VStr s => Ok s
  | _ => Exn (attribute_error content "encode")
  end.

(** The body of the [try] of [send_message]; it yields the message the
    server accepted. *)
Definition email_send_body (username : string) (smtp : smtp_session)
    (recipient content metadata : value) : res outgoing_email :=
  (subject <- email_subject metadata ;;
   text <- mime_text content ;;
   let msg := {| mail_from := username; mail_to := recipient;
                 mail_subject := subject; mail_body := text |} in
   _ <- smtp_connect smtp ;;
   _ <- smtp_starttls smtp ;;
   _ <- smtp_login smtp ;;
   _ <- smtp_send smtp msg ;;
   _ <- smtp_quit smtp ;;
   Ok msg)%res.

Definition email_handler_send (username : string) (smtp : smtp_session)
    (recipient content metadata : value) : bool :=
  match email_send_body username smtp recipient content metadata with
  | Ok _ => true
  | Exn _ => false
  end.

(** ** [WhatsAppChannelHandler.send_message] *)

Definition whatsapp_payload (recipient content : value) : dict :=
  <["messaging_product" := VStr "whatsapp"]>
  (<["recipient_type" := VStr "individual"]>
  (<["to" := recipient]>
  (<["type" := VStr "text"]>
  (<["text" := VDict (<["preview_url" := VBool false]>
                     (<["body" := content]> ∅))]> ∅)))).

(** [post payload] is the status code of [client.post], or the exception it
    raises. *)
Definition whatsapp_handler_send (post : dict -> res Z)
    (recipient content metadata : value) : bool :=
  match post (whatsapp_payload recipient content) with
  | Ok code => code =? 200
  | Exn _ => false
  end.

(** ** [TeamsChannelHandler.send_message] *)

(** The connector card as [pymsteams] holds it before [send]. *)
Record teams_card : Type := {
  card_title : option value;
  card_text : value;
  card_color : option string;
  card_sections : list (value * value)
}.

Definition card_title_of (metadata : value) : res (option value) :=
  if truthy metadata then
    (t <- value_get metadata "title" VNone ;;
     Ok (if truthy t then Some t else None))%res
  else Ok None.

Definition card_color_of (metadata : value) : res (option string) :=
  if truthy metadata then
    (ty <- value_get metadata "type" VNone ;;
     Ok (Some (if eq_str ty "error" then "FF0000"
               else if eq_str ty "success" then "00FF00"
               else if eq_str ty "warning" then "FFA500"
               else "0078D4")))%res
  else Ok None.

Definition card_section_of (section_data : value) : res (value * value) :=
  (t <- value_get section_data "title" (VStr "") ;;
   x <- value_get section_data "text" (VStr "") ;;
   Ok (t, x))%res.

Definition card_sections_of (metadata : value)
    : res (list (value * value)) :=
  if truthy metadata then
    (s <- value_get metadata "sections" VNone ;;
     if truthy s then
       items <- py_iter s ;;
       res_map card_section_of items
     else Ok [])%res
  else Ok [].

Definition teams_build_card (content metadata : value) : res teams_card :=
  (title <- card_title_of metadata ;;
   color <- card_color_of metadata ;;
   sections <- card_sections_of metadata ;;
   Ok {| card_title := title; card_text := content;
         card_color := color; card_sections := sections |})%res.

(** The body of the [try] of [send_message]; [send card] is
    [teams_message.send()]. *)
Definition teams_send_body (send : teams_card -> res unit)
    (recipient content metadata : value) : res teams_card :=
  (card <- teams_build_card content metadata ;;
   _ <- send card ;;
   Ok card)%res.

Definition teams_handler_send (send : teams_card -> res unit)
    (recipient content metadata : value) : bool :=
  match teams_send_body send recipient content metadata with
  | Ok _ => true
  | Exn _ => false
  end.

(** ** The orchestrator on top of the three handlers *)

(** The transports behind the handlers during one run. *)
Record transports : Type := {
  smtp_username : string;
  smtp : smtp_session;
  whatsapp_post : dict -> res Z;
  teams_send : teams_card -> res unit
}.

(** The collaborators of a run whose channel handlers are the three
    handlers of the repository. *)
Definition with_handlers (env : Env) (tr : transports) : Env :=
  with_senders env
    (fun r c md => email_handler_send (smtp_username tr) (smtp tr) r c (VDict md))
    (fun r c md => whatsapp_handler_send (whatsapp_post tr) r c (VDict md))
    (fun r c md => teams_handler_send (teams_send tr) r c (VDict md)).

(** Transports that accept everything. *)
Definition transports_ok : transports :=
  {| smtp_username := "bot@example.com";
     smtp := {| smtp_connect := Ok (); smtp_starttls := Ok ();
                smtp_login := Ok (); smtp_send := fun _ => Ok ();
                smtp_quit := Ok () |};
     whatsapp_post := fun _ => Ok 200;
     teams_send := fun _ => Ok () |}.

(** The message of [examples.py] as it would arrive over Teams and over
    WhatsApp. *)
Definition sample_teams_message : dict :=
  <["channel" := VStr "teams"]> (<["sender" := VStr "user-7"]> sample_message).

Definition sample_whatsapp_message : dict :=
  <["channel" := VStr "WhatsApp"]>
  (<["sender" := VStr "15550001"]> sample_message).

(** A WhatsApp API that accepts the message with [201 Created]. *)
Definition transports_created : transports :=
  {| smtp_username := smtp_username transports_ok;
     smtp := smtp transports_ok;
     whatsapp_post := fun _ => Ok 201;
     teams_send := teams_send transports_ok |}.

(** * The agents: [agents/classification_agent.py] and
      [agents/task_creation_agent.py]

    Both agents build a [crewai] task and execute it.  What the language
    model answers, the identifier that [uuid.uuid4()] draws and the readings
    of the clock are the surroundings of a call. *)

Record llm_session : Type := {
  (** [Task(...)] and [task.execute()] of the classification agent: any
      value, or an exception *)
  classification_execute : dict -> res value;
  (** the same for the task creation agent *)
  task_creation_execute : value -> dict -> res value;
  (** [str(uuid.uuid4())] *)
  uuid4 : string;
  (** the two readings [datetime.utcnow().isoformat()] of the fallback task,
      in the order in which the dictionary display evaluates them *)
  utcnow_timestamp : string;
  utcnow_created_at : string;
  (** the float [0.5], the confidence of both fallbacks; [value] holds no
      floating-point numbers *)
  confidence_half : value
}.

Module ClassificationAgent.

Definition _get_fallback_classification (llm : llm_session) (message : dict)
    : value :=
  VDict (<["action_id" := VStr "general_inquiry"]>
        (<["category" := VStr "inquiry"]>
        (<["ivo_attributes" :=
             VDict (<["customer_id" :=
                        dict_get message "sender" (VStr "unknown")]>
                   (<["policy_number" := VNone]>
                   (<["issue_type" := VStr "unclassified"]>
                   (<["priority" := VStr "medium"]>
                   (<["required_action" := VStr "manual_review"]>
                   (<["extracted_entities" := VDict ∅]> ∅))))))]>
        (<["confidence" := confidence_half llm]> ∅)))).

(** The body of the [try]: the answer of the model is returned once
    [result.get('action_id')] has been formatted into the log line. *)
Definition classify_body (llm : llm_session) (message : dict) : res value :=
  (result <- classification_execute llm message ;;
   _ <- value_get result "action_id" VNone ;;
   Ok result)%res.

Definition classify_message (llm : llm_session) (message : dict)
    : res value :=
  match classify_body llm message with
  | Ok result => Ok result
  | Exn _ => Ok (_get_fallback_classification llm message)
  end.

End ClassificationAgent.

Module TaskCreationAgent.

(** The fallback reads the classification with [classification.get], which
    raises when the classification is not a dictionary. *)
Definition _get_fallback_task (llm : llm_session) (classification : value)
    (message : dict) : res value :=
  (action_type <-
     value_get classification "action_id" (VStr "general_inquiry") ;;
   action_id <-
     value_get classification "action_id" (VStr "general_inquiry") ;;
   action_parameters <-
     value_get classification "ivo_attributes" (VDict ∅) ;;
   confidence <-
     value_get classification "confidence" (confidence_half llm) ;;
   Ok (VDict
     (<["task_id" := VStr (uuid4 llm)]>
     (<["action_type" := action_type]>
     (<["ivo_json" :=
          VDict (<["action_id" := action_id]>
                (<["request_type" := VStr "manual_review"]>
                (<["customer_data" :=
                     VDict (<["customer_id" :=
                                dict_get message "sender" (VStr "unknown")]>
                           (<["policy_number" := VNone]>
                           (<["contact_info" := VDict ∅]> ∅)))]>
                (<["action_parameters" := action_parameters]>
                (<["metadata" :=
                     VDict (<["source_channel" :=
                                dict_get message "channel" (VStr "unknown")]>
                           (<["timestamp" := VStr (utcnow_timestamp llm)]>
                           (<["original_message_id" :=
                                dict_get message "message_id"
                                         (VStr "unknown")]> ∅)))]> ∅)))))]>
     (<["execution_params" :=
          VDict (<["api_endpoint" := VStr "/api/v1/tasks/manual"]>
                (<["http_method" := VStr "POST"]>
                (<["timeout" := VInt 30]>
                (<["retry_strategy" :=
                     VDict (<["max_attempts" := VInt 3]>
                           (<["backoff" := VStr "exponential"]> ∅))]> ∅))))]>
     (<["metadata" :=
          VDict (<["created_at" := VStr (utcnow_created_at llm)]>
                (<["classification_confidence" := confidence]>
                (<["estimated_completion_time" := VStr "manual"]> ∅)))]>
      ∅)))))))%res.

(** The body of the [try]. *)
Definition create_body (llm : llm_session) (classification : value)
    (message : dict) : res value :=
  (_ <- value_get classification "action_id" VNone ;;
   result <- task_creation_execute llm classification message ;;
   _ <- value_get result "task_id" VNone ;;
   Ok result)%res.

(** The handler of the [try] calls the fallback, outside any [try]. *)
Definition create_task (llm : llm_session) (classification : value)
    (message : dict) : res value :=
  match create_body llm classification message with
  | Ok result => Ok result
  | Exn _ => _get_fallback_task llm classification message
  end.

End TaskCreationAgent.

(** The collaborators of a run whose first two agents are the agents of the
    repository. *)
Definition with_agents (env : Env) (llm : llm_session) : Env :=
  {| classify_message := ClassificationAgent.classify_message llm;
     create_task := TaskCreationAgent.create_task llm;
     execute_task := execute_task env;
     email_send_message := email_send_message env;
     whatsapp_send_message := whatsapp_send_message env;
     teams_send_message := teams_send_message env;
     py_repr := py_repr env |}.

(** * The IDIT API client: [services/idit_api_client.py] *)

Module IDITAPIClient.

(** The exceptions that [execute_action] tells apart, each with its
    [str(e)].  [httpx.TimeoutException] is a subclass of
    [httpx.RequestError]; the first matching handler is taken. *)
Inductive failure : Type :=
  | TimeoutException (e : string)
  | RequestError (e : string)
  | OtherException (e : string).

(** What the code reads of an [httpx.Response]. *)
Record response : Type := {
  status_code : Z;
  text : string;
  (** [response.json()]: the parsed body, or an exception *)
  json : res value;
  reason_phrase : string
}.

(** The four calls of the client, with the arguments that vary. *)
Inductive request : Type :=
  | Get (url : string) (params timeout : value)
  | Post (url : string) (body timeout : value)
  | Put (url : string) (body timeout : value)
  | Delete (url : string) (timeout : value).

Inductive answer : Type :=
  | Responded (r : response)
  | Failed (f : failure).

(** The client and its surroundings during one call. *)
Record client : Type := {
  base_url : string;
  (** [self.timeout] *)
  default_timeout : value;
  (** the server and the network *)
  send : request -> answer;
  (** [str.upper] *)
  upper : string -> string;
  (** [time.time() - start_time], a float: the reading that reaches the
      result of the call *)
  elapsed : value
}.

Definition _create_error_response (error_message : string) (code : Z)
    (execution_time : value) : value :=
  VDict (<["success" := VBool false]>
        (<["status_code" := VInt code]>
        (<["data" := VDict ∅]>
        (<["message" := VStr error_message]>
        (<["execution_time" := execution_time]> ∅))))).

(** [response.json() if response.text else {}], and the raw text when that
    raises *)
Definition response_data (r : response) : value :=
  match (if String.eqb (text r) "" then Ok (VDict ∅) else json r) with
  | Ok v => v
  | Exn _ => VDict (<["raw_response" := VStr (text r)]> ∅)
  end.

Definition is_success (r : response) : bool :=
  (200 <=? status_code r) && (status_code r <? 300).

Definition _parse_response (r : response) (execution_time : value)
    : res value :=
  let data := response_data r in
  let success := is_success r in
  (message <-
     (if success then value_get data "message" (VStr (reason_phrase r))
      else Ok (VStr ("Error: " ++ reason_phrase r))) ;;
   Ok (VDict (<["success" := VBool success]>
             (<["status_code" := VInt (status_code r)]>
             (<["data" := data]>
             (<["message" := message]>
             (<["execution_time" := execution_time]> ∅)))))))%res.

(** [timeout or self.timeout] *)
Definition request_timeout (c : client) (timeout : value) : value :=
  if truthy timeout then timeout else default_timeout c.

(** The request that the method selects, if any. *)
Definition build_request (c : client) (endpoint method : string)
    (data timeout : value) : option request :=
  let url := base_url c ++ endpoint in
  let t := request_timeout c timeout in
  if String.eqb (upper c method) "GET" then Some (Get url data t)
  else if String.eqb (upper c method) "POST" then Some (Post url data t)
  else if String.eqb (upper c method) "PUT" then Some (Put url data t)
  else if String.eqb (upper c method) "DELETE" then Some (Delete url t)
  else None.

(** The body of the [try] of [execute_action]: a result, or the exception
    that leaves the body. *)
Definition execute_body (c : client) (endpoint method : string)
    (data timeout : value) : value + failure :=
  match build_request c endpoint method data timeout with
  | None => inr (OtherException ("Unsupported HTTP method: " ++ method))
  | Some req =>
      match send c req with
      | Failed f => inr f
      | Responded r =>
          match _parse_response r (elapsed c) with
          | Ok result => inl result
          | Exn e => inr (OtherException e)
          end
      end
  end.

Definition execute_action (c : client) (endpoint method : string)
    (data timeout : value) : value :=
  match execute_body c endpoint method data timeout with
  | inl result => result
  | inr (TimeoutException _) =>
      _create_error_response "Request timeout" 408 (elapsed c)
  | inr (RequestError e) => _create_error_response e 500 (elapsed c)
  | inr (OtherException e) => _create_error_response e 500 (elapsed c)
  end.

(** [result["success"]]: the entry of a dictionary, or the exception of a
    missing key or of a value that is not a dictionary *)
Definition success_of (result : value) : res value :=
  match result with
  | VDict d =>
      match d !! "success" with
      | Some v => Ok v
      | None => Exn "'success'"
      end
  | _ => Exn ("'" ++ type_name result ++ "' object is not subscriptable")
  end.

Definition health_check (c : client) : value :=
  match success_of (execute_action c "/health" "GET" VNone VNone) with
  | Ok v => v
  | Exn _ => VBool false
  end.

End IDITAPIClient.

(** The upper-casing of the letters a-z, enough for the sample calls. *)
Definition upper_ascii (c : ascii) : ascii :=
  let n := nat_of_ascii c in
  if (Nat.leb 97 n && Nat.leb n 122)%bool then ascii_of_nat (n - 32) else c.

Fixpoint str_upper (s : string) : string :=
  match s with
  | EmptyString => EmptyString
  | String c s' => String (upper_ascii c) (str_upper s')
  end.

(** A server that answers every request with [200 OK] and a JSON array. *)
Definition idit_answers_array : IDITAPIClient.client :=
  {| IDITAPIClient.base_url := "https://idit.example.com";
     IDITAPIClient.default_timeout := VInt 30;
     IDITAPIClient.send := fun _ =>
       IDITAPIClient.Responded
         {| IDITAPIClient.status_code := 200;
            IDITAPIClient.text := "[1, 2]";
            IDITAPIClient.json := Ok (VList [VInt 1; VInt 2]);
            IDITAPIClient.reason_phrase := "OK" |};
     IDITAPIClient.upper := str_upper;
     IDITAPIClient.elapsed := VInt 0 |}.

(** * Properties of the orchestrator *)

Lemma bind_ok {A B} (a : A) (l : list event) (f : A -> M B) :
  bind (Ok a, l) f = (fst (f a), (l ++ snd (f a))%list).
Proof. unfold bind. destruct (f a). reflexivity. Qed.

Lemma bind_exn {A B} (e : string) (l : list event) (f : A -> M B) :
  bind (Exn e, l) f = (Exn e, l).
Proof. reflexivity. Qed.

(** ** The two outcome dictionaries *)

Lemma error_result_fields (message : dict) (e : string) :
  outcome_field (_create_error_result message e) "status" = VStr "error" /\
  outcome_field (_create_error_result message e) "message_id"
  = dict_get message "message_id" VNone /\
  outcome_field (_create_error_result message e) "channel"
  = dict_get message "channel" VNone /\
  outcome_field (_create_error_result message e) "error" = VStr e /\
  outcome_field (_create_error_result message e) "classification" = VNone /\
  outcome_field (_create_error_result message e) "task" = VNone /\
  outcome_field (_create_error_result message e) "execution" = VNone /\
  outcome_field (_create_error_result message e) "response_sent" = VBool false.
Proof. repeat split; reflexivity. Qed.

Lemma final_result_fields (message : dict) (c t x st : value) (b : bool) :
  outcome_field (final_result message c t x st b) "status"
  = VStr (if eq_str st "success" then "success" else "failed") /\
  outcome_field (final_result message c t x st b) "message_id"
  = dict_get message "message_id" VNone /\
  outcome_field (final_result message c t x st b) "channel"
  = dict_get message "channel" VNone /\
  outcome_field (final_result message c t x st b) "classification" = c /\
  outcome_field (final_result message c t x st b) "task" = t /\
  outcome_field (final_result message c t x st b) "execution" = x /\
  outcome_field (final_result message c t x st b) "response_sent" = VBool b.
Proof. repeat split; reflexivity. Qed.

Lemma final_result_not_errored (message : dict) (c t x st : value) (b : bool) :
  ~ errored (final_result message c t x st b).
Proof.
  unfold errored. rewrite (proj1 (final_result_fields message c t x st b)).
  destruct (eq_str st "success"); discriminate.
Qed.

Section Pipeline.

Context (env : Env) (message : dict).

(** ** The stage wrappers never raise *)

Lemma classify_message_total :
  exists c, _classify_message env message = (Ok c, [EvStage Classify]).
Proof.
  unfold _classify_message, try_catch, bind, emit, lift, ret.
  destruct (classify_message env message); simpl; eauto.
Qed.

Lemma create_task_total (c : value) :
  exists t l, _create_task env c message = (Ok t, l) /\ send_attempts l = [] /\
              List.filter is_gate l = [].
Proof.
  unfold _create_task, try_catch, bind, emit, lift, ret.
  destruct c; simpl; eauto 6.
  destruct (create_task env (VDict d) message); simpl; eauto 6.
Qed.

Lemma execute_task_total (t : value) :
  exists x l, _execute_task env t message = (Ok x, l) /\ send_attempts l = [] /\
              List.filter is_gate l = [].
Proof.
  unfold _execute_task, execute_body, try_catch, bind, emit, lift, ret.
  destruct t; simpl; eauto 6.
  destruct (execute_task env (VDict d) message); simpl; eauto 6.
Qed.

(** ** The response stage: at most one hand-over, and the flag is its answer *)

Lemma send_response_shape (channel recipient content : value) (md : dict) :
  exists b,
    (send_response env channel recipient content md = (Ok b, []) /\ b = false) \/
    (exists h, value_lower channel = Ok h /\
       send_response env channel recipient content md
       = (Ok b, [EvSend h recipient content md b])).
Proof.
  unfold send_response, try_catch, bind, emit, lift, ret.
  destruct channel as [| | |s| |]; simpl; try (exists false; left; split; reflexivity).
  destruct (String.eqb (str_lower s) "email") eqn:He.
  { apply String.eqb_eq in He. simpl. eexists. right. exists "email".
    rewrite He. split; reflexivity. }
  destruct (String.eqb (str_lower s) "whatsapp") eqn:Hw.
  { apply String.eqb_eq in Hw. simpl. eexists. right. exists "whatsapp".
    rewrite Hw. split; reflexivity. }
  destruct (String.eqb (str_lower s) "teams") eqn:Ht.
  { apply String.eqb_eq in Ht. simpl. eexists. right. exists "teams".
    rewrite Ht. split; reflexivity. }
  simpl. exists false. left. split; reflexivity.
Qed.

Lemma _send_response_shape (x : value) :
  exists b ls,
    _send_response env x message = (Ok b, ls) /\
    ((ls = [] /\ b = false) \/
     (exists h d md,
        x = VDict d /\
        value_lower (dict_get message "channel" VNone) = Ok h /\
        ls = [EvSend h (dict_get message "sender" VNone)
                     (dict_get d "user_response"
                               (VStr "Your request has been processed."))
                     md b])).
Proof.
  unfold _send_response.
  destruct x as [| | | | |d];
    try (exists false, []; split; [reflexivity | left; split; reflexivity]).
  simpl value_get. unfold lift at 1. unfold bind at 1. cbn [app].
  destruct (response_metadata env (VDict d) message) as [md|e] eqn:Hmd.
  2: { exists false, []. split; [reflexivity | left; split; reflexivity]. }
  unfold lift, bind.
  destruct (send_response_shape (dict_get message "channel" VNone)
              (dict_get message "sender" VNone)
              (dict_get d "user_response"
                 (VStr "Your request has been processed.")) md)
    as [b [[Hs Hb] | [h [Hl Hs]]]]; rewrite Hs; simpl.
  - exists b, []. split; [reflexivity | left; split; [reflexivity | exact Hb]].
  - exists b. eexists. split; [reflexivity |]. right. exists h, d, md.
    split; [reflexivity | split; [exact Hl | reflexivity]].
Qed.

Lemma create_task_quiet (c t : value) (l : list event) :
  _create_task env c message = (Ok t, l) ->
  send_attempts l = [] /\ List.filter is_gate l = [].
Proof.
  intros H. destruct (create_task_total c) as (t' & l' & H' & Hs & Hg).
  rewrite H in H'. injection H' as -> ->. split; assumption.
Qed.

Lemma execute_task_quiet (t x : value) (l : list event) :
  _execute_task env t message = (Ok x, l) ->
  send_attempts l = [] /\ List.filter is_gate l = [].
Proof.
  intros H. destruct (execute_task_total t) as (x' & l' & H' & Hs & Hg).
  rewrite H in H'. injection H' as -> ->. split; assumption.
Qed.

Lemma send_attempts_run_trace (l2 l3 ls : list event) :
  send_attempts l2 = [] -> send_attempts l3 = [] ->
  send_attempts (run_trace l2 l3 ls) = send_attempts ls.
Proof.
  intros H2 H3. unfold send_attempts, run_trace in *. cbn.
  rewrite !List.filter_app, H2, H3. cbn. apply app_nil_r.
Qed.

Lemma process_message_cases :
  exists c,
    _classify_message env message = (Ok c, [EvStage Classify]) /\
    ((truthy c = false /\
      process_message env message
      = (Ok (_create_error_result message "Classification failed"),
         run_trace [] [] [])) \/
     (truthy c = true /\
      exists t l2,
        _create_task env c message = (Ok t, l2) /\
        ((truthy t = false /\
          process_message env message
          = (Ok (_create_error_result message "Task creation failed"),
             run_trace l2 [] [])) \/
         (truthy t = true /\
          exists x l3 b ls,
            _execute_task env t message = (Ok x, l3) /\
            _send_response env x message = (Ok b, ls) /\
            ((exists d, x = VDict d /\
                process_message env message
                = (Ok (final_result message c t x
                         (dict_get d "execution_status" VNone) b),
                   run_trace l2 l3 ls)) \/
             ((forall d, x <> VDict d) /\ ls = [] /\
                process_message env message
                = (Ok (_create_error_result message (attribute_error x "get")),
                   run_trace l2 l3 []))))))).
Proof.
  destruct classify_message_total as [c Hc]. exists c. split; [exact Hc |].
  unfold process_message, pipeline_body. rewrite Hc, bind_ok.
  destruct (truthy c) eqn:Tc; [right | left]; (split; [reflexivity |]).
  2: { reflexivity. }
  destruct (create_task_total c) as (t & l2 & Ht & _ & _). exists t, l2.
  split; [exact Ht |]. cbn [negb]. rewrite Ht, bind_ok.
  destruct (truthy t) eqn:Tt; [right | left]; (split; [reflexivity |]).
  2: { cbn. unfold run_trace. rewrite !app_nil_r. reflexivity. }
  destruct (execute_task_total t) as (x & l3 & Hx & _ & _).
  destruct (_send_response_shape x) as (b & ls & Hs & Hshape).
  exists x, l3, b, ls. split; [exact Hx |]. split; [exact Hs |].
  cbn [negb]. rewrite Hx, bind_ok, Hs, bind_ok.
  destruct x as [| | | | |d].
  6: { left. exists d. split; [reflexivity |]. cbn. unfold run_trace.
       rewrite !app_nil_r, <- !app_assoc. reflexivity. }
  all: right; (split; [discriminate |]);
    destruct Hshape as [[-> _] | (h & d & md & Hd & _)]; [| discriminate Hd];
    (split; [reflexivity |]); cbn; unfold run_trace; cbn [app];
    rewrite ?app_nil_r, <- ?app_assoc; reflexivity.
Qed.

(** ** Errored runs and the response stage *)

(** C1 (as amended).  A run that ends [Errored] (classification failure,
    task-creation failure, or a fault caught at the boundary of
    [process_message]) hands no response to any channel handler, and its
    [response_sent] is [False].  A response is handed over only by a run that
    is not errored: then exactly one, addressed to the sender of the message,
    through the handler named by the lower-cased channel of the message, and
    [response_sent] is what that handler answered. *)
Theorem errored_run_attempts_no_send (o : value) (tr : list event) :
  process_message env message = (Ok o, tr) ->
  (errored o ->
     send_attempts tr = [] /\ outcome_field o "response_sent" = VBool false) /\
  (forall h r content md b,
     In (EvSend h r content md b) tr ->
     ~ errored o /\
     r = dict_get message "sender" VNone /\
     value_lower (dict_get message "channel" VNone) = Ok h /\
     outcome_field o "response_sent" = VBool b /\
     send_attempts tr = [EvSend h r content md b]).
Proof.
  intros Hrun.
  destruct process_message_cases
    as (c & _ & [[_ Hp] | (_ & t & l2 & Ht & [[_ Hp] | (_ & x & l3 & b0 & ls &
         Hx & Hs & [(d & -> & Hp) | (Hnd & -> & Hp)])])]);
    rewrite Hp in Hrun; injection Hrun as <- <-.
  - split; [intros _; split; reflexivity |].
    intros h r content md b Hin. cbn in Hin. intuition discriminate.
  - destruct (create_task_quiet _ _ _ Ht) as [Hq2 _].
    split.
    + intros _. split; [| reflexivity].
      rewrite send_attempts_run_trace; [reflexivity | exact Hq2 | reflexivity].
    + intros h r content md b Hin.
      assert (In (EvSend h r content md b) (send_attempts (run_trace l2 [] [])))
        as Hin' by (apply List.filter_In; split; [exact Hin | reflexivity]).
      rewrite send_attempts_run_trace in Hin'; [| exact Hq2 | reflexivity].
      destruct Hin'.
  - destruct (create_task_quiet _ _ _ Ht) as [Hq2 _].
    destruct (execute_task_quiet _ _ _ Hx) as [Hq3 _].
    split.
    + intros He. exfalso. exact (final_result_not_errored _ _ _ _ _ _ He).
    + intros h r content md b Hin.
      assert (In (EvSend h r content md b)
                 (send_attempts (run_trace l2 l3 ls)))
        as Hin' by (apply List.filter_In; split; [exact Hin | reflexivity]).
      rewrite send_attempts_run_trace in *; try assumption.
      destruct (_send_response_shape (VDict d)) as (b' & ls' & Hs' & Hshape).
      rewrite Hs in Hs'. injection Hs' as <- <-.
      destruct Hshape as [[-> _] | (h' & d' & md' & Hd & Hl & ->)];
        [destruct Hin' |].
      cbn in Hin'. destruct Hin' as [Heq | []]. injection Heq as <- <- <- <- <-.
      split; [apply final_result_not_errored |].
      split; [reflexivity |]. split; [exact Hl |].
      split; reflexivity.
  - destruct (create_task_quiet _ _ _ Ht) as [Hq2 _].
    destruct (execute_task_quiet _ _ _ Hx) as [Hq3 _].
    split.
    + intros _. split; [| reflexivity].
      rewrite send_attempts_run_trace; [reflexivity | exact Hq2 | exact Hq3].
    + intros h r content md b Hin.
      assert (In (EvSend h r content md b) (send_attempts (run_trace l2 l3 [])))
        as Hin' by (apply List.filter_In; split; [exact Hin | reflexivity]).
      rewrite send_attempts_run_trace in Hin'; [| exact Hq2 | exact Hq3].
      destruct Hin'.
Qed.

(** ** The boundary of [process_message] *)

Lemma process_message_returns :
  exists d,
    fst (process_message env message) = Ok (VDict d) /\
    (is_Some (d !! "status") /\ is_Some (d !! "message_id") /\
     is_Some (d !! "channel") /\ is_Some (d !! "response_sent")).
Proof.
  destruct process_message_cases
    as (c & _ & [[_ Hp] | (_ & t & l2 & _ & [[_ Hp] |
         (_ & x & l3 & b0 & ls & _ & _ & [(d & _ & Hp) | (_ & _ & Hp)])])]);
    rewrite Hp; eexists; (split; [reflexivity |]);
    repeat split; eexists; reflexivity.
Qed.

(** C5.  [process_message] returns an outcome dictionary for every message
    and every behaviour of its collaborators: it never raises.  The outcome
    carries [status], [message_id], [channel] and [response_sent]; and when
    the body of its [try] raises [e], the outcome is the error result for the
    message, with status ["error"], the fault's text under [error] and
    [response_sent] [False]. *)
Theorem process_message_never_raises :
  exists d,
    fst (process_message env message) = Ok (VDict d) /\
    (is_Some (d !! "status") /\ is_Some (d !! "message_id") /\
     is_Some (d !! "channel") /\ is_Some (d !! "response_sent")) /\
    (forall e,
       fst (pipeline_body env message) = Exn e ->
       VDict d = _create_error_result message e /\
       d !! "status" = Some (VStr "error") /\
       d !! "message_id" = Some (dict_get message "message_id" VNone) /\
       d !! "channel" = Some (dict_get message "channel" VNone) /\
       d !! "error" = Some (VStr e) /\
       d !! "response_sent" = Some (VBool false)).
Proof.
  destruct process_message_returns as (d & Hd & Hkeys).
  exists d. split; [exact Hd |]. split; [exact Hkeys |].
  intros e He. revert Hd.
  unfold process_message, with_semaphore, try_catch.
  destruct (pipeline_body env message) as [[o|e'] l]; cbn in He;
    [discriminate He |].
  injection He as ->. cbn. intros Hd. injection Hd as <-.
  repeat split; reflexivity.
Qed.

End Pipeline.

(** A fault that no stage wrapper catches: the execution agent returns
    [None], the response stage fails on it before any hand-over, and reading
    the status raises [AttributeError] inside the [try] of
    [process_message]; the run ends with the error result for that fault. *)
Lemma boundary_fault_example :
  fst (pipeline_body env_execute_none sample_message)
  = Exn "'NoneType' object has no attribute 'get'" /\
  process_message env_execute_none sample_message
  = (Ok (_create_error_result sample_message
           "'NoneType' object has no attribute 'get'"),
     [EvAcquire; EvStage Classify; EvStage CreateTask; EvStage Execute;
      EvRelease]).
Proof. split; reflexivity. Qed.

(** C1 (counterexample).  The classification agent raises: the run ends
    [Errored], and its events are the slot and the classification call only.
    No response is handed to any handler, so the property as the
    specification words it fails on this run. *)
Lemma respond_on_failure_fails :
  ~ respond_on_failure env_classify_fails sample_message.
Proof.
  intros H.
  assert (process_message env_classify_fails sample_message
          = (Ok (_create_error_result sample_message "Classification failed"),
             [EvAcquire; EvStage Classify; EvRelease])) as Hrun
    by reflexivity.
  destruct (H _ _ Hrun) as (h & content & md & b & Hin & _).
  - reflexivity.
  - cbn in Hin. intuition discriminate.
Qed.

(** The amended property on the run whose classification fails. *)
Lemma errored_run_attempts_no_send_witness :
  send_attempts (snd (process_message env_classify_fails sample_message)) = []
  /\ outcome_field (_create_error_result sample_message "Classification failed")
                   "response_sent" = VBool false.
Proof.
  apply (proj1 (errored_run_attempts_no_send env_classify_fails sample_message
                  (_create_error_result sample_message "Classification failed")
                  (snd (process_message env_classify_fails sample_message))
                  eq_refl)).
  reflexivity.
Defined.

(** ** Status of a run that reaches the Execute stage *)

Lemma stages_ignore_senders (env : Env) (message : dict)
    (e w t : value -> value -> dict -> bool) :
  _classify_message (with_senders env e w t) message
  = _classify_message env message /\
  (forall c, _create_task (with_senders env e w t) c message
             = _create_task env c message) /\
  (forall td, _execute_task (with_senders env e w t) td message
              = _execute_task env td message).
Proof. repeat split. Qed.

(** C9 (counterexample).  The execution agent returns [None]: the run
    reaches the Execute stage, and it ends with the status ["error"], which
    is neither ["success"] nor ["failed"]; the status rule as the
    specification words it fails on this run. *)
Lemma status_mirrors_execution_fails :
  ~ status_mirrors_execution env_execute_none sample_message.
Proof.
  intros H.
  specialize (H sample_classification sample_task VNone
                [EvStage Classify] [EvStage CreateTask] [EvStage Execute]
                (_create_error_result sample_message
                   "'NoneType' object has no attribute 'get'")
                [EvAcquire; EvStage Classify; EvStage CreateTask;
                 EvStage Execute; EvRelease]
                eq_refl eq_refl eq_refl eq_refl eq_refl eq_refl).
  discriminate H.
Qed.

(** C9 (as amended).  A run reaches the Execute stage when classification
    and task creation gave truthy results; the Execute stage then returns an
    execution result [x].  When [x] is a dictionary [d], the run returns an
    outcome whose [status] is ["success"] when [d["execution_status"]] is
    ["success"] and ["failed"] otherwise, whose [execution] slot is [d], and
    whose [response_sent] is the answer of the response stage; with other
    channel handlers behind the same agents the [status] and the
    [execution] slot are the same, so a failed delivery leaves them as they
    are and is recorded as [response_sent = False].  When [x] is not a
    dictionary, the run ends [Errored]: its [status] is ["error"], its
    [error] is the text of the attribute error, its [execution] slot is
    empty, [response_sent] is [False], and no response is handed to any
    handler. *)
Theorem status_follows_execution (env : Env) (message : dict) (c t : value)
    (l1 l2 : list event) :
  _classify_message env message = (Ok c, l1) -> truthy c = true ->
  _create_task env c message = (Ok t, l2) -> truthy t = true ->
  exists x l3,
    _execute_task env t message = (Ok x, l3) /\
    (forall d, x = VDict d ->
       let status :=
         VStr (if eq_str (dict_get d "execution_status" VNone) "success"
               then "success" else "failed") in
       (exists b ls o,
          _send_response env (VDict d) message = (Ok b, ls) /\
          fst (process_message env message) = Ok o /\
          outcome_field o "status" = status /\
          outcome_field o "execution" = VDict d /\
          outcome_field o "response_sent" = VBool b) /\
       (forall e w t', exists o',
          fst (process_message (with_senders env e w t') message) = Ok o' /\
          outcome_field o' "status" = status /\
          outcome_field o' "execution" = VDict d)) /\
    ((forall d, x <> VDict d) ->
     exists o,
       process_message env message = (Ok o, run_trace l2 l3 []) /\
       o = _create_error_result message (attribute_error x "get") /\
       outcome_field o "status" = VStr "error" /\
       outcome_field o "error" = VStr (attribute_error x "get") /\
       outcome_field o "execution" = VNone /\
       outcome_field o "response_sent" = VBool false /\
       send_attempts (run_trace l2 l3 []) = []).
Proof.
  intros Hc Tc Ht Tt.
  destruct (execute_task_total env message t) as (x & l3 & Hx & Hq3 & _).
  exists x, l3. split; [exact Hx |].
  assert (forall env',
            _classify_message env' message = (Ok c, l1) ->
            _create_task env' c message = (Ok t, l2) ->
            _execute_task env' t message = (Ok x, l3) ->
            exists b ls,
              _send_response env' x message = (Ok b, ls) /\
              ((exists d, x = VDict d /\
                  process_message env' message
                  = (Ok (final_result message c t x
                           (dict_get d "execution_status" VNone) b),
                     run_trace l2 l3 ls)) \/
               ((forall d, x <> VDict d) /\ ls = [] /\
                  process_message env' message
                  = (Ok (_create_error_result message
                           (attribute_error x "get")),
                     run_trace l2 l3 [])))) as Hgen.
  { intros env' Hc' Ht' Hx'.
    destruct (process_message_cases env' message)
      as (c' & Hc'' & [[Tc' _] | (_ & t' & l2' & Ht'' & [[Tt' _] |
           (_ & x' & l3' & b & ls & Hx'' & Hs & Hfin)])]);
      rewrite Hc' in Hc''; injection Hc'' as <- _; try congruence;
      rewrite Ht' in Ht''; injection Ht'' as <- <-; try congruence.
    rewrite Hx' in Hx''. injection Hx'' as <- <-.
    exists b, ls. split; [exact Hs | exact Hfin]. }
  split.
  - intros d -> status.
    assert (forall env',
              _classify_message env' message = (Ok c, l1) ->
              _create_task env' c message = (Ok t, l2) ->
              _execute_task env' t message = (Ok (VDict d), l3) ->
              exists b ls o,
                _send_response env' (VDict d) message = (Ok b, ls) /\
                fst (process_message env' message) = Ok o /\
                outcome_field o "status" = status /\
                outcome_field o "execution" = VDict d /\
                outcome_field o "response_sent" = VBool b) as Hdict.
    { intros env' Hc' Ht' Hx'.
      destruct (Hgen env' Hc' Ht' Hx')
        as (b & ls & Hs & [(d' & Hd & Hp) | (Hnd & _)]);
        [| exfalso; exact (Hnd d eq_refl)].
      injection Hd as <-. exists b, ls. eexists.
      split; [exact Hs |]. rewrite Hp. split; [reflexivity |].
      repeat split; reflexivity. }
    split; [exact (Hdict env Hc Ht Hx) |].
    intros e w t'.
    destruct (Hdict (with_senders env e w t') Hc Ht Hx)
      as (b & ls & o & _ & Ho & Hst & Hex & _).
    exists o. repeat split; assumption.
  - intros Hnd.
    destruct (Hgen env Hc Ht Hx)
      as (b & ls & Hs & [(d' & Hd & _) | (_ & _ & Hp)]);
      [exfalso; exact (Hnd d' Hd) |].
    eexists. split; [exact Hp |]. split; [reflexivity |].
    destruct (error_result_fields message (attribute_error x "get"))
      as (H1 & _ & _ & H4 & _ & _ & H7 & H8).
    split; [exact H1 |]. split; [exact H4 |]. split; [exact H7 |].
    split; [exact H8 |].
    rewrite send_attempts_run_trace;
      [reflexivity | exact (proj1 (create_task_quiet _ _ _ _ _ Ht)) |
       exact Hq3].
Qed.

(** The sample run with every delivery failing: the status stays
    ["success"], the execution result is reported, and [response_sent] is
    [False]. *)
Lemma status_follows_execution_witness :
  exists o,
    fst (process_message env_send_fails sample_message) = Ok o /\
    outcome_field o "status" = VStr "success" /\
    outcome_field o "execution" = VDict sample_execution /\
    outcome_field o "response_sent" = VBool false.
Proof.
  destruct (status_follows_execution env_send_fails sample_message
              sample_classification sample_task
              [EvStage Classify] [EvStage CreateTask]
              eq_refl eq_refl eq_refl eq_refl)
    as (x & l3 & Hx & Hdict & _).
  change (_execute_task env_send_fails sample_task sample_message)
    with ((Ok (VDict sample_execution), [EvStage Execute]) : M value) in Hx.
  injection Hx as <- <-.
  destruct (proj1 (Hdict sample_execution eq_refl))
    as (b & ls & o & Hs & Ho & Hst & Hex & Hrs).
  exists o. split; [exact Ho |]. split; [exact Hst |]. split; [exact Hex |].
  rewrite Hrs. f_equal. f_equal.
  change (_send_response env_send_fails (VDict sample_execution) sample_message)
    with ((Ok false,
           [EvSend "email" (VStr "customer@example.com")
              (VStr "Your claim is being reviewed.")
              {[ "subject" := VStr "Re: Claim Status Inquiry" ]} false])
          : M bool) in Hs.
  injection Hs as <- _. reflexivity.
Defined.

(** ** A fault of the Execute stage *)

(** The response stage on an execution result that is a dictionary. *)
Lemma _send_response_dict (env : Env) (message d : dict) (md : dict) :
  response_metadata env (VDict d) message = Ok md ->
  _send_response env (VDict d) message
  = send_response env (dict_get message "channel" VNone)
      (dict_get message "sender" VNone)
      (dict_get d "user_response" (VStr "Your request has been processed."))
      md.
Proof.
  intros Hmd. unfold _send_response. cbn [value_get]. unfold lift.
  rewrite Hmd. rewrite !bind_ok. cbn [fst snd app].
  destruct (send_response_shape env (dict_get message "channel" VNone)
              (dict_get message "sender" VNone)
              (dict_get d "user_response"
                 (VStr "Your request has been processed.")) md)
    as [b [[Hs Hb] | [h [Hl Hs]]]]; rewrite Hs; reflexivity.
Qed.

Lemma execution_failure_fields (e : string) :
  outcome_field (execution_failure e) "execution_status" = VStr "failed" /\
  outcome_field (execution_failure e) "error" = VStr e /\
  outcome_field (execution_failure e) "user_response"
  = VStr "An error occurred while processing your request.".
Proof. repeat split; reflexivity. Qed.

(** C10.  When classification and task creation gave truthy results and the
    body of [_execute_task] raises [e], the execution result is the
    dictionary with exactly the keys [execution_status], [error] and
    [user_response], holding ["failed"], [e] and the fixed text ["An error
    occurred while processing your request."]; the run goes on to the
    response stage with that text, and returns status ["failed"], not
    ["error"], with the classification and the task in their slots.  A run whose classification or task creation
    failed, in contrast, ends [Errored] with empty slots and without a
    response stage. *)
Theorem execute_fault_still_responds (env : Env) (message : dict)
    (c t : value) (e : string) (l1 l2 l3 : list event) :
  _classify_message env message = (Ok c, l1) -> truthy c = true ->
  _create_task env c message = (Ok t, l2) -> truthy t = true ->
  execute_body env t message = (Exn e, l3) ->
  (exists x,
     _execute_task env t message = (Ok (VDict x), l3) /\
     execution_failure e = VDict x /\
     dom x = {[ "execution_status"; "error"; "user_response" ]} /\
     dict_get x "execution_status" VNone = VStr "failed" /\
     dict_get x "error" VNone = VStr e /\
     dict_get x "user_response" VNone
     = VStr "An error occurred while processing your request.") /\
  _execute_task env t message = (Ok (execution_failure e), l3) /\
  (exists b ls,
     _send_response env (execution_failure e) message = (Ok b, ls) /\
     process_message env message
     = (Ok (final_result message c t (execution_failure e) (VStr "failed") b),
        run_trace l2 l3 ls) /\
     (forall md,
        response_metadata env (execution_failure e) message = Ok md ->
        send_response env (dict_get message "channel" VNone)
          (dict_get message "sender" VNone)
          (VStr "An error occurred while processing your request.") md
        = (Ok b, ls)) /\
     ((ls = [] /\ b = false) \/
      (exists h md,
         value_lower (dict_get message "channel" VNone) = Ok h /\
         ls = [EvSend h (dict_get message "sender" VNone)
                 (VStr "An error occurred while processing your request.")
                 md b]))) /\
  (forall b,
     let o := final_result message c t (execution_failure e) (VStr "failed") b in
     outcome_field o "status" = VStr "failed" /\
     outcome_field o "classification" = c /\
     outcome_field o "task" = t /\
     outcome_field o "execution" = execution_failure e /\
     outcome_field (outcome_field o "execution") "execution_status"
     = VStr "failed" /\
     outcome_field (outcome_field o "execution") "error" = VStr e /\
     outcome_field (outcome_field o "execution") "user_response"
     = VStr "An error occurred while processing your request." /\
     outcome_field o "response_sent" = VBool b) /\
  (forall env' c' t' l',
     _classify_message env' message = (Ok c', [EvStage Classify]) ->
     (truthy c' = false \/
      (_create_task env' c' message = (Ok t', l') /\ truthy t' = false)) ->
     exists err l,
       process_message env' message = (Ok (_create_error_result message err), l)
       /\ send_attempts l = []).
Proof.
  intros Hc Tc Ht Tt Hb.
  assert (_execute_task env t message = (Ok (execution_failure e), l3)) as Hx.
  { unfold _execute_task, try_catch. rewrite Hb. cbn.
    rewrite app_nil_r. reflexivity. }
  split.
  { eexists. split; [exact Hx |]. split; [reflexivity |].
    split; [| repeat split; reflexivity].
    rewrite !dom_insert_L, dom_empty_L. set_solver. }
  split; [exact Hx |]. split; [| split].
  - destruct (process_message_cases env message)
      as (c0 & Hc0 & [[Tc0 _] | (_ & t0 & l20 & Ht0 & [[Tt0 _] |
           (_ & x & l30 & b & ls & Hx0 & Hs & Hfin)])]);
      rewrite Hc in Hc0; injection Hc0 as <- _; try congruence;
      rewrite Ht in Ht0; injection Ht0 as <- <-; try congruence.
    rewrite Hx in Hx0. injection Hx0 as <- <-.
    exists b, ls. split; [exact Hs |].
    destruct Hfin as [(d' & Hd & Hp) | (Hnd & _)];
      [| exfalso; exact (Hnd _ eq_refl)].
    injection Hd as <-. split; [exact Hp |].
    split.
    { intros md Hmd. rewrite <- Hs. symmetry.
      exact (_send_response_dict env message _ md Hmd). }
    destruct (_send_response_shape env message (execution_failure e))
      as (b' & ls' & Hs' & Hshape).
    rewrite Hs in Hs'. injection Hs' as <- <-.
    destruct Hshape as [Hq | (h & d' & md & Hd & Hl & ->)]; [left; exact Hq |].
    right. exists h, md. split; [exact Hl |].
    injection Hd as <-. reflexivity.
  - intros b. repeat split; reflexivity.
  - intros env' c' t' l' Hc' Hfail.
    destruct (process_message_cases env' message)
      as (c0 & Hc0 & [[Tc0 Hp] | (Tc0 & t0 & l20 & Ht0 & [[Tt0 Hp] |
           (Tt0 & _)])]);
      rewrite Hc' in Hc0; injection Hc0 as <-.
    + eexists. eexists. split; [exact Hp | reflexivity].
    + eexists. eexists. split; [exact Hp |].
      rewrite send_attempts_run_trace;
        [reflexivity | exact (proj1 (create_task_quiet _ _ _ _ _ Ht0)) |
         reflexivity].
    + destruct Hfail as [Hf | [Ht' Hf]]; [congruence |].
      rewrite Ht' in Ht0. injection Ht0 as <- _. congruence.
Qed.

(** The sample run with an execution agent that raises. *)
Lemma execute_fault_still_responds_witness :
  process_message env_execute_raises sample_message
  = (Ok (final_result sample_message sample_classification sample_task
           (execution_failure "IDIT API timeout") (VStr "failed") true),
     [EvAcquire; EvStage Classify; EvStage CreateTask; EvStage Execute;
      EvSend "email" (VStr "customer@example.com")
        (VStr "An error occurred while processing your request.")
        {[ "subject" := VStr "Re: Claim Status Inquiry" ]} true;
      EvRelease]).
Proof.
  destruct (proj1 (proj2 (proj2
              (execute_fault_still_responds env_execute_raises
                 sample_message sample_classification sample_task
                 "IDIT API timeout" [EvStage Classify] [EvStage CreateTask]
                 [EvStage Execute] eq_refl eq_refl eq_refl eq_refl eq_refl))))
    as (b & ls & Hs & Hp & _).
  rewrite Hp.
  change (_send_response env_execute_raises
            (execution_failure "IDIT API timeout") sample_message)
    with ((Ok true,
           [EvSend "email" (VStr "customer@example.com")
              (VStr "An error occurred while processing your request.")
              {[ "subject" := VStr "Re: Claim Status Inquiry" ]} true])
          : M bool) in Hs.
  injection Hs as <- <-. reflexivity.
Defined.

(** * Properties of [process_messages] *)

Lemma gather_all_completed {A} (completed : list nat) (results : list A) :
  (forall i, (i < length results)%nat -> In i completed) ->
  gather completed results = Some results.
Proof.
  intros Hall. unfold gather.
  replace (forallb _ _) with true; [reflexivity |].
  symmetry. apply forallb_forall. intros i Hi.
  apply in_seq in Hi. apply existsb_exists. exists i.
  split; [apply Hall; lia | apply Nat.eqb_refl].
Qed.

Lemma gather_waits {A} (completed : list nat) (results : list A) (i : nat) :
  (i < length results)%nat -> ~ In i completed ->
  gather completed results = None.
Proof.
  intros Hi Hnot. unfold gather.
  destruct (forallb _ _) eqn:Hf; [| reflexivity].
  exfalso. rewrite forallb_forall in Hf.
  specialize (Hf i). rewrite in_seq in Hf.
  assert (existsb (Nat.eqb i) completed = true) as He by (apply Hf; lia).
  apply existsb_exists in He. destruct He as (j & Hj & Heq).
  apply Nat.eqb_eq in Heq. subst j. exact (Hnot Hj).
Qed.

Lemma collect_results_spec (messages : list dict) (results : list (res value)) :
  forall idx acc,
    (idx + length results <= length messages)%nat ->
    exists out,
      collect_results messages idx results acc = Ok (acc ++ out)%list /\
      length out = length results /\
      forall j r m,
        results !! j = Some r -> messages !! (idx + j)%nat = Some m ->
        out !! j = Some (outcome_of m r).
Proof.
  induction results as [|r rest IH]; intros idx acc Hlen.
  - exists []. cbn. rewrite app_nil_r. repeat split. intros j r m H. discriminate H.
  - cbn [length] in Hlen.
    destruct (lookup_lt_is_Some_2 messages idx) as [m0 Hm0]; [lia |].
    assert (exists out,
              collect_results messages (S idx) rest
                (acc ++ [outcome_of m0 r])%list
              = Ok ((acc ++ [outcome_of m0 r]) ++ out)%list /\
              length out = length rest /\
              forall j r' m,
                rest !! j = Some r' -> messages !! (S idx + j)%nat = Some m ->
                out !! j = Some (outcome_of m r')) as (out & Hout & Hl & Hidx).
    { apply IH. lia. }
    exists (outcome_of m0 r :: out). split; [| split].
    + rewrite <- app_assoc in Hout. cbn [app] in Hout. rewrite <- Hout.
      destruct r as [o|e]; cbn; [reflexivity | rewrite Hm0; reflexivity].
    + cbn. rewrite Hl. reflexivity.
    + intros [|j] r' m Hr Hm.
      * cbn in Hr. injection Hr as <-. rewrite Nat.add_0_r in Hm.
        rewrite Hm0 in Hm. injection Hm as <-. reflexivity.
      * cbn in Hr. cbn. apply (Hidx j r' m Hr).
        rewrite <- Hm. f_equal. lia.
Qed.



(** * Properties of the concurrency gate *)

(** Whatever the block does, and also when it raises, the slot is taken
    before its first event and given back after its last. *)
Lemma with_semaphore_releases {A} (m : M A) :
  fst (with_semaphore m) = fst m /\
  snd (with_semaphore m) = (EvAcquire :: snd m ++ [EvRelease])%list.
Proof. destruct m as [r l]. split; reflexivity. Qed.

(** ** Every run takes the slot first and gives it back last *)

Lemma send_response_quiet (env : Env) (message : dict) (x : value) (b : bool)
    (ls : list event) :
  _send_response env x message = (Ok b, ls) -> List.filter is_gate ls = [].
Proof.
  intros H.
  destruct (_send_response_shape env message x) as (b' & ls' & H' & Hshape).
  rewrite H in H'. injection H' as <- <-.
  destruct Hshape as [[-> _] | (h & d & md & _ & _ & ->)]; reflexivity.
Qed.

Lemma process_message_trace_shape (env : Env) (message : dict) :
  exists body,
    snd (process_message env message) = (EvAcquire :: body ++ [EvRelease])%list
    /\ List.filter is_gate body = [].
Proof.
  destruct (process_message_cases env message)
    as (c & _ & [[_ Hp] | (_ & t & l2 & Ht & [[_ Hp] | (_ & x & l3 & b & ls &
         Hx & Hs & [(d & _ & Hp) | (_ & -> & Hp)])])]);
    rewrite Hp; cbn [snd]; unfold run_trace.
  - exists [EvStage Classify]. split; reflexivity.
  - exists (EvStage Classify :: l2). cbn [app].
    split; [reflexivity |]. cbn.
    exact (proj2 (create_task_quiet _ _ _ _ _ Ht)).
  - exists (EvStage Classify :: l2 ++ l3 ++ ls)%list.
    split; [cbn [app]; rewrite <- !app_assoc; reflexivity |].
    cbn. rewrite !List.filter_app.
    rewrite (proj2 (create_task_quiet _ _ _ _ _ Ht)).
    rewrite (proj2 (execute_task_quiet _ _ _ _ _ Hx)).
    rewrite (send_response_quiet _ _ _ _ _ Hs). reflexivity.
  - exists (EvStage Classify :: l2 ++ l3)%list.
    split; [cbn [app]; rewrite <- !app_assoc; reflexivity |].
    cbn. rewrite !List.filter_app.
    rewrite (proj2 (create_task_quiet _ _ _ _ _ Ht)).
    rewrite (proj2 (execute_task_quiet _ _ _ _ _ Hx)). reflexivity.
Qed.

(** ** Tasks that run such a trace *)

Lemma task_wf_gates (t : task) :
  task_wf t ->
  (List.filter is_gate (performed t) ++ List.filter is_gate (pending t))%list
  = [EvAcquire; EvRelease].
Proof.
  intros (body & Heq & Hg). rewrite <- List.filter_app, Heq. cbn.
  rewrite List.filter_app, Hg. reflexivity.
Qed.

Lemma task_wf_advance (t : task) (ev : event) (rest : list event) :
  task_wf t -> pending t = ev :: rest -> task_wf (advance t ev rest).
Proof.
  intros (body & Heq & Hg) Hp. exists body. split; [| exact Hg].
  cbn. rewrite <- app_assoc. cbn. rewrite <- Hp. exact Heq.
Qed.

Lemma filter_gate_last (l : list event) :
  l <> [] -> last l = Some EvRelease -> List.filter is_gate l <> [].
Proof.
  intros Hne Hl. destruct (exists_last Hne) as (l' & z & ->).
  rewrite last_snoc in Hl. injection Hl as ->.
  rewrite List.filter_app. cbn. intros H. apply app_eq_nil in H.
  destruct H as [_ H]. discriminate H.
Qed.

Lemma task_wf_last (t : task) :
  task_wf t -> last (performed t ++ pending t)%list = Some EvRelease.
Proof.
  intros (body & Heq & _). rewrite Heq.
  change (EvAcquire :: body ++ [EvRelease])%list
    with ((EvAcquire :: body) ++ [EvRelease])%list.
  apply last_snoc.
Qed.

(** The next event takes the slot: the task has not started. *)
Lemma wf_before_acquire (t : task) (rest : list event) :
  task_wf t -> pending t = EvAcquire :: rest ->
  performed t = [] /\ rest <> [].
Proof.
  intros Hwf Hp. pose proof (task_wf_gates t Hwf) as Hg.
  destruct Hwf as (body & Heq & Hb). rewrite Hp in Heq, Hg. cbn in Hg.
  destruct (performed t) as [|p ps] eqn:Hperf.
  - split; [reflexivity |]. cbn in Heq. injection Heq as ->.
    intros H. apply app_eq_nil in H. destruct H as [_ H]. discriminate H.
  - exfalso. cbn in Heq. injection Heq as -> Heq. cbn in Hg.
    injection Hg as Hg.
    destruct (List.filter is_gate ps) as [|g gs]; cbn in Hg.
    + discriminate Hg.
    + injection Hg as _ Hg. apply app_eq_nil in Hg.
      destruct Hg as [_ Hg]. discriminate Hg.
Qed.

(** The next event gives the slot back: the task is inside, and this is its
    last event. *)
Lemma wf_before_release (t : task) (rest : list event) :
  task_wf t -> pending t = EvRelease :: rest ->
  performed t <> [] /\ rest = [].
Proof.
  intros Hwf Hp. pose proof (task_wf_gates t Hwf) as Hg.
  pose proof (task_wf_last t Hwf) as Hl. rewrite Hp in Hg, Hl. cbn in Hg.
  split.
  - intros H. rewrite H in Hg. cbn in Hg. discriminate Hg.
  - destruct rest as [|r rs]; [reflexivity |]. exfalso.
    assert (List.filter is_gate (r :: rs) <> []) as Hne.
    { apply filter_gate_last; [discriminate |].
      rewrite last_app in Hl. cbn [last] in Hl.
      change (last (EvRelease :: r :: rs)) with (last (r :: rs)) in Hl.
      destruct (last (r :: rs)) eqn:E; [exact Hl |].
      apply last_None in E. discriminate E. }
    destruct (List.filter is_gate (performed t)) as [|g gs]; cbn in Hg.
    + discriminate Hg.
    + injection Hg as _ Hg.
      destruct gs as [|g' gs']; cbn in Hg.
      * injection Hg as Hg. exact (Hne Hg).
      * injection Hg as _ Hg. apply app_eq_nil in Hg.
        destruct Hg as [_ Hg]. discriminate Hg.
Qed.

(** The next event is an agent call or a hand-over: the task is inside and
    stays inside. *)
Lemma wf_before_other (t : task) (ev : event) (rest : list event) :
  task_wf t -> pending t = ev :: rest -> is_gate ev = false ->
  performed t <> [] /\ rest <> [].
Proof.
  intros Hwf Hp Hev. pose proof (task_wf_last t Hwf) as Hl.
  destruct Hwf as (body & Heq & Hb). rewrite Hp in Heq, Hl. split.
  - intros H. rewrite H in Heq. cbn in Heq. injection Heq as -> _.
    discriminate Hev.
  - intros ->. rewrite last_snoc in Hl. injection Hl as ->. discriminate Hev.
Qed.

(** ** The invariant of the gate *)

Lemma count_insert {A} (f : A -> bool) (ts : list A) (i : nat) (t t' : A) :
  ts !! i = Some t ->
  (length (List.filter f (<[i:=t']> ts)) + (if f t then 1 else 0)
   = length (List.filter f ts) + (if f t' then 1 else 0))%nat.
Proof.
  revert i. induction ts as [|a ts IH]; intros [|i] H; try discriminate H.
  - cbn in H. injection H as ->. cbn. destruct (f t), (f t'); cbn; lia.
  - cbn in H. specialize (IH i H).
    change (<[S i:=t']> (a :: ts)) with (a :: <[i:=t']> ts).
    cbn [List.filter]. destruct (f a); cbn [length]; lia.
Qed.

Lemma in_flight_insert (ts : list task) (i : nat) (t t' : task) :
  ts !! i = Some t ->
  (length (List.filter in_stage (<[i:=t']> ts))
   + (if in_stage t then 1 else 0)
   = length (List.filter in_stage ts) + (if in_stage t' then 1 else 0))%nat.
Proof. apply count_insert. Qed.

Lemma nonempty_snoc {A} (l : list A) (x : A) : nonempty (l ++ [x]) = true.
Proof. destruct l; reflexivity. Qed.

Lemma nonempty_true {A} (l : list A) : l <> [] -> nonempty l = true.
Proof. destruct l; [congruence | reflexivity]. Qed.

(** After task [i] has performed [ev]: count the tasks inside the block
    again, with what is known about the task before and after the step. *)
Ltac step_counts Ht Hp facts :=
  match goal with
  | |- context [<[?i := advance ?t ?ev ?rest]> (tasks ?s)] =>
      let Hins := fresh "Hins" in
      pose proof (in_flight_insert (tasks s) i t (advance t ev rest) Ht)
        as Hins;
      unfold in_stage at 2 4 in Hins;
      cbn [performed pending advance] in Hins;
      rewrite nonempty_snoc, Hp in Hins;
      rewrite ?facts in Hins;
      cbn in Hins
  end.

Lemma fire_preserves (N : nat) (s : system) (i : nat) :
  gate_invariant N s -> gate_invariant N (fire s i).
Proof.
  intros [Hc Hwf]. unfold fire.
  destruct (tasks s !! i) as [t|] eqn:Ht; [| split; assumption].
  assert (task_wf t) as Ht_wf by exact (Forall_lookup_1 _ _ _ _ Hwf Ht).
  destruct (pending t) as [|ev rest] eqn:Hp; [split; assumption |].
  assert (forall ev', ev' = ev -> task_wf (advance t ev' rest)) as Hadv
    by (intros ev' ->; exact (task_wf_advance t ev rest Ht_wf Hp)).
  unfold gate_invariant, in_flight in *.
  destruct ev as [| |st|h r c md b].
  - destruct (permits s) as [|n] eqn:Hperm;
      [split; [rewrite Hperm; exact Hc | exact Hwf] |].
    destruct (wf_before_acquire t rest Ht_wf Hp) as [Hperf Hrest].
    apply nonempty_true in Hrest. cbn [tasks permits].
    step_counts Ht Hp Hrest. rewrite Hperf in Hins. cbn in Hins.
    split; [lia |].
    apply Forall_insert; [exact Hwf | apply Hadv; reflexivity].
  - destruct (wf_before_release t rest Ht_wf Hp) as [Hperf ->].
    apply nonempty_true in Hperf. cbn [tasks permits].
    step_counts Ht Hp Hperf.
    split; [lia |].
    apply Forall_insert; [exact Hwf | apply Hadv; reflexivity].
  - destruct (wf_before_other t _ rest Ht_wf Hp eq_refl) as [Hperf Hrest].
    apply nonempty_true in Hperf, Hrest. cbn [tasks permits].
    step_counts Ht Hp Hperf. rewrite Hrest in Hins. cbn in Hins.
    split; [lia |].
    apply Forall_insert; [exact Hwf | apply Hadv; reflexivity].
  - destruct (wf_before_other t _ rest Ht_wf Hp eq_refl) as [Hperf Hrest].
    apply nonempty_true in Hperf, Hrest. cbn [tasks permits].
    step_counts Ht Hp Hperf. rewrite Hrest in Hins. cbn in Hins.
    split; [lia |].
    apply Forall_insert; [exact Hwf | apply Hadv; reflexivity].
Qed.

Lemma run_schedule_preserves (N : nat) (schedule : list nat) :
  forall s, gate_invariant N s -> gate_invariant N (run_schedule s schedule).
Proof.
  unfold run_schedule. induction schedule as [|i schedule IH]; intros s Hs.
  - exact Hs.
  - cbn. apply IH, fire_preserves, Hs.
Qed.

Lemma filter_none {A} (f : A -> bool) (l : list A) :
  (forall i x, l !! i = Some x -> f x = false) -> List.filter f l = [].
Proof.
  induction l as [|a l IH]; intros H; [reflexivity |].
  cbn. rewrite (H 0%nat a eq_refl). apply IH.
  intros i x Hx. exact (H (S i) x Hx).
Qed.

Lemma start_batch_invariant (N : nat) (envs : nat -> Env)
    (messages : list dict) :
  gate_invariant N (start_batch N envs messages).
Proof.
  split.
  - unfold in_flight, start_batch. cbn [permits tasks].
    rewrite filter_none; [cbn; lia |].
    intros i t Hi. rewrite list_lookup_imap in Hi.
    destruct (messages !! i) as [m|]; [| discriminate Hi].
    cbn in Hi. injection Hi as <-. reflexivity.
  - apply Forall_lookup_2. intros i t Hi. cbn [start_batch tasks] in Hi.
    rewrite list_lookup_imap in Hi.
    destruct (messages !! i) as [m|]; [| discriminate Hi].
    cbn in Hi. injection Hi as <-.
    destruct (process_message_trace_shape (envs i) m) as (body & Hb & Hg).
    exists body. cbn. split; [exact Hb | exact Hg].
Qed.

Lemma all_finished_none_in_flight (ts : list task) :
  forallb finished ts = true -> List.filter in_stage ts = [].
Proof.
  induction ts as [|t ts IH]; [reflexivity |]. cbn. intros H.
  apply andb_true_iff in H. destruct H as [Hf Hrest].
  unfold in_stage. unfold finished in Hf.
  destruct (pending t); [| discriminate Hf].
  rewrite andb_false_r. apply IH, Hrest.
Qed.

(** C2.  Start [asyncio.Semaphore(N)] and one [process_message] task per
    message of a batch, with any behaviour of the collaborators, and let the
    scheduler resume the tasks in any order, any number of times.  In every
    state reached, the number of tasks inside the [async with] block (from
    Classifying to Responding) is at most [N]: together with the counter of
    the semaphore it is exactly [N].  Every run, whichever way it leaves
    [process_message], performs [EvRelease] as its last event after exactly
    one [EvAcquire], its first; so once all tasks have finished the counter
    is back at [N].  The [async with] block gives the slot back also when
    its body raises. *)
Theorem gate_bounds_in_flight (N : nat) (envs : nat -> Env)
    (messages : list dict) (schedule : list nat) :
  (in_flight (run_schedule (start_batch N envs messages) schedule) <= N)%nat /\
  (permits (run_schedule (start_batch N envs messages) schedule)
   + in_flight (run_schedule (start_batch N envs messages) schedule) = N)%nat /\
  (forallb finished
     (tasks (run_schedule (start_batch N envs messages) schedule)) = true ->
   permits (run_schedule (start_batch N envs messages) schedule) = N) /\
  (forall env message,
     exists body,
       snd (process_message env message)
       = (EvAcquire :: body ++ [EvRelease])%list /\
       List.filter is_gate body = []) /\
  (forall (A : Type) (m : M A),
     snd (with_semaphore m) = (EvAcquire :: snd m ++ [EvRelease])%list).
Proof.
  pose proof (run_schedule_preserves N schedule _
                (start_batch_invariant N envs messages)) as [Hc _].
  split; [lia |]. split; [exact Hc |]. split; [| split].
  - intros Hfin. unfold in_flight in Hc.
    rewrite (all_finished_none_in_flight _ Hfin) in Hc. cbn in Hc. lia.
  - intros env message. apply process_message_trace_shape.
  - intros A m. apply with_semaphore_releases.
Qed.

(** One slot and two messages: the first task enters and calls the
    classification agent; the second, resumed twice, stays suspended in front
    of the block until the first has left it. *)
Lemma gate_blocks_second_task :
  let s := run_schedule
             (start_batch 1 (fun _ => env_ok) [sample_message; sample_message])
             [0; 1; 0; 1]%nat in
  permits s = 0%nat /\
  in_flight s = 1%nat /\
  (performed <$> tasks s) = [[EvAcquire; EvStage Classify]; []].
Proof. vm_compute. repeat split. Qed.

Lemma gate_lets_second_task_in_later :
  let s := run_schedule
             (start_batch 1 (fun _ => env_ok) [sample_message; sample_message])
             [0; 1; 0; 0; 0; 0; 1; 0; 1]%nat in
  permits s = 0%nat /\
  in_flight s = 1%nat /\
  (finished <$> tasks s) = [true; false] /\
  (length <$> (performed <$> tasks s)) = [6; 1]%nat.
Proof. vm_compute. repeat split. Qed.

(** * Properties of the pull service *)

(** C3.  Whatever subset of the three adapters raises, [pull_all_messages]
    returns, without raising, the lists of the adapters that returned,
    concatenated in the order email, WhatsApp, Teams: no message of a
    successful adapter is lost, and each adapter's messages keep their
    order. *)
Theorem pull_all_messages_concatenates (email whatsapp teams : res (list dict)) :
  fst (pull_all_messages email whatsapp teams)
  = Ok (messages_of email ++ messages_of whatsapp ++ messages_of teams)%list /\
  (forall r all_messages,
     In r [email; whatsapp; teams] ->
     fst (pull_all_messages email whatsapp teams) = Ok all_messages ->
     sublist (messages_of r) all_messages).
Proof.
  assert (fst (pull_all_messages email whatsapp teams)
          = Ok (messages_of email ++ messages_of whatsapp ++ messages_of teams)%list)
    as Heq.
  { destruct email, whatsapp, teams; cbn;
      rewrite ?app_nil_r, <- ?app_assoc; reflexivity. }
  split; [exact Heq |].
  intros r all_messages Hin Hres. rewrite Heq in Hres. injection Hres as <-.
  cbn in Hin. destruct Hin as [<- | [<- | [<- | []]]].
  - apply sublist_inserts_r. reflexivity.
  - apply sublist_inserts_l, sublist_inserts_r. reflexivity.
  - apply sublist_inserts_l, sublist_inserts_l. reflexivity.
Qed.

(** Exactly one adapter fails. *)
Lemma pull_all_messages_one_failure (l1 l3 : list dict) (e : string) :
  pull_all_messages (Ok l1) (Exn e) (Ok l3)
  = (Ok (l1 ++ l3)%list, [("Error pulling from whatsapp: " ++ e)%string]).
Proof. reflexivity. Qed.

(** ** The polling loop *)

Lemma polling_iteration_events (ie : iteration_env) (svc : service) :
  fst (polling_iteration ie svc) = iteration_events (poll_interval svc) ie.
Proof.
  unfold polling_iteration, iteration_body, iteration_events, suspended.
  destruct (pulled_messages ie) as [messages|e].
  - destruct (nonempty messages).
    + destruct (callback ie messages);
        destruct (stop_requested ie Pulling), (stop_requested ie Processing);
        reflexivity.
    + destruct (stop_requested ie Pulling); reflexivity.
  - destruct (stop_requested ie Pulling); reflexivity.
Qed.

Lemma polling_iteration_state (ie : iteration_env) (svc : service) :
  snd (polling_iteration ie svc)
  = {| is_running := is_running svc && negb (stop_fired ie);
       poll_interval := poll_interval svc |}.
Proof.
  unfold polling_iteration, iteration_body, stop_fired, suspended, stop_polling.
  destruct svc as [r iv]. cbn [is_running poll_interval].
  destruct (pulled_messages ie) as [messages|e].
  - destruct (nonempty messages).
    + destruct (callback ie messages);
        destruct (stop_requested ie Pulling), (stop_requested ie Processing),
          (stop_requested ie Sleeping), r; reflexivity.
    + destruct (stop_requested ie Pulling), (stop_requested ie Processing),
        (stop_requested ie Sleeping), r; reflexivity.
  - destruct (stop_requested ie Pulling), (stop_requested ie Processing),
      (stop_requested ie Sleeping), r; reflexivity.
Qed.

Lemma iteration_events_shape (interval : Z) (ie : iteration_env) :
  exists mid,
    iteration_events interval ie = (PollPull :: mid ++ [PollSleep interval])%list
    /\ List.filter is_sleep mid = [].
Proof.
  unfold iteration_events.
  destruct (pulled_messages ie) as [messages|e].
  - destruct (nonempty messages).
    + destruct (callback ie messages) as [u|e].
      * exists [PollCallback messages]. split; reflexivity.
      * exists [PollCallback messages; PollError e]. split; reflexivity.
    + exists []. split; reflexivity.
  - exists [PollError e]. split; reflexivity.
Qed.

Lemma polling_loop_running (envs : nat -> iteration_env) (iv : Z) (n : nat) :
  forall k,
    (forall j, (j < n)%nat -> stop_fired (envs (k + j)%nat) = false) ->
    polling_loop n envs k {| is_running := true; poll_interval := iv |}
    = (iterations_events iv envs k n,
       {| is_running := true; poll_interval := iv |}, false).
Proof.
  induction n as [|n IH]; intros k Hno; [reflexivity |].
  cbn [polling_loop is_running iterations_events].
  pose proof (polling_iteration_events (envs k)
                {| is_running := true; poll_interval := iv |}) as He.
  pose proof (polling_iteration_state (envs k)
                {| is_running := true; poll_interval := iv |}) as Hs.
  destruct (polling_iteration (envs k) _) as [evs svc'].
  cbn [fst snd is_running poll_interval] in He, Hs. subst evs svc'.
  assert (stop_fired (envs k) = false) as ->
    by (rewrite <- (Nat.add_0_r k); apply Hno; lia).
  cbn [andb negb]. rewrite IH; [reflexivity |].
  intros j Hj. replace (S k + j)%nat with (k + S j)%nat by lia.
  apply Hno. lia.
Qed.

Lemma polling_loop_stops (envs : nat -> iteration_env) (iv : Z) (n : nat) :
  forall k fuel,
    (forall j, (j < n)%nat -> stop_fired (envs (k + j)%nat) = false) ->
    stop_fired (envs (k + n)%nat) = true ->
    (n + 2 <= fuel)%nat ->
    polling_loop fuel envs k {| is_running := true; poll_interval := iv |}
    = (iterations_events iv envs k (S n),
       {| is_running := false; poll_interval := iv |}, true).
Proof.
  induction n as [|n IH]; intros k fuel Hno Hstop Hfuel.
  - destruct fuel as [|[|fuel]]; [lia | lia |].
    cbn [polling_loop is_running iterations_events].
    pose proof (polling_iteration_events (envs k)
                  {| is_running := true; poll_interval := iv |}) as He.
    pose proof (polling_iteration_state (envs k)
                  {| is_running := true; poll_interval := iv |}) as Hs.
    destruct (polling_iteration (envs k) _) as [evs svc'].
    cbn [fst snd is_running poll_interval] in He, Hs. subst evs svc'.
    rewrite Nat.add_0_r in Hstop. rewrite Hstop. reflexivity.
  - destruct fuel as [|fuel]; [lia |].
    cbn [polling_loop is_running].
    change (iterations_events iv envs k (S (S n)))
      with ((iteration_events iv (envs k)
             ++ iterations_events iv envs (S k) (S n))%list).
    pose proof (polling_iteration_events (envs k)
                  {| is_running := true; poll_interval := iv |}) as He.
    pose proof (polling_iteration_state (envs k)
                  {| is_running := true; poll_interval := iv |}) as Hs.
    destruct (polling_iteration (envs k) _) as [evs svc'].
    cbn [fst snd is_running poll_interval] in He, Hs. subst evs svc'.
    assert (stop_fired (envs k) = false) as ->
      by (rewrite <- (Nat.add_0_r k); apply Hno; lia).
    cbn [andb negb]. rewrite (IH (S k) fuel); [reflexivity | | | lia].
    + intros j Hj. replace (S k + j)%nat with (k + S j)%nat by lia.
      apply Hno. lia.
    + replace (S k + n)%nat with (k + S n)%nat by lia. exact Hstop.
Qed.

(** C8.  While no [stop_polling] has come, the loop goes through one
    iteration after the other: [n] tests of its condition are [n] full
    iterations, and the loop is still running.  An iteration pulls from all
    channels, hands the batch to the callback when it is not empty, and
    sleeps the interval; when the callback raises, the fault is logged and
    the iteration still ends with that one sleep, and the next iteration
    follows.  The events of an iteration do not depend on whether
    [stop_polling] is called during it: it only clears the flag.  When it is
    called during iteration [n], that iteration is completed and the loop is
    left at the next test of the flag. *)
Theorem polling_loop_runs_until_stopped (envs : nat -> iteration_env)
    (svc : service) (n : nat) :
  (forall j, (j < n)%nat -> stop_fired (envs j) = false) ->
  start_polling n envs svc
  = (iterations_events (poll_interval svc) envs 0 n,
     {| is_running := true; poll_interval := poll_interval svc |}, false) /\
  (stop_fired (envs n) = true ->
   forall fuel, (n + 2 <= fuel)%nat ->
     start_polling fuel envs svc
     = (iterations_events (poll_interval svc) envs 0 (S n),
        stop_polling svc, true)) /\
  (forall ie svc',
     fst (polling_iteration ie svc') = iteration_events (poll_interval svc') ie
     /\ exists mid,
          iteration_events (poll_interval svc') ie
          = (PollPull :: mid ++ [PollSleep (poll_interval svc')])%list /\
          List.filter is_sleep mid = []) /\
  (forall ie ie' svc',
     pulled ie = pulled ie' -> callback ie = callback ie' ->
     fst (polling_iteration ie svc') = fst (polling_iteration ie' svc')).
Proof.
  intros Hno. unfold start_polling. split; [| split; [| split]].
  - apply polling_loop_running. exact Hno.
  - intros Hstop fuel Hfuel. apply polling_loop_stops; assumption.
  - intros ie svc'. split; [apply polling_iteration_events |].
    apply iteration_events_shape.
  - intros ie ie' svc' Hp Hc. rewrite !polling_iteration_events.
    unfold iteration_events, pulled_messages. rewrite Hp, Hc. reflexivity.
Qed.

(** A first iteration whose callback raises, and a second one during whose
    sleep [stop_polling] is called: both are completed, then the loop is
    left. *)
Lemma polling_loop_runs_until_stopped_witness :
  start_polling 5 sample_iterations sample_service
  = ([PollPull; PollCallback [sample_message]; PollError "callback failed";
      PollSleep 60; PollPull; PollSleep 60],
     {| is_running := false; poll_interval := 60 |}, true).
Proof.
  apply (proj1 (proj2 (polling_loop_runs_until_stopped sample_iterations
                         sample_service 1
                         ltac:(intros [|j] Hj; [reflexivity | lia])))
               eq_refl 5%nat ltac:(lia)).
Defined.

(** * Properties of the channel adapters *)

Lemma parse_email_canonical (f : email_fields) (msg_id : string) :
  canonical "email" (_parse_email_message f msg_id).
Proof.
  split; [| split; [reflexivity | eexists; reflexivity]].
  unfold _parse_email_message, canonical_keys.
  rewrite !dom_insert_L, dom_empty_L. cbn. set_solver.
Qed.

Lemma parse_whatsapp_canonical (io : whatsapp_exchange) (msg_data m : dict) :
  _parse_whatsapp_message io msg_data = Ok m -> canonical "whatsapp" m.
Proof.
  unfold _parse_whatsapp_message.
  destruct (whatsapp_content io msg_data _); [| discriminate].
  destruct (nested_get msg_data "profile" "name" _); [| discriminate].
  intros H. injection H as <-.
  split; [| split; [reflexivity | eexists; reflexivity]].
  unfold canonical_keys. rewrite !dom_insert_L, dom_empty_L. cbn. set_solver.
Qed.

(** ** The email loop *)

Lemma email_loop_spec (io : imap_session) (ids : list string) :
  forall idx messages (p : gset string) r p',
    email_loop io idx ids messages p = (r, p') ->
    (p ⊆ p') /\
    forall l, r = Ok l ->
      exists new ks,
        l = (messages ++ new)%list /\
        Forall (canonical "email") new /\
        message_id_of <$> new = VStr <$> ks /\
        NoDup ks /\
        forall k, k ∈ ks -> (k ∉ p) /\ (k ∈ p') /\ (k ∈ ids).
Proof.
  induction ids as [|msg_id rest IH]; intros idx messages p r p' H.
  - cbn in H. injection H as <- <-. split; [reflexivity |].
    intros l Hl. injection Hl as <-. exists [], [].
    rewrite app_nil_r.
    split; [reflexivity |]. split; [constructor |].
    split; [reflexivity |]. split; [constructor |].
    intros k0 Hk0. inversion Hk0.
  - cbn [email_loop] in H.
    destruct (decide (msg_id ∈ p)) as [Hin | Hnot].
    { destruct (IH _ _ _ _ _ H) as [Hsub Hok]. split; [exact Hsub |].
      intros l Hl. destruct (Hok l Hl) as (new & ks & -> & Hc & Hids & Hnd & Hk).
      exists new, ks. repeat split; try assumption; try (apply Hk; assumption).
      apply elem_of_cons. right. apply Hk. assumption. }
    unfold st_bind, st_lift in H.
    destruct (imap_fetch io idx msg_id) as [[status parsed]|e].
    2: { injection H as <- <-. split; [reflexivity |]. intros l Hl. discriminate Hl. }
    cbn [fst snd] in H.
    destruct (negb (String.eqb status "OK")).
    { destruct (IH _ _ _ _ _ H) as [Hsub Hok]. split; [exact Hsub |].
      intros l Hl. destruct (Hok l Hl) as (new & ks & -> & Hc & Hids & Hnd & Hk).
      exists new, ks. repeat split; try assumption; try (apply Hk; assumption).
      apply elem_of_cons. right. apply Hk. assumption. }
    destruct parsed as [fields|e].
    2: { injection H as <- <-. split; [reflexivity |]. intros l Hl. discriminate Hl. }
    destruct (IH _ _ _ _ _ H) as [Hsub Hok]. split; [set_solver |].
    intros l Hl. destruct (Hok l Hl) as (new & ks & -> & Hc & Hids & Hnd & Hk).
    exists (_parse_email_message fields msg_id :: new), (msg_id :: ks).
    split; [rewrite <- app_assoc; reflexivity |].
    split; [constructor; [apply parse_email_canonical | exact Hc] |].
    split; [cbn; rewrite Hids; reflexivity |].
    split.
    + constructor; [| exact Hnd]. intros Hk'.
      destruct (Hk _ Hk') as (Hn & _ & _). set_solver.
    + intros k Hk'. apply elem_of_cons in Hk'. destruct Hk' as [-> | Hk'].
      * split; [exact Hnot |]. split; [set_solver | set_solver].
      * destruct (Hk _ Hk') as (Hn & Hp & Hi).
        split; [set_solver |]. split; [exact Hp | set_solver].
Qed.

Lemma email_pull_spec (io : imap_session) (p : gset string) :
  exists l p',
    email_pull_messages io p = (Ok l, p') /\
    (p ⊆ p') /\
    Forall (canonical "email") l /\
    (forall e p'', email_pull_body io p = (Exn e, p'') -> l = []) /\
    exists ks,
      message_id_of <$> l = VStr <$> ks /\
      NoDup ks /\
      forall k, k ∈ ks -> (k ∉ p) /\ (k ∈ p').
Proof.
  unfold email_pull_messages, st_try.
  destruct (email_pull_body io p) as [[l|e] p'] eqn:Hb.
  2: { assert (p ⊆ p') as Hsub.
       { revert Hb. unfold email_pull_body, st_bind, st_lift, st_ret.
         destruct (imap_connect io); [| intros H; injection H as _ <-; reflexivity].
         destruct (imap_login io); [| intros H; injection H as _ <-; reflexivity].
         destruct (imap_select io); [| intros H; injection H as _ <-; reflexivity].
         destruct (imap_search io) as [[status ids]|];
           [| intros H; injection H as _ <-; reflexivity].
         cbn [fst snd]. destruct (negb (String.eqb status "OK"));
           [intros H; discriminate H |].
         destruct ids as [ids|]; [| intros H; injection H as _ <-; reflexivity].
         destruct (email_loop io 0 ids [] p) as [[l0|e0] p0] eqn:Hl;
           destruct (email_loop_spec io ids _ _ _ _ _ Hl) as [Hs _].
         - destruct (imap_close io); [| intros H; injection H as _ <-; exact Hs].
           destruct (imap_logout io); [| intros H; injection H as _ <-; exact Hs].
           intros H; discriminate H.
         - intros H; injection H as _ <-; exact Hs. }
       exists [], p'. unfold st_ret. split; [reflexivity |].
       split; [exact Hsub |]. split; [constructor |].
       split; [reflexivity |]. exists []. split; [reflexivity |].
       split; [constructor |]. intros k Hk. inversion Hk. }
  exists l, p'. split; [reflexivity |].
  assert ((p ⊆ p') /\ Forall (canonical "email") l /\
          exists ks, message_id_of <$> l = VStr <$> ks /\ NoDup ks /\
                     forall k, k ∈ ks -> (k ∉ p) /\ (k ∈ p')) as (Hs & Hc & Hk).
  { revert Hb. unfold email_pull_body, st_bind, st_lift, st_ret.
    destruct (imap_connect io); [| intros H; discriminate H].
    destruct (imap_login io); [| intros H; discriminate H].
    destruct (imap_select io); [| intros H; discriminate H].
    destruct (imap_search io) as [[status ids]|]; [| intros H; discriminate H].
    cbn [fst snd]. destruct (negb (String.eqb status "OK")).
    { intros H. injection H as <- <-.
      split; [reflexivity |]. split; [constructor |]. exists [].
      split; [reflexivity |]. split; [constructor |].
      intros k Hk. inversion Hk. }
    destruct ids as [ids|]; [| intros H; discriminate H].
    destruct (email_loop io 0 ids [] p) as [[l0|e0] p0] eqn:Hl;
      [| intros H; discriminate H].
    destruct (email_loop_spec io ids _ _ _ _ _ Hl) as [Hs Hok].
    destruct (Hok l0 eq_refl) as (new & ks & Hl0 & Hc & Hids & Hnd & Hks).
    cbn [app] in Hl0. subst l0.
    destruct (imap_close io); [| intros H; discriminate H].
    destruct (imap_logout io); [| intros H; discriminate H].
    intros H. injection H as <- <-.
    split; [exact Hs |]. split; [exact Hc |]. exists ks.
    split; [exact Hids |]. split; [exact Hnd |].
    intros k Hk. destruct (Hks k Hk) as (H1 & H2 & _). split; assumption. }
  split; [exact Hs |]. split; [exact Hc |].
  split; [intros e p'' He; discriminate He | exact Hk].
Qed.

(** ** The WhatsApp loop *)

Lemma parse_whatsapp_recorded (io : whatsapp_exchange) (msg_data m : dict)
    (k : hkey) :
  _parse_whatsapp_message io msg_data = Ok m ->
  hash_key (dict_get msg_data "id" VNone) = Ok k ->
  recorded_as m k.
Proof.
  unfold _parse_whatsapp_message.
  destruct (whatsapp_content io msg_data _); [| discriminate].
  destruct (nested_get msg_data "profile" "name" _); [| discriminate].
  intros H Hk. injection H as <-. unfold recorded_as, message_id_of.
  change (dict_get (<["message_id" := ?v]> _) "message_id" VNone) with v.
  unfold dict_get in *. destruct (msg_data !! "id") as [v|]; cbn in *.
  - left. exact Hk.
  - right. injection Hk as <-. split; reflexivity.
Qed.

Lemma whatsapp_loop_spec (io : whatsapp_exchange) (items : list value) :
  forall messages (p : gset hkey) r p',
    whatsapp_loop io items messages p = (r, p') ->
    (p ⊆ p') /\
    forall l, r = Ok l ->
      exists new ks,
        l = (messages ++ new)%list /\
        Forall (canonical "whatsapp") new /\
        Forall2 recorded_as new ks /\
        NoDup ks /\
        forall k, k ∈ ks -> (k ∉ p) /\ (k ∈ p').
Proof.
  induction items as [|item rest IH]; intros messages p r p' H.
  - cbn in H. injection H as <- <-. split; [reflexivity |].
    intros l Hl. injection Hl as <-. exists [], [].
    rewrite app_nil_r.
    split; [reflexivity |]. split; [constructor |].
    split; [constructor |]. split; [constructor |].
    intros k0 Hk0. inversion Hk0.
  - cbn [whatsapp_loop] in H.
    destruct item as [|b|z|s|vs|msg_data];
      try (cbn in H; injection H as <- <-; split; [reflexivity |];
           intros l Hl; discriminate Hl).
    unfold st_bind, st_lift in H.
    destruct (hash_key (dict_get msg_data "id" VNone)) as [k|e] eqn:Hkey.
    2: { injection H as <- <-. split; [reflexivity |].
         intros l Hl. discriminate Hl. }
    destruct (decide (k ∈ p)) as [Hin | Hnot].
    { exact (IH _ _ _ _ H). }
    destruct (_parse_whatsapp_message io msg_data) as [m|e] eqn:Hparse.
    2: { injection H as <- <-. split; [reflexivity |].
         intros l Hl. discriminate Hl. }
    destruct (IH _ _ _ _ H) as [Hsub Hok]. split; [set_solver |].
    intros l Hl.
    destruct (Hok l Hl) as (new & ks & -> & Hc & Hrec & Hnd & Hk).
    exists (m :: new), (k :: ks).
    split; [rewrite <- app_assoc; reflexivity |].
    split; [constructor;
            [exact (parse_whatsapp_canonical _ _ _ Hparse) | exact Hc] |].
    split; [constructor;
            [exact (parse_whatsapp_recorded _ _ _ _ Hparse Hkey) | exact Hrec] |].
    split.
    + constructor; [| exact Hnd]. intros Hk'.
      destruct (Hk _ Hk') as (Hn & _). set_solver.
    + intros k0 Hk'. apply elem_of_cons in Hk'. destruct Hk' as [-> | Hk'].
      * split; [exact Hnot | set_solver].
      * destruct (Hk _ Hk') as (Hn & Hp). split; [set_solver | exact Hp].
Qed.

Lemma whatsapp_pull_spec (io : whatsapp_exchange) (p : gset hkey) :
  exists l p',
    whatsapp_pull_messages io p = (Ok l, p') /\
    (p ⊆ p') /\
    Forall (canonical "whatsapp") l /\
    (forall e p'', whatsapp_pull_body io p = (Exn e, p'') -> l = []) /\
    exists ks,
      Forall2 recorded_as l ks /\
      NoDup ks /\
      forall k, k ∈ ks -> (k ∉ p) /\ (k ∈ p').
Proof.
  assert (forall r p',
            whatsapp_pull_body io p = (r, p') ->
            (p ⊆ p') /\
            forall l, r = Ok l ->
              Forall (canonical "whatsapp") l /\
              exists ks, Forall2 recorded_as l ks /\ NoDup ks /\
                         forall k, k ∈ ks -> (k ∉ p) /\ (k ∈ p')) as Hbody.
  { intros r p'. unfold whatsapp_pull_body, st_bind, st_lift, st_ret.
    assert (forall q : gset hkey,
              (q ⊆ q) /\
              forall l, (Ok [] : res (list dict)) = Ok l ->
                Forall (canonical "whatsapp") l /\
                exists ks, Forall2 recorded_as l ks /\ NoDup ks /\
                           forall k, k ∈ ks -> (k ∉ q) /\ (k ∈ q)) as Hnil.
    { intros q. split; [reflexivity |]. intros l Hl. injection Hl as <-.
      split; [constructor |]. exists [].
      split; [constructor |]. split; [constructor |].
      intros k Hk. inversion Hk. }
    assert (forall (e : string) (q : gset hkey),
              (q ⊆ q) /\
              forall l, (Exn e : res (list dict)) = Ok l ->
                Forall (canonical "whatsapp") l /\
                exists ks, Forall2 recorded_as l ks /\ NoDup ks /\
                           forall k, k ∈ ks -> (k ∉ q) /\ (k ∈ q)) as Hexn.
    { intros e q. split; [reflexivity |]. intros l Hl. discriminate Hl. }
    destruct (http_get io) as [[code json]|e];
      [| intros H; injection H as <- <-; apply Hexn].
    cbn [fst snd]. destruct (negb (code =? 200));
      [intros H; injection H as <- <-; apply Hnil |].
    destruct json as [data|e]; [| intros H; injection H as <- <-; apply Hexn].
    destruct (value_get data "messages" (VList [])) as [listed|e];
      [| intros H; injection H as <- <-; apply Hexn].
    destruct (py_iter listed) as [items|e];
      [| intros H; injection H as <- <-; apply Hexn].
    intros H. destruct (whatsapp_loop_spec io items _ _ _ _ H) as [Hs Hok].
    split; [exact Hs |]. intros l Hl.
    destruct (Hok l Hl) as (new & ks & Hl0 & Hc & Hrec & Hnd & Hk).
    cbn [app] in Hl0. subst l. split; [exact Hc |]. exists ks.
    split; [exact Hrec |]. split; [exact Hnd | exact Hk]. }
  unfold whatsapp_pull_messages, st_try, st_ret.
  destruct (whatsapp_pull_body io p) as [[l|e] p'] eqn:Hb;
    destruct (Hbody _ _ eq_refl) as [Hs Hok].
  - destruct (Hok l eq_refl) as (Hc & Hk). exists l, p'.
    split; [reflexivity |]. split; [exact Hs |]. split; [exact Hc |].
    split; [intros e p'' He; discriminate He | exact Hk].
  - exists [], p'. split; [reflexivity |]. split; [exact Hs |].
    split; [constructor |]. split; [reflexivity |]. exists [].
    split; [constructor |]. split; [constructor |].
    intros k Hk. inversion Hk.
Qed.

(** ** Pulls never raise *)

(** C7.  For each of the three adapters and whatever the provider does,
    [pull_messages] returns a list and does not raise; every element is a
    canonical message of the adapter's channel; and when anything inside the
    [try] raises (connecting, logging in, searching, fetching or parsing a
    message, closing), the list is empty.  The Teams adapter always returns
    the empty list. *)
Theorem pull_messages_never_raises :
  (forall (io : imap_session) (p : gset string),
     exists l p',
       email_pull_messages io p = (Ok l, p') /\
       Forall (canonical "email") l /\
       (forall e p'', email_pull_body io p = (Exn e, p'') -> l = [])) /\
  (forall (io : whatsapp_exchange) (p : gset hkey),
     exists l p',
       whatsapp_pull_messages io p = (Ok l, p') /\
       Forall (canonical "whatsapp") l /\
       (forall e p'', whatsapp_pull_body io p = (Exn e, p'') -> l = [])) /\
  (forall p : gset hkey, teams_pull_messages p = (Ok [], p)) /\
  (forall (io : imap_session) (p : gset string) e,
     imap_connect io = Exn e \/ imap_login io = Exn e \/
     imap_select io = Exn e \/ imap_search io = Exn e ->
     email_pull_messages io p = (Ok [], p)) /\
  (forall (io : whatsapp_exchange) (p : gset hkey) e,
     http_get io = Exn e \/ (exists code, http_get io = Ok (code, Exn e)) ->
     whatsapp_pull_messages io p = (Ok [], p)).
Proof.
  split; [| split; [| split; [| split]]].
  - intros io p. destruct (email_pull_spec io p) as (l & p' & H & _ & Hc & He & _).
    exists l, p'. split; [exact H |]. split; [exact Hc | exact He].
  - intros io p.
    destruct (whatsapp_pull_spec io p) as (l & p' & H & _ & Hc & He & _).
    exists l, p'. split; [exact H |]. split; [exact Hc | exact He].
  - intros p. reflexivity.
  - intros io p e H.
    unfold email_pull_messages, email_pull_body, st_try, st_bind, st_lift,
      st_ret.
    destruct (imap_connect io) as [[]|]; [| reflexivity].
    destruct (imap_login io) as [[]|]; [| reflexivity].
    destruct (imap_select io) as [[]|]; [| reflexivity].
    destruct (imap_search io) as [found|]; [| reflexivity].
    destruct H as [H | [H | [H | H]]]; discriminate H.
  - intros io p e H.
    unfold whatsapp_pull_messages, whatsapp_pull_body, st_try, st_bind,
      st_lift, st_ret.
    destruct H as [-> | [code ->]]; [reflexivity |].
    cbn [fst snd]. destruct (negb (code =? 200)); reflexivity.
Qed.

(** A fetch that fails in the middle of the loop: the pull returns the empty
    list, and the id of the message read before the failure stays in
    [processed_messages]. *)
Lemma email_fetch_failure :
  email_pull_messages imap_second_fetch_fails ∅ = (Ok [], {[ "1" ]}).
Proof. vm_compute. reflexivity. Qed.

(** ** Deduplication across the pulls of a process *)

Lemma messages_of_email_pull (io : imap_session) (p : gset string) :
  exists l p',
    email_pull_messages io p = (Ok l, p') /\
    (p ⊆ p') /\
    exists ks,
      message_id_of <$> l = VStr <$> ks /\ NoDup ks /\
      forall k, k ∈ ks -> (k ∉ p) /\ (k ∈ p').
Proof.
  destruct (email_pull_spec io p) as (l & p' & H & Hs & _ & _ & Hk).
  exists l, p'. split; [exact H |]. split; [exact Hs | exact Hk].
Qed.

(** X1.  Email: over any number of successive pulls, the message ids
    delivered are pairwise different, and none of them was in
    [processed_messages] before the first pull. *)
Theorem email_never_redelivers (ios : list imap_session) :
  forall p : gset string,
    exists ks,
      message_id_of <$> concat (email_pulls ios p) = VStr <$> ks /\
      NoDup ks /\
      forall k, k ∈ ks -> k ∉ p.
Proof.
  induction ios as [|io rest IH]; intros p.
  - exists []. split; [reflexivity |]. split; [constructor |].
    intros k Hk. inversion Hk.
  - cbn [email_pulls].
    destruct (messages_of_email_pull io p)
      as (l & p' & Hpull & Hsub & ks1 & Hids1 & Hnd1 & Hk1).
    rewrite Hpull. cbn [messages_of concat].
    destruct (IH p') as (ks2 & Hids2 & Hnd2 & Hk2).
    exists (ks1 ++ ks2)%list.
    split; [rewrite !fmap_app, Hids1, Hids2; reflexivity |].
    split.
    + apply NoDup_app. split; [exact Hnd1 |]. split; [| exact Hnd2].
      intros k Hin1 Hin2. apply (Hk2 k Hin2). apply (Hk1 k Hin1).
    + intros k Hin. apply elem_of_app in Hin. destruct Hin as [Hin | Hin].
      * apply (Hk1 k Hin).
      * intros Hp. apply (Hk2 k Hin). set_solver.
Qed.

(** X2.  WhatsApp: over any number of successive pulls, the ids under which
    the delivered messages were recorded are pairwise different, and none of
    them was in [processed_messages] before the first pull. *)
Theorem whatsapp_never_redelivers_recorded (ios : list whatsapp_exchange) :
  forall p : gset hkey,
    exists ks,
      Forall2 recorded_as (concat (whatsapp_pulls ios p)) ks /\
      NoDup ks /\
      forall k, k ∈ ks -> k ∉ p.
Proof.
  induction ios as [|io rest IH]; intros p.
  - exists []. split; [constructor |]. split; [constructor |].
    intros k Hk. inversion Hk.
  - cbn [whatsapp_pulls].
    destruct (whatsapp_pull_spec io p)
      as (l & p' & Hpull & Hsub & _ & _ & ks1 & Hrec1 & Hnd1 & Hk1).
    rewrite Hpull. cbn [messages_of concat].
    destruct (IH p') as (ks2 & Hrec2 & Hnd2 & Hk2).
    exists (ks1 ++ ks2)%list.
    split; [apply Forall2_app; assumption |].
    split.
    + apply NoDup_app. split; [exact Hnd1 |]. split; [| exact Hnd2].
      intros k Hin1 Hin2. apply (Hk2 k Hin2). apply (Hk1 k Hin1).
    + intros k Hin. apply elem_of_app in Hin. destruct Hin as [Hin | Hin].
      * apply (Hk1 k Hin).
      * intros Hp. apply (Hk2 k Hin). set_solver.
Qed.

(** C6 (the code at the failing input).  The first pull brings a payload
    without an [id]: it is recorded under [None] and delivered with the
    message id ['unknown'].  The second pull brings a payload whose [id] is
    ['unknown']: that id is not in [processed_messages], and the message is
    delivered.  The pair [('whatsapp', 'unknown')] has entered the pipeline
    twice. *)
Theorem whatsapp_unknown_delivered_twice :
  (fun l => delivered_pairs (Ok l))
    <$> whatsapp_pulls [wa_response [wa_without_id];
                        wa_response [wa_id_unknown]] ∅
  = [[(VStr "whatsapp", VStr "unknown")];
     [(VStr "whatsapp", VStr "unknown")]] /\
  snd (whatsapp_pull_messages (wa_response [wa_without_id]) ∅) = {[ KNone ]}.
Proof. split; vm_compute; reflexivity. Qed.

(** * Further properties of the service and the orchestrator *)

(** ** Dispatch of a response *)

Lemma str_lower_idempotent (s : string) : str_lower (str_lower s) = str_lower s.
Proof.
  induction s as [|c s IH]; [reflexivity |]. cbn. rewrite IH. f_equal.
  unfold lower_ascii.
  destruct (Nat.leb 65 (nat_of_ascii c) && Nat.leb (nat_of_ascii c) 90)%bool
    eqn:Hc.
  - apply andb_true_iff in Hc. destruct Hc as [H1 H2].
    apply Nat.leb_le in H1. apply Nat.leb_le in H2.
    rewrite nat_ascii_embedding by (pose proof (nat_ascii_bounded c); lia).
    replace (Nat.leb (nat_of_ascii c + 32) 90) with false;
      [rewrite andb_false_r; reflexivity |].
    symmetry. apply Nat.leb_gt. lia.
  - rewrite Hc. reflexivity.
Qed.

(** X3.  [send_response] looks at the channel only through its lower-cased
    name: two spellings with the same lower-casing give the same hand-over
    and the same answer.  A channel that is one of the three names in any
    letter case is handed to exactly that handler, and the answer is the
    handler's; for every other channel, and for one that is not a string, no
    handler is called and the answer is [False]. *)
Theorem send_response_dispatch (env : Env) (recipient content : value)
    (md : dict) :
  (forall s s',
     str_lower s = str_lower s' ->
     send_response env (VStr s) recipient content md
     = send_response env (VStr s') recipient content md) /\
  (forall s, str_lower s = "email" ->
     send_response env (VStr s) recipient content md
     = (Ok (email_send_message env recipient content md),
        [EvSend "email" recipient content md
                (email_send_message env recipient content md)])) /\
  (forall s, str_lower s = "whatsapp" ->
     send_response env (VStr s) recipient content md
     = (Ok (whatsapp_send_message env recipient content md),
        [EvSend "whatsapp" recipient content md
                (whatsapp_send_message env recipient content md)])) /\
  (forall s, str_lower s = "teams" ->
     send_response env (VStr s) recipient content md
     = (Ok (teams_send_message env recipient content md),
        [EvSend "teams" recipient content md
                (teams_send_message env recipient content md)])) /\
  (forall channel,
     (forall s, channel = VStr s ->
        str_lower s <> "email" /\ str_lower s <> "whatsapp" /\
        str_lower s <> "teams") ->
     send_response env channel recipient content md = (Ok false, [])).
Proof.
  split; [| split; [| split; [| split]]].
  - intros s s' H. unfold send_response. cbn [value_lower]. rewrite H.
    reflexivity.
  - intros s H. unfold send_response. cbn [value_lower]. rewrite H.
    reflexivity.
  - intros s H. unfold send_response. cbn [value_lower]. rewrite H.
    reflexivity.
  - intros s H. unfold send_response. cbn [value_lower]. rewrite H.
    reflexivity.
  - intros channel H. unfold send_response.
    destruct channel as [|b|z|s|l|d]; try reflexivity.
    destruct (H s eq_refl) as (He & Hw & Ht).
    cbn [value_lower lift try_catch bind].
    apply String.eqb_neq in He, Hw, Ht. rewrite He, Hw, Ht. reflexivity.
Qed.

(** ** Pulling from one channel *)

Lemma pull_email_ok (io : providers) (st : handlers_state) :
  exists l p,
    email_pull_messages (email_io io) (email_processed st) = (Ok l, p) /\
    pull_email io st
    = (Ok l, {| email_processed := p;
                whatsapp_processed := whatsapp_processed st;
                teams_processed := teams_processed st |}).
Proof.
  destruct (email_pull_spec (email_io io) (email_processed st))
    as (l & p & H & _).
  exists l, p. split; [exact H |]. unfold pull_email. rewrite H. reflexivity.
Qed.

Lemma pull_whatsapp_ok (io : providers) (st : handlers_state) :
  exists l p,
    whatsapp_pull_messages (whatsapp_io io) (whatsapp_processed st) = (Ok l, p)
    /\ pull_whatsapp io st
       = (Ok l, {| email_processed := email_processed st;
                   whatsapp_processed := p;
                   teams_processed := teams_processed st |}).
Proof.
  destruct (whatsapp_pull_spec (whatsapp_io io) (whatsapp_processed st))
    as (l & p & H & _).
  exists l, p. split; [exact H |]. unfold pull_whatsapp. rewrite H. reflexivity.
Qed.

Lemma pull_teams_ok (st : handlers_state) : pull_teams st = (Ok [], st).
Proof. destruct st. reflexivity. Qed.

Lemma pull_from_channel_named (io : providers) (s : string)
    (st : handlers_state) :
  pull_from_channel io (VStr s) st
  = if String.eqb (str_lower s) "email" then pull_email io st
    else if String.eqb (str_lower s) "whatsapp" then pull_whatsapp io st
    else if String.eqb (str_lower s) "teams" then pull_teams st
    else (Ok [], st).
Proof.
  unfold pull_from_channel, st_try, st_bind, st_lift, st_ret.
  cbn [value_lower].
  destruct (String.eqb (str_lower s) "email").
  { destruct (pull_email_ok io st) as (l & p & _ & ->). reflexivity. }
  destruct (String.eqb (str_lower s) "whatsapp").
  { destruct (pull_whatsapp_ok io st) as (l & p & _ & ->). reflexivity. }
  destruct (String.eqb (str_lower s) "teams").
  { rewrite pull_teams_ok. reflexivity. }
  reflexivity.
Qed.

(** X4.  [pull_from_channel] never raises.  For a name that is one of the
    three channels in any letter case it returns what that handler's
    [pull_messages] returns and leaves the [processed_messages] of the other
    two handlers as they were; for any other name, and for a name that is not
    a string, it returns the empty list and changes nothing (as the Teams
    handler does, whose pull is always empty).  Pulling from
    the three channels one after the other gives the messages and the state
    that [pull_all_messages] gives. *)
Theorem pull_from_channel_spec (io : providers) (st : handlers_state) :
  (forall channel_name,
     exists l st', pull_from_channel io channel_name st = (Ok l, st')) /\
  (forall s l st',
     str_lower s = "email" ->
     pull_from_channel io (VStr s) st = (Ok l, st') ->
     email_pull_messages (email_io io) (email_processed st)
     = (Ok l, email_processed st') /\
     whatsapp_processed st' = whatsapp_processed st /\
     teams_processed st' = teams_processed st) /\
  (forall s l st',
     str_lower s = "whatsapp" ->
     pull_from_channel io (VStr s) st = (Ok l, st') ->
     whatsapp_pull_messages (whatsapp_io io) (whatsapp_processed st)
     = (Ok l, whatsapp_processed st') /\
     email_processed st' = email_processed st /\
     teams_processed st' = teams_processed st) /\
  (forall channel_name,
     (forall s, channel_name = VStr s ->
        str_lower s <> "email" /\ str_lower s <> "whatsapp") ->
     pull_from_channel io channel_name st = (Ok [], st)) /\
  (exists l1 st1 l2 st2 l3 st3,
     pull_from_channel io (VStr "email") st = (Ok l1, st1) /\
     pull_from_channel io (VStr "whatsapp") st1 = (Ok l2, st2) /\
     pull_from_channel io (VStr "teams") st2 = (Ok l3, st3) /\
     service_pull_all io st = (Ok (l1 ++ l2 ++ l3)%list, st3)).
Proof.
  split; [| split; [| split; [| split]]].
  - intros channel_name.
    destruct channel_name as [|b|z|s|l|d];
      try (exists [], st; reflexivity).
    rewrite pull_from_channel_named.
    destruct (String.eqb (str_lower s) "email").
    { destruct (pull_email_ok io st) as (l & p & _ & ->). eauto. }
    destruct (String.eqb (str_lower s) "whatsapp").
    { destruct (pull_whatsapp_ok io st) as (l & p & _ & ->). eauto. }
    destruct (String.eqb (str_lower s) "teams").
    { rewrite pull_teams_ok. eauto. }
    eauto.
  - intros s l st' Hs H. rewrite pull_from_channel_named, Hs in H.
    cbn in H. destruct (pull_email_ok io st) as (l0 & p & He & Hp).
    rewrite Hp in H. injection H as <- <-. cbn. rewrite He. repeat split.
  - intros s l st' Hs H. rewrite pull_from_channel_named, Hs in H.
    cbn in H. destruct (pull_whatsapp_ok io st) as (l0 & p & He & Hp).
    rewrite Hp in H. injection H as <- <-. cbn. rewrite He. repeat split.
  - intros channel_name H.
    destruct channel_name as [|b|z|s|l|d]; try reflexivity.
    rewrite pull_from_channel_named.
    destruct (H s eq_refl) as (He & Hw).
    apply String.eqb_neq in He, Hw. rewrite He, Hw.
    destruct (String.eqb (str_lower s) "teams");
      [apply pull_teams_ok | reflexivity].
  - assert (forall s0, pull_from_channel io (VStr "email") s0
                       = pull_email io s0) as Ee
      by (intros s0; rewrite pull_from_channel_named; reflexivity).
    assert (forall s0, pull_from_channel io (VStr "whatsapp") s0
                       = pull_whatsapp io s0) as Ew
      by (intros s0; rewrite pull_from_channel_named; reflexivity).
    assert (forall s0, pull_from_channel io (VStr "teams") s0
                       = pull_teams s0) as Et
      by (intros s0; rewrite pull_from_channel_named; reflexivity).
    unfold service_pull_all.
    destruct (pull_email_ok io st) as (l1 & p1 & _ & H1). rewrite H1.
    destruct (pull_whatsapp_ok io
                {| email_processed := p1;
                   whatsapp_processed := whatsapp_processed st;
                   teams_processed := teams_processed st |})
      as (l2 & p2 & _ & H2). rewrite H2.
    rewrite pull_teams_ok.
    eexists _, _, _, _, _, _.
    rewrite Ee, H1, Ew, H2, Et, pull_teams_ok.
    repeat split. cbn. rewrite ?app_nil_r, <- ?app_assoc. reflexivity.
Qed.

(** ** The loop of [Orchestrator.start] *)

Lemma pull_all_messages_ok (email whatsapp teams : res (list dict)) :
  exists l, fst (pull_all_messages email whatsapp teams) = Ok l.
Proof. destruct email, whatsapp, teams; eexists; reflexivity. Qed.

Lemma process_messages_completed_ok (envs : nat -> Env) (messages : list dict) :
  exists results,
    process_messages_completed envs messages = Ok results /\
    length results = length messages.
Proof.
  unfold process_messages_completed.
  destruct (collect_results_spec messages
              (imap (fun i m => fst (process_message (envs i) m)) messages)
              0 []) as (out & Hout & Hlen & _);
    [rewrite length_imap; lia |].
  exists out. split; [exact Hout |]. rewrite Hlen. apply length_imap.
Qed.

Lemma process_messages_when_completed (envs : nat -> Env)
    (completed : list nat) (messages : list dict) :
  (forall i, (i < length messages)%nat -> In i completed) ->
  process_messages envs completed messages
  = Some (process_messages_completed envs messages).
Proof.
  intros Hall. unfold process_messages, process_messages_with.
  rewrite gather_all_completed by (rewrite length_imap; exact Hall).
  reflexivity.
Qed.

Lemma orchestrator_iteration_events (iv : Z) (oi : orchestrator_iteration) :
  exists messages,
    pulled_messages (orchestrator_env oi) = Ok messages /\
    iteration_events iv (orchestrator_env oi)
    = if nonempty messages
      then [PollPull; PollCallback messages; PollSleep iv]
      else [PollPull; PollSleep iv].
Proof.
  unfold iteration_events, pulled_messages. cbn [orchestrator_env pulled callback].
  destruct (o_pulled oi) as [[e w] t].
  destruct (pull_all_messages_ok e w t) as (messages & ->).
  exists messages. split; [reflexivity |].
  destruct (nonempty messages); [| reflexivity].
  unfold orchestrator_callback.
  destruct (process_messages_completed_ok (o_runs oi) messages)
    as (results & -> & _).
  reflexivity.
Qed.

Lemma polling_loop_events_forall (P : poll_event -> Prop)
    (envs : nat -> iteration_env) :
  (forall k iv, Forall P (iteration_events iv (envs k))) ->
  forall fuel k svc, Forall P (polling_loop fuel envs k svc).1.1.
Proof.
  intros HP. induction fuel as [|fuel IH]; intros k svc; [constructor |].
  cbn [polling_loop]. destruct (is_running svc); [| constructor].
  pose proof (polling_iteration_events (envs k) svc) as He.
  destruct (polling_iteration (envs k) svc) as [evs svc'].
  cbn [fst] in He. subst evs.
  specialize (IH (S k) svc').
  destruct (polling_loop fuel envs (S k) svc') as [[rest svc''] returned].
  cbn [fst] in *. apply Forall_app. split; [apply HP | exact IH].
Qed.

(** X5.  In the loop that [Orchestrator.start] runs, with [process_messages]
    as the callback, no iteration ever takes the error branch, whatever the
    adapters and the agents do: every iteration is a pull, the processing of
    the batch when there is one, and one sleep.  The callback returns one
    outcome per message of the batch. *)
Theorem orchestrator_loop_never_faults (fuel : nat)
    (surroundings : nat -> orchestrator_iteration) (svc : service) :
  Forall (fun ev => is_poll_error ev = false)
         (orchestrator_start fuel surroundings svc).1.1 /\
  (forall k iv, exists messages,
     pulled_messages (orchestrator_env (surroundings k)) = Ok messages /\
     iteration_events iv (orchestrator_env (surroundings k))
     = if nonempty messages
       then [PollPull; PollCallback messages; PollSleep iv]
       else [PollPull; PollSleep iv]) /\
  (forall oi messages, exists results,
     process_messages_completed (o_runs oi) messages = Ok results /\
     length results = length messages /\
     orchestrator_callback oi messages = Ok ()).
Proof.
  split; [| split].
  - unfold orchestrator_start, start_polling.
    apply polling_loop_events_forall. intros k iv.
    destruct (orchestrator_iteration_events iv (surroundings k))
      as (messages & _ & ->).
    destruct (nonempty messages); repeat constructor.
  - intros k iv. apply orchestrator_iteration_events.
  - intros oi messages.
    destruct (process_messages_completed_ok (o_runs oi) messages)
      as (results & H & Hlen).
    exists results. split; [exact H |]. split; [exact Hlen |].
    unfold orchestrator_callback. rewrite H. reflexivity.
Qed.

(** * Properties of the webhooks *)

(** ** Teams *)

Lemma parse_teams_canonical (now : string) (activity m : dict) :
  _parse_teams_message now activity = Ok m ->
  canonical "teams" m /\
  message_id_of m = dict_get activity "id" (VStr "unknown").
Proof.
  unfold _parse_teams_message.
  destruct (value_get (dict_get activity "from" (VDict ∅)) "id" _) as [sid|];
    [| discriminate].
  destruct (value_get (dict_get activity "from" (VDict ∅)) "name" sid);
    [| discriminate].
  destruct (value_get (dict_get activity "conversation" (VDict ∅)) "id" _);
    [| discriminate].
  destruct (value_get (dict_get activity "recipient" (VDict ∅)) "name" _);
    [| discriminate].
  intros H. injection H as <-. split; [| reflexivity].
  split; [| split; [reflexivity | eexists; reflexivity]].
  unfold canonical_keys. rewrite !dom_insert_L, dom_empty_L. cbn. set_solver.
Qed.

Lemma truthy_id_present (activity : dict) :
  truthy (dict_get activity "id" VNone) = true ->
  dict_get activity "id" (VStr "unknown") = dict_get activity "id" VNone.
Proof.
  unfold dict_get. destruct (activity !! "id"); [reflexivity |].
  cbn. discriminate.
Qed.

Lemma teams_webhook_step (now : string) (activity : dict) (p : gset hkey) :
  (teams_handle_webhook now activity p = (Ok VNone, p)) \/
  (exists m k,
     teams_handle_webhook now activity p = (Ok (VDict m), {[ k ]} ∪ p) /\
     _parse_teams_message now activity = Ok m /\
     canonical "teams" m /\
     message_id_of m = dict_get activity "id" VNone /\
     truthy (message_id_of m) = true /\
     hash_key (message_id_of m) = Ok k /\
     k ∉ p).
Proof.
  unfold teams_handle_webhook, teams_webhook_body, st_try, st_ret.
  destruct (truthy (dict_get activity "id" VNone)) eqn:Ht; [| left; reflexivity].
  destruct (hash_key (dict_get activity "id" VNone)) as [k|e] eqn:Hk;
    [| left; reflexivity].
  destruct (decide (k ∈ p)) as [Hin | Hnot]; [left; reflexivity |].
  destruct (_parse_teams_message now activity) as [m|e] eqn:Hp;
    [| left; reflexivity].
  right. exists m, k. split; [reflexivity |].
  destruct (parse_teams_canonical _ _ _ Hp) as [Hc Hid].
  rewrite (truthy_id_present _ Ht) in Hid.
  split; [reflexivity |]. split; [exact Hc |]. split; [exact Hid |].
  rewrite Hid. split; [exact Ht |]. split; [exact Hk | exact Hnot].
Qed.




(** X7.  Teams webhook: [handle_webhook] never raises.  An activity whose
    [id] is missing or falsy, whose id is already recorded, or that cannot be
    parsed, yields [None] and leaves [processed_messages] as it was.  So an
    activity dropped because it could not be parsed does not block a later,
    well-formed activity with the same id. *)
Theorem teams_webhook_drops_without_recording (now now' : string)
    (activity activity' : dict) (p : gset hkey) (e : string) (k : hkey)
    (m : dict) :
  _parse_teams_message now activity = Exn e ->
  _parse_teams_message now' activity' = Ok m ->
  truthy (dict_get activity' "id" VNone) = true ->
  hash_key (dict_get activity' "id" VNone) = Ok k ->
  k ∉ p ->
  teams_handle_webhook now activity p = (Ok VNone, p) /\
  teams_webhooks [(now, activity); (now', activity')] p = [m] /\
  (forall now0 activity0 p0,
     exists r p0',
       teams_handle_webhook now0 activity0 p0 = (Ok r, p0') /\
       (r = VNone -> p0' = p0)) /\
  (forall now0 activity0 p0,
     truthy (dict_get activity0 "id" VNone) = false ->
     teams_handle_webhook now0 activity0 p0 = (Ok VNone, p0)).
Proof.
  intros Hbad Hgood Ht Hk Hnot.
  assert (teams_handle_webhook now activity p = (Ok VNone, p)) as H1.
  { destruct (teams_webhook_step now activity p)
      as [H | (m0 & k0 & _ & Hp & _)]; [exact H |].
    rewrite Hbad in Hp. discriminate Hp. }
  split; [exact H1 |]. split; [| split].
  - cbn [teams_webhooks]. rewrite H1.
    destruct (teams_webhook_step now' activity' p)
      as [H | (m0 & k0 & H & Hp & _)].
    + exfalso. revert H.
      unfold teams_handle_webhook, teams_webhook_body, st_try, st_ret.
      rewrite Ht, Hk, Hgood.
      destruct (decide (k ∈ p)) as [Hin | _]; [exact (False_ind _ (Hnot Hin)) |].
      discriminate.
    + rewrite H. rewrite Hgood in Hp. injection Hp as <-. reflexivity.
  - intros now0 activity0 p0.
    destruct (teams_webhook_step now0 activity0 p0)
      as [H | (m0 & k0 & H & _)]; rewrite H.
    + eexists _, _. split; [reflexivity |]. reflexivity.
    + eexists _, _. split; [reflexivity |]. discriminate.
  - intros now0 activity0 p0 Hf.
    unfold teams_handle_webhook, teams_webhook_body, st_try, st_ret.
    rewrite Hf. reflexivity.
Qed.

(** The malformed activity is dropped, the well-formed one that follows is
    delivered. *)
Lemma teams_webhook_drops_without_recording_witness :
  teams_webhooks [("2025-11-03T12:05:00", teams_activity_malformed);
                  ("2025-11-03T12:06:00", teams_activity_ok)] ∅
  = [<["message_id" := VStr "a-1"]>
     (<["channel" := VStr "teams"]>
     (<["sender" := VStr "user2"]>
     (<["content" := VStr "hello"]>
     (<["timestamp" := VStr "2025-11-03T12:06:00"]>
     (<["metadata" :=
          VDict (<["conversation_id" := VStr ""]>
                (<["channel_id" := VStr ""]>
                (<["service_url" := VStr ""]>
                (<["recipient" := VStr ""]>
                (<["activity_type" := VStr "message"]> ∅)))))]> ∅)))))].
Proof.
  apply (proj1 (proj2
    (teams_webhook_drops_without_recording
       "2025-11-03T12:05:00" "2025-11-03T12:06:00"
       teams_activity_malformed teams_activity_ok ∅
       "'str' object has no attribute 'get'" (KStr "a-1") _
       eq_refl eq_refl eq_refl eq_refl (not_elem_of_empty _)))).
Defined.

(** ** WhatsApp *)

Lemma whatsapp_loop_post_refl (messages : list dict) (p : gset hkey) :
  whatsapp_loop_post messages p (Ok messages) p.
Proof.
  split; [reflexivity |]. intros l Hl. injection Hl as <-.
  exists [], []. rewrite app_nil_r.
  split; [reflexivity |]. split; [constructor |]. split; [constructor |].
  split; [constructor |]. intros k Hk. inversion Hk.
Qed.

Lemma whatsapp_loop_post_exn (messages : list dict) (p : gset hkey)
    (e : string) :
  whatsapp_loop_post messages p (Exn e) p.
Proof. split; [reflexivity |]. intros l Hl. discriminate Hl. Qed.

Lemma whatsapp_loop_post_trans (messages l1 : list dict) (p p1 p2 : gset hkey)
    (r : res (list dict)) :
  whatsapp_loop_post messages p (Ok l1) p1 ->
  whatsapp_loop_post l1 p1 r p2 ->
  whatsapp_loop_post messages p r p2.
Proof.
  intros [Hs1 H1] [Hs2 H2]. split; [set_solver |].
  intros l Hl.
  destruct (H1 l1 eq_refl) as (new1 & ks1 & -> & Hc1 & Hr1 & Hn1 & Hk1).
  destruct (H2 l Hl) as (new2 & ks2 & -> & Hc2 & Hr2 & Hn2 & Hk2).
  exists (new1 ++ new2)%list, (ks1 ++ ks2)%list.
  split; [rewrite app_assoc; reflexivity |].
  split; [apply Forall_app; split; assumption |].
  split; [apply Forall2_app; assumption |].
  split.
  - apply NoDup_app. split; [exact Hn1 |]. split; [| exact Hn2].
    intros k Hin1 Hin2. apply (proj1 (Hk2 k Hin2)). apply (Hk1 k Hin1).
  - intros k Hin. apply elem_of_app in Hin. destruct Hin as [Hin | Hin].
    + destruct (Hk1 k Hin) as [Ha Hb]. split; [exact Ha | set_solver].
    + destruct (Hk2 k Hin) as [Ha Hb]. split; [set_solver | exact Hb].
Qed.

Lemma whatsapp_loop_post_holds (io : whatsapp_exchange) (items : list value)
    (messages : list dict) (p : gset hkey) :
  whatsapp_loop_post messages p (whatsapp_loop io items messages p).1
                     (whatsapp_loop io items messages p).2.
Proof.
  destruct (whatsapp_loop io items messages p) as [r p'] eqn:H.
  exact (whatsapp_loop_spec io items messages p r p' H).
Qed.

Lemma webhook_changes_post (io : whatsapp_exchange) (changes : list value) :
  forall messages p,
    whatsapp_loop_post messages p (webhook_changes io changes messages p).1
                       (webhook_changes io changes messages p).2.
Proof.
  induction changes as [|change rest IH]; intros messages p.
  - apply whatsapp_loop_post_refl.
  - cbn [webhook_changes]. unfold st_bind, st_lift.
    destruct (value_get change "value" (VDict ∅)) as [payload|e];
      [| apply whatsapp_loop_post_exn].
    destruct (value_get payload "messages" (VList [])) as [listed|e];
      [| apply whatsapp_loop_post_exn].
    destruct (py_iter listed) as [items|e]; [| apply whatsapp_loop_post_exn].
    pose proof (whatsapp_loop_post_holds io items messages p) as Hl.
    destruct (whatsapp_loop io items messages p) as [[l1|e] p1];
      cbn [fst snd] in Hl.
    + exact (whatsapp_loop_post_trans _ _ _ _ _ _ Hl (IH l1 p1)).
    + exact Hl.
Qed.

Lemma webhook_entries_post (io : whatsapp_exchange) (entries : list value) :
  forall messages p,
    whatsapp_loop_post messages p (webhook_entries io entries messages p).1
                       (webhook_entries io entries messages p).2.
Proof.
  induction entries as [|entry rest IH]; intros messages p.
  - apply whatsapp_loop_post_refl.
  - cbn [webhook_entries]. unfold st_bind, st_lift.
    destruct (value_get entry "changes" (VList [])) as [listed|e];
      [| apply whatsapp_loop_post_exn].
    destruct (py_iter listed) as [changes|e]; [| apply whatsapp_loop_post_exn].
    pose proof (webhook_changes_post io changes messages p) as Hl.
    destruct (webhook_changes io changes messages p) as [[l1|e] p1];
      cbn [fst snd] in Hl.
    + exact (whatsapp_loop_post_trans _ _ _ _ _ _ Hl (IH l1 p1)).
    + exact Hl.
Qed.

Lemma whatsapp_webhook_spec (io : whatsapp_exchange) (webhook_data : dict)
    (p : gset hkey) :
  exists l p',
    whatsapp_handle_webhook io webhook_data p = (Ok l, p') /\
    (p ⊆ p') /\
    Forall (canonical "whatsapp") l /\
    (forall e p'', whatsapp_webhook_body io webhook_data p = (Exn e, p'') ->
                   l = []) /\
    exists ks,
      Forall2 recorded_as l ks /\ NoDup ks /\
      forall k, k ∈ ks -> (k ∉ p) /\ (k ∈ p').
Proof.
  assert (whatsapp_loop_post [] p (whatsapp_webhook_body io webhook_data p).1
                             (whatsapp_webhook_body io webhook_data p).2)
    as Hpost.
  { unfold whatsapp_webhook_body, st_bind, st_lift.
    destruct (py_iter (dict_get webhook_data "entry" (VList []))) as [entries|e];
      [apply webhook_entries_post | apply whatsapp_loop_post_exn]. }
  unfold whatsapp_handle_webhook, st_try, st_ret.
  destruct (whatsapp_webhook_body io webhook_data p) as [[l|e] p'];
    cbn [fst snd] in Hpost; destruct Hpost as [Hs Hok].
  - destruct (Hok l eq_refl) as (new & ks & Hl & Hc & Hr & Hn & Hk).
    cbn [app] in Hl. subst new. exists l, p'.
    split; [reflexivity |]. split; [exact Hs |]. split; [exact Hc |].
    split; [intros e p'' He; discriminate He |].
    exists ks. split; [exact Hr |]. split; [exact Hn | exact Hk].
  - exists [], p'. split; [reflexivity |]. split; [exact Hs |].
    split; [constructor |]. split; [reflexivity |]. exists [].
    split; [constructor |]. split; [constructor |].
    intros k Hk. inversion Hk.
Qed.

Lemma whatsapp_take_spec (x : whatsapp_intake) (p : gset hkey) :
  exists l p',
    whatsapp_take x p = (Ok l, p') /\
    (p ⊆ p') /\
    Forall (canonical "whatsapp") l /\
    exists ks,
      Forall2 recorded_as l ks /\ NoDup ks /\
      forall k, k ∈ ks -> (k ∉ p) /\ (k ∈ p').
Proof.
  destruct x as [io | io webhook_data]; cbn [whatsapp_take].
  - destruct (whatsapp_pull_spec io p) as (l & p' & H & Hs & Hc & _ & Hk).
    exists l, p'. repeat split; assumption.
  - destruct (whatsapp_webhook_spec io webhook_data p)
      as (l & p' & H & Hs & Hc & _ & Hk).
    exists l, p'. repeat split; assumption.
Qed.

(** X8.  WhatsApp: [handle_webhook] never raises and returns canonical
    WhatsApp messages.  It shares [processed_messages] with [pull_messages]:
    over any sequence of pulls and webhook calls of one handler, the ids
    under which the delivered messages were recorded are pairwise different,
    so a message taken in by the webhook is skipped by every later pull, and
    the other way round. *)
Theorem whatsapp_webhook_shares_dedup (xs : list whatsapp_intake) :
  forall p : gset hkey,
    (exists ks,
       Forall2 recorded_as (concat (whatsapp_intakes xs p)) ks /\
       NoDup ks /\
       forall k, k ∈ ks -> k ∉ p) /\
    Forall (canonical "whatsapp") (concat (whatsapp_intakes xs p)) /\
    (forall io webhook_data,
       exists l p', whatsapp_handle_webhook io webhook_data p = (Ok l, p')).
Proof.
  induction xs as [|x rest IH]; intros p.
  - split; [| split].
    + exists []. split; [constructor |]. split; [constructor |].
      intros k Hk. inversion Hk.
    + constructor.
    + intros io webhook_data.
      destruct (whatsapp_webhook_spec io webhook_data p) as (l & p' & H & _).
      eauto.
  - cbn [whatsapp_intakes].
    destruct (whatsapp_take_spec x p)
      as (l & p' & Htake & Hsub & Hc & ks1 & Hrec1 & Hnd1 & Hk1).
    rewrite Htake. cbn [messages_of concat].
    destruct (IH p') as ((ks2 & Hrec2 & Hnd2 & Hk2) & Hcan & _).
    split; [| split].
    + exists (ks1 ++ ks2)%list.
      split; [apply Forall2_app; assumption |].
      split.
      * apply NoDup_app. split; [exact Hnd1 |]. split; [| exact Hnd2].
        intros k Hin1 Hin2. apply (Hk2 k Hin2). apply (Hk1 k Hin1).
      * intros k Hin. apply elem_of_app in Hin. destruct Hin as [Hin | Hin].
        -- apply (Hk1 k Hin).
        -- intros Hp. apply (Hk2 k Hin). set_solver.
    + apply Forall_app. split; assumption.
    + intros io webhook_data.
      destruct (whatsapp_webhook_spec io webhook_data p) as (l0 & p0 & H & _).
      eauto.
Qed.

(** ** Messages lost by a failed pull *)

Lemma email_pulls_fresh_ids (ios : list imap_session) :
  forall p : gset string,
    exists ks,
      message_id_of <$> concat (email_pulls ios p) = VStr <$> ks /\
      forall k, k ∈ ks -> k ∉ p.
Proof.
  induction ios as [|io rest IH]; intros p.
  - exists []. split; [reflexivity |]. intros k Hk. inversion Hk.
  - cbn [email_pulls].
    destruct (messages_of_email_pull io p)
      as (l & p' & Hpull & Hsub & ks1 & Hids1 & _ & Hk1).
    rewrite Hpull. cbn [messages_of concat].
    destruct (IH p') as (ks2 & Hids2 & Hk2).
    exists (ks1 ++ ks2)%list.
    split; [rewrite !fmap_app, Hids1, Hids2; reflexivity |].
    intros k Hin. apply elem_of_app in Hin. destruct Hin as [Hin | Hin].
    + apply (Hk1 k Hin).
    + intros Hp. apply (Hk2 k Hin). set_solver.
Qed.

Lemma email_loop_app (io : imap_session) (l1 l2 : list string) :
  forall idx messages (p : gset string),
    email_loop io idx (l1 ++ l2) messages p
    = match email_loop io idx l1 messages p with
      | (Ok read, q) => email_loop io (idx + length l1) l2 read q
      | (Exn e, q) => (Exn e, q)
      end.
Proof.
  induction l1 as [|msg_id rest IH]; intros idx messages p.
  - cbn. rewrite Nat.add_0_r. reflexivity.
  - cbn [app email_loop length]. rewrite <- Nat.add_succ_comm.
    destruct (decide (msg_id ∈ p)); [apply IH |].
    unfold st_bind, st_lift.
    destruct (imap_fetch io idx msg_id) as [fetched|e]; [| reflexivity].
    destruct (negb (String.eqb fetched.1 "OK")); [apply IH |].
    destruct (fetched.2) as [fields|e]; [apply IH | reflexivity].
Qed.

(** X9.  Email: a pull that got as far as the loop, read the messages
    [read] on the first part [l1] of the unseen ids, and then raised inside
    its [try] (a later fetch, [close], [logout]) returns the empty list; the
    ids of the messages [read] were not in [processed_messages] before the
    pull and are in it afterwards, and no later pull delivers a message with
    an id of [processed_messages].  The messages read before the failure
    are lost. *)
Theorem email_failed_pull_loses_messages (io : imap_session)
    (p q p' : gset string) (e : string) (l1 l2 : list string)
    (read : list dict) :
  imap_connect io = Ok () -> imap_login io = Ok () ->
  imap_select io = Ok () ->
  imap_search io = Ok ("OK", Ok (l1 ++ l2)%list) ->
  email_loop io 0 l1 [] p = (Ok read, q) ->
  email_pull_body io p = (Exn e, p') ->
  email_pull_messages io p = (Ok [], p') /\
  (p ⊆ p') /\
  Forall (fun m => exists id, message_id_of m = VStr id /\
                              (id ∉ p) /\ (id ∈ p')) read /\
  (forall (ios : list imap_session) (m : dict),
     m ∈ read ->
     message_id_of m ∉ message_id_of <$> concat (email_pulls ios p')) /\
  forall (ios : list imap_session) (id : string),
    id ∈ p' ->
    VStr id ∉ message_id_of <$> concat (email_pulls ios p').
Proof.
  intros Hconn Hlogin Hsel Hsearch Hread Hbody.
  assert (email_pull_messages io p = (Ok [], p')) as Hpull
    by (unfold email_pull_messages, st_try; rewrite Hbody; reflexivity).
  assert (forall (ios : list imap_session) (id : string),
            id ∈ p' ->
            VStr id ∉ message_id_of <$> concat (email_pulls ios p')) as Hlater.
  { intros ios id Hin Hdel.
    destruct (email_pulls_fresh_ids ios p') as (ks & Hids & Hfresh).
    rewrite Hids in Hdel. apply list_elem_of_fmap in Hdel.
    destruct Hdel as (k & Heq & Hk). injection Heq as ->.
    exact (Hfresh k Hk Hin). }
  assert (q ⊆ p') as Hq.
  { revert Hbody. unfold email_pull_body, st_bind, st_lift, st_ret.
    rewrite Hconn, Hlogin, Hsel, Hsearch. cbn [fst snd String.eqb negb].
    cbn. rewrite email_loop_app, Hread. cbn [length Nat.add].
    destruct (email_loop io (length l1) l2 read q) as [[l|e2] p2] eqn:Hl;
      destruct (email_loop_spec io l2 _ _ _ _ _ Hl) as [Hs _].
    - destruct (imap_close io); [| intros H; injection H as _ <-; exact Hs].
      destruct (imap_logout io); [| intros H; injection H as _ <-; exact Hs].
      intros H; discriminate H.
    - intros H; injection H as _ <-; exact Hs. }
  assert (Forall (fun m => exists id, message_id_of m = VStr id /\
                                      (id ∉ p) /\ (id ∈ p')) read) as Hrec.
  { destruct (email_loop_spec io l1 _ _ _ _ _ Hread) as [_ Hok].
    destruct (Hok read eq_refl) as (new & ks & Hnew & _ & Hids & _ & Hks).
    cbn [app] in Hnew. subst new.
    apply Forall_forall. intros m Hm.
    assert (message_id_of m ∈ message_id_of <$> read) as Hin
      by (apply list_elem_of_fmap; exists m; split; [reflexivity | exact Hm]).
    rewrite Hids in Hin. apply list_elem_of_fmap in Hin.
    destruct Hin as (id & Heq & Hid). exists id. split; [exact Heq |].
    destruct (Hks id Hid) as (Hnp & Hinq & _).
    split; [exact Hnp | exact (Hq id Hinq)]. }
  split; [exact Hpull |]. split.
  - destruct (messages_of_email_pull io p) as (l & p0 & H & Hsub & _).
    rewrite Hpull in H. injection H as _ <-. exact Hsub.
  - split; [exact Hrec |]. split; [| exact Hlater].
    intros ios m Hm.
    destruct (proj1 (Forall_forall _ _) Hrec m Hm) as (id & -> & _ & Hin).
    exact (Hlater ios id Hin).
Qed.

Lemma imap_second_fetch_fails_body :
  email_pull_body imap_second_fetch_fails ∅ = (Exn "socket error", {[ "1" ]}).
Proof. vm_compute. reflexivity. Qed.

Lemma imap_second_fetch_fails_loop :
  email_loop imap_second_fetch_fails 0 ["1"] [] ∅
  = (Ok [_parse_email_message sample_fields "1"], {[ "1" ]}).
Proof. vm_compute. reflexivity. Qed.

(** Two unseen messages, the second fetch fails: the first message was read
    and recorded, nothing is returned, and no later pull delivers it. *)
Lemma email_failed_pull_loses_messages_witness :
  email_pull_messages imap_second_fetch_fails ∅ = (Ok [], {[ "1" ]}) /\
  (exists id, message_id_of (_parse_email_message sample_fields "1") = VStr id
              /\ id ∈ ({[ "1" ]} : gset string)) /\
  forall ios,
    message_id_of (_parse_email_message sample_fields "1")
    ∉ message_id_of <$> concat (email_pulls ios {[ "1" ]}).
Proof.
  destruct (email_failed_pull_loses_messages imap_second_fetch_fails ∅
              {[ "1" ]} {[ "1" ]} "socket error" ["1"] ["2"]
              [_parse_email_message sample_fields "1"]
              eq_refl eq_refl eq_refl eq_refl
              imap_second_fetch_fails_loop imap_second_fetch_fails_body)
    as (H1 & _ & H2 & H3 & _).
  split; [exact H1 |]. split.
  - destruct (Forall_inv H2) as (id & Hid & _ & Hin). exists id.
    split; [exact Hid | exact Hin].
  - intros ios. apply H3. apply list_elem_of_singleton. reflexivity.
Defined.

(** * Properties of the send handlers under the orchestrator *)

Lemma value_get_not_dict (v : value) (k : string) (dflt : value) :
  (forall d, v <> VDict d) ->
  value_get v k dflt = Exn (attribute_error v "get").
Proof. intros H. destruct v; try reflexivity. exfalso. exact (H _ eq_refl). Qed.

Lemma response_metadata_other_spelling (env : Env) (x : value)
    (message : dict) (s : string) :
  dict_get message "channel" VNone = VStr s ->
  s <> "email" -> s <> "teams" ->
  response_metadata env x message = Ok ∅.
Proof.
  intros Hc He Ht. unfold response_metadata. rewrite Hc. cbn [eq_str].
  apply String.eqb_neq in He, Ht. rewrite He, Ht. reflexivity.
Qed.


Lemma send_to_teams (env : Env) (s : string) (r c : value) (md : dict) :
  str_lower s = "teams" ->
  send_response env (VStr s) r c md
  = (Ok (teams_send_message env r c md),
     [EvSend "teams" r c md (teams_send_message env r c md)]).
Proof.
  intros H. unfold send_response. cbn [value_lower]. rewrite H. reflexivity.
Qed.






(** ** Teams *)

Lemma with_handlers_teams (env : Env) (tr : transports) (r c : value)
    (md : dict) :
  teams_send_message (with_handlers env tr) r c md
  = teams_handler_send (teams_send tr) r c (VDict md).
Proof. reflexivity. Qed.

Lemma with_handlers_whatsapp (env : Env) (tr : transports) (r c : value)
    (md : dict) :
  whatsapp_send_message (with_handlers env tr) r c md
  = whatsapp_handler_send (whatsapp_post tr) r c (VDict md).
Proof. reflexivity. Qed.

Lemma teams_handler_send_card (send : teams_card -> res unit)
    (r c md : value) (card : teams_card) :
  teams_build_card c md = Ok card ->
  teams_handler_send send r c md
  = match send card with Ok _ => true | Exn _ => false end.
Proof.
  intros H. unfold teams_handler_send, teams_send_body, res_bind. rewrite H.
  destruct (send card); reflexivity.
Qed.

(** X11.  Reply to Teams.  For a message whose channel lower-cases to
    ['teams'] and an execution result that is a dictionary, the response
    stage builds one connector card whose text is the user response and
    which has no sections.  For the channel spelled ['teams'] the card is
    titled ["Task Update"] and is green (00FF00) when [execution_status] is
    ['success'] and red (FF0000) otherwise; for any other spelling
    (['Teams']) the card has neither title nor colour.  [response_sent] is
    [True] exactly when sending that card does not raise. *)
Theorem teams_reply_card (env : Env) (tr : transports) (message d : dict)
    (s : string) :
  dict_get message "channel" VNone = VStr s ->
  str_lower s = "teams" ->
  let sender := dict_get message "sender" VNone in
  let text :=
    dict_get d "user_response" (VStr "Your request has been processed.") in
  let succeeded := eq_str (dict_get d "execution_status" VNone) "success" in
  let card :=
    {| card_title := if String.eqb s "teams" then Some (VStr "Task Update")
                     else None;
       card_text := text;
       card_color := if String.eqb s "teams"
                     then Some (if succeeded then "00FF00" else "FF0000")
                     else None;
       card_sections := [] |} in
  let b := match teams_send tr card with Ok _ => true | Exn _ => false end in
  exists md,
    response_metadata env (VDict d) message = Ok md /\
    teams_build_card text (VDict md) = Ok card /\
    _send_response (with_handlers env tr) (VDict d) message
    = (Ok b, [EvSend "teams" sender text md b]).
Proof.
  intros Hc Hlow sender text succeeded card b.
  assert (exists md,
            response_metadata env (VDict d) message = Ok md /\
            teams_build_card text (VDict md) = Ok card)
    as (md & Hmd & Hcard).
  { subst card. destruct (String.eqb s "teams") eqn:Hs.
    - apply String.eqb_eq in Hs. subst s.
      eexists. split.
      + unfold response_metadata. rewrite Hc. cbn [eq_str String.eqb].
        cbn. reflexivity.
      + fold succeeded. destruct succeeded; reflexivity.
    - apply String.eqb_neq in Hs. exists ∅. split; [| reflexivity].
      apply (response_metadata_other_spelling env _ message s Hc); [| exact Hs].
      intros ->. discriminate Hlow. }
  exists md. split; [exact Hmd |]. split; [exact Hcard |].
  assert (response_metadata (with_handlers env tr) (VDict d) message = Ok md)
    as Hmd' by exact Hmd.
  rewrite (_send_response_dict (with_handlers env tr) message d md Hmd').
  rewrite Hc. rewrite send_to_teams by exact Hlow.
  rewrite with_handlers_teams.
  rewrite (teams_handler_send_card _ _ _ _ card Hcard). reflexivity.
Qed.

(** A successful execution answered over Teams: a green card titled
    ["Task Update"]. *)
Lemma teams_reply_card_witness :
  teams_build_card (VStr "Your claim is being reviewed.")
    (VDict (<["title" := VStr "Task Update"]>
           (<["type" := VStr "success"]> ∅)))
  = Ok {| card_title := Some (VStr "Task Update");
          card_text := VStr "Your claim is being reviewed.";
          card_color := Some "00FF00";
          card_sections := [] |} /\
  _send_response (with_handlers env_ok transports_ok)
                 (VDict sample_execution) sample_teams_message
  = (Ok true,
     [EvSend "teams" (VStr "user-7") (VStr "Your claim is being reviewed.")
             (<["title" := VStr "Task Update"]>
             (<["type" := VStr "success"]> ∅)) true]).
Proof.
  destruct (teams_reply_card env_ok transports_ok sample_teams_message
              sample_execution "teams" eq_refl eq_refl)
    as (md & Hmd & Hcard & Hsend).
  injection Hmd as <-. split; [exact Hcard | exact Hsend].
Defined.

(** ** WhatsApp *)

(** X12.  Reply over WhatsApp.  For a message whose channel lower-cases to
    ['whatsapp'] and an execution result that is a dictionary, the response
    stage posts one text payload whose [to] is the sender of the message and
    whose [text.body] is the user response; the metadata handed over is
    empty.  [response_sent] is [True] exactly when the post returns with
    status 200: any other status (201, 202) and any exception give
    [False]. *)
Theorem whatsapp_reply_payload (env : Env) (tr : transports)
    (message d : dict) (s : string) :
  dict_get message "channel" VNone = VStr s ->
  str_lower s = "whatsapp" ->
  let sender := dict_get message "sender" VNone in
  let text :=
    dict_get d "user_response" (VStr "Your request has been processed.") in
  let payload := whatsapp_payload sender text in
  let b := match whatsapp_post tr payload with
           | Ok code => code =? 200
           | Exn _ => false
           end in
  _send_response (with_handlers env tr) (VDict d) message
  = (Ok b, [EvSend "whatsapp" sender text ∅ b]) /\
  dict_get payload "to" VNone = sender /\
  value_get (dict_get payload "text" VNone) "body" VNone = Ok text /\
  dict_get payload "type" VNone = VStr "text" /\
  (b = true <-> whatsapp_post tr payload = Ok 200).
Proof.
  intros Hc Hlow sender text payload b.
  assert (response_metadata (with_handlers env tr) (VDict d) message = Ok ∅)
    as Hmd.
  { apply (response_metadata_other_spelling _ _ message s Hc);
      intros ->; discriminate Hlow. }
  split; [| split; [| split; [| split]]]; try reflexivity.
  - rewrite (_send_response_dict (with_handlers env tr) message d ∅ Hmd).
    rewrite Hc. unfold send_response. cbn [value_lower]. rewrite Hlow.
    reflexivity.
  - unfold b. destruct (whatsapp_post tr payload) as [code|e].
    + split.
      * intros H. apply Z.eqb_eq in H. subst code. reflexivity.
      * intros H. injection H as ->. reflexivity.
    + split; discriminate.
Qed.

(** The API answers [201 Created]: the reply is reported as not sent. *)
Lemma whatsapp_reply_payload_witness :
  _send_response (with_handlers env_ok transports_created)
                 (VDict sample_execution) sample_whatsapp_message
  = (Ok false,
     [EvSend "whatsapp" (VStr "15550001")
             (VStr "Your claim is being reviewed.") ∅ false]).
Proof.
  exact (proj1 (whatsapp_reply_payload env_ok transports_created
                  sample_whatsapp_message sample_execution "WhatsApp"
                  eq_refl eq_refl)).
Defined.

(** * Properties of the agents *)

Lemma truthy_dict_empty (c : dict) : truthy (VDict c) = false <-> c = ∅.
Proof.
  cbn. rewrite negb_false_iff, Nat.eqb_eq. apply map_size_empty_iff.
Qed.

Lemma truthy_dict_nonempty (c : dict) : truthy (VDict c) = true <-> c <> ∅.
Proof.
  rewrite <- truthy_dict_empty. destruct (truthy (VDict c)); split; congruence.
Qed.

Lemma value_get_ok_dict (v : value) (k : string) (dflt r : value) :
  value_get v k dflt = Ok r -> exists d, v = VDict d.
Proof. destruct v; try discriminate. eauto. Qed.

Lemma classify_message_spec (llm : llm_session) (message : dict) :
  ClassificationAgent.classify_message llm message
  = Ok (match classification_execute llm message with
        | Ok (VDict c) => VDict c
        | _ => ClassificationAgent._get_fallback_classification llm message
        end).
Proof.
  unfold ClassificationAgent.classify_message,
    ClassificationAgent.classify_body, res_bind.
  destruct (classification_execute llm message) as [[| | | | |c]|e];
    reflexivity.
Qed.

Lemma create_task_spec (llm : llm_session) (c : dict) (message : dict) :
  exists fallback,
    TaskCreationAgent._get_fallback_task llm (VDict c) message
    = Ok (VDict fallback) /\
    fallback <> ∅ /\
    TaskCreationAgent.create_task llm (VDict c) message
    = Ok (match task_creation_execute llm (VDict c) message with
          | Ok (VDict t) => VDict t
          | _ => VDict fallback
          end).
Proof.
  eexists. split; [reflexivity |]. split; [apply insert_non_empty |].
  unfold TaskCreationAgent.create_task, TaskCreationAgent.create_body,
    res_bind.
  cbn [value_get].
  destruct (task_creation_execute llm (VDict c) message) as [[| | | | |t]|e];
    reflexivity.
Qed.

Lemma classification_agent_cases (llm : llm_session) (message : dict) :
  exists c,
    ClassificationAgent.classify_message llm message = Ok (VDict c) /\
    (c = ∅ <-> classification_execute llm message = Ok (VDict ∅)).
Proof.
  rewrite classify_message_spec.
  destruct (classification_execute llm message) as [[| | | | |c]|e] eqn:E;
    try (eexists; split; [reflexivity |];
         split; [intros H; exfalso; revert H; apply insert_non_empty
                | discriminate]).
  exists c. split; [reflexivity |]. split.
  - intros ->. reflexivity.
  - intros H. injection H as ->. reflexivity.
Qed.

Lemma create_task_cases (llm : llm_session) (c : dict) (message : dict) :
  exists t,
    TaskCreationAgent.create_task llm (VDict c) message = Ok (VDict t) /\
    (t = ∅ <-> task_creation_execute llm (VDict c) message = Ok (VDict ∅)).
Proof.
  destruct (create_task_spec llm c message) as (f & _ & Hf & E). rewrite E.
  destruct (task_creation_execute llm (VDict c) message)
    as [[| | | | |t]|e] eqn:Ex;
    try (exists f; split; [reflexivity |];
         split; [intros H; contradiction | discriminate]).
  exists t. split; [reflexivity |]. split.
  - intros ->. reflexivity.
  - intros H. injection H as ->. reflexivity.
Qed.

(** X13.  [ClassificationAgent.classify_message] never raises and always
    returns a dictionary.  A dictionary answered by the model is returned as
    it is.  When the model raises or answers anything that is not a
    dictionary (text, [None], a list), the result is the fallback: action
    [general_inquiry], category [inquiry], the sender of the message (or
    ['unknown']) as customer, to be reviewed manually.  The result is empty
    only when the model answered the empty dictionary. *)
Theorem classification_agent_falls_back (llm : llm_session) (message : dict) :
  (exists c, ClassificationAgent.classify_message llm message = Ok (VDict c) /\
     (c = ∅ <-> classification_execute llm message = Ok (VDict ∅))) /\
  (forall c, classification_execute llm message = Ok (VDict c) ->
     ClassificationAgent.classify_message llm message = Ok (VDict c)) /\
  ((forall c, classification_execute llm message <> Ok (VDict c)) ->
   exists c attrs,
     ClassificationAgent.classify_message llm message = Ok (VDict c) /\
     dict_get c "action_id" VNone = VStr "general_inquiry" /\
     dict_get c "category" VNone = VStr "inquiry" /\
     dict_get c "ivo_attributes" VNone = VDict attrs /\
     dict_get attrs "customer_id" VNone
     = dict_get message "sender" (VStr "unknown") /\
     dict_get attrs "required_action" VNone = VStr "manual_review" /\
     dict_get attrs "priority" VNone = VStr "medium").
Proof.
  split; [| split].
  - apply classification_agent_cases.
  - intros c H. rewrite classify_message_spec, H. reflexivity.
  - intros H. rewrite classify_message_spec.
    destruct (classification_execute llm message) as [[| | | | |c]|e] eqn:E;
      try (eexists; eexists; split; [reflexivity |]; repeat split; reflexivity).
    exfalso. exact (H c eq_refl).
Qed.

(** X14.  [TaskCreationAgent.create_task] raises when the classification is
    not a dictionary: the handler of its [try] calls the fallback, which
    reads the classification with [get] once more.  For a classification
    that is a dictionary it never raises and returns a non-empty dictionary
    or the empty dictionary that the model answered: the dictionary of the
    model as it is, and otherwise (exception, text, [None]) the fallback
    task, whose [action_type] is the [action_id] of the classification (or
    ['general_inquiry']), to be posted to [/api/v1/tasks/manual], and which
    carries the message id and the channel of the message. *)
Theorem create_task_raises_without_dict (llm : llm_session)
    (message : dict) :
  (forall classification,
     (forall c, classification <> VDict c) ->
     TaskCreationAgent.create_task llm classification message
     = Exn (attribute_error classification "get")) /\
  (forall c t,
     task_creation_execute llm (VDict c) message = Ok (VDict t) ->
     TaskCreationAgent.create_task llm (VDict c) message = Ok (VDict t)) /\
  (forall c,
     (forall t, task_creation_execute llm (VDict c) message <> Ok (VDict t)) ->
     exists t ivo md params,
       TaskCreationAgent.create_task llm (VDict c) message = Ok (VDict t) /\
       t <> ∅ /\
       dict_get t "action_type" VNone
       = dict_get c "action_id" (VStr "general_inquiry") /\
       dict_get t "ivo_json" VNone = VDict ivo /\
       dict_get ivo "action_parameters" VNone
       = dict_get c "ivo_attributes" (VDict ∅) /\
       dict_get ivo "metadata" VNone = VDict md /\
       dict_get md "original_message_id" VNone
       = dict_get message "message_id" (VStr "unknown") /\
       dict_get md "source_channel" VNone
       = dict_get message "channel" (VStr "unknown") /\
       dict_get t "execution_params" VNone = VDict params /\
       dict_get params "api_endpoint" VNone = VStr "/api/v1/tasks/manual" /\
       dict_get params "http_method" VNone = VStr "POST").
Proof.
  split; [| split].
  - intros classification H.
    unfold TaskCreationAgent.create_task, TaskCreationAgent.create_body,
      TaskCreationAgent._get_fallback_task, res_bind.
    rewrite !(value_get_not_dict classification) by exact H. reflexivity.
  - intros c t H. destruct (create_task_spec llm c message) as (f & _ & _ & E).
    rewrite E, H. reflexivity.
  - intros c H.
    unfold TaskCreationAgent.create_task, TaskCreationAgent.create_body,
      res_bind.
    cbn [value_get].
    destruct (task_creation_execute llm (VDict c) message)
      as [[| | | | |t]|e] eqn:E;
      try (do 4 eexists; split; [reflexivity |];
           split; [apply insert_non_empty |]; repeat split; reflexivity).
    exfalso. exact (H t eq_refl).
Qed.

(** ** The pipeline on top of the two agents *)

Lemma classify_with_agents (env : Env) (llm : llm_session) (message : dict)
    (c : value) :
  ClassificationAgent.classify_message llm message = Ok c ->
  _classify_message (with_agents env llm) message
  = (Ok c, [EvStage Classify]).
Proof.
  intros H. unfold _classify_message, try_catch, bind, emit, lift, ret.
  cbn [classify_message with_agents]. rewrite H. reflexivity.
Qed.

Lemma create_with_agents (env : Env) (llm : llm_session) (message : dict)
    (c : dict) (t : value) :
  TaskCreationAgent.create_task llm (VDict c) message = Ok t ->
  _create_task (with_agents env llm) (VDict c) message
  = (Ok t, [EvStage CreateTask]).
Proof.
  intros H. unfold _create_task, try_catch, bind, emit, lift, ret.
  cbn [create_task with_agents value_get]. rewrite H. reflexivity.
Qed.

Lemma execute_dict_trace (env : Env) (message : dict) (t : dict) (x : value)
    (l : list event) :
  _execute_task env (VDict t) message = (Ok x, l) -> l = [EvStage Execute].
Proof.
  unfold _execute_task, execute_body, try_catch, bind, emit, lift, ret.
  cbn [value_get].
  destruct (execute_task env (VDict t) message); cbn; intros H;
    injection H as _ <-; reflexivity.
Qed.

(** X15.  With the two agents of the repository in place, a run ends with
    ["Classification failed"] exactly when the model answered the
    classification task with the empty dictionary, and with ["Task creation
    failed"] exactly when it answered the task-creation task with the empty
    dictionary.  In every other case (the model raising, or answering text
    instead of a dictionary) the run goes on with the fallback
    classification or the fallback task and calls the execution agent; its
    outcome then carries neither of the two errors. *)
Theorem agents_fail_only_on_empty_answer (env : Env) (llm : llm_session)
    (message : dict) :
  exists c,
    ClassificationAgent.classify_message llm message = Ok (VDict c) /\
    (c = ∅ <-> classification_execute llm message = Ok (VDict ∅)) /\
    (c = ∅ ->
     process_message (with_agents env llm) message
     = (Ok (_create_error_result message "Classification failed"),
        [EvAcquire; EvStage Classify; EvRelease])) /\
    (c <> ∅ ->
     exists t,
       TaskCreationAgent.create_task llm (VDict c) message = Ok (VDict t) /\
       (t = ∅ <-> task_creation_execute llm (VDict c) message = Ok (VDict ∅)) /\
       (t = ∅ ->
        process_message (with_agents env llm) message
        = (Ok (_create_error_result message "Task creation failed"),
           [EvAcquire; EvStage Classify; EvStage CreateTask; EvRelease])) /\
       (t <> ∅ ->
        exists o ls,
          process_message (with_agents env llm) message
          = (Ok o, run_trace [EvStage CreateTask] [EvStage Execute] ls) /\
          outcome_field o "error" <> VStr "Classification failed" /\
          outcome_field o "error" <> VStr "Task creation failed")).
Proof.
  destruct (classification_agent_cases llm message) as (c & Hc & Hiff).
  exists c. split; [exact Hc |]. split; [exact Hiff |].
  pose proof (classify_with_agents env llm message _ Hc) as Hcl.
  destruct (process_message_cases (with_agents env llm) message)
    as (c' & Hc' & Hcases).
  rewrite Hcl in Hc'. injection Hc' as <-.
  split.
  - intros He. apply truthy_dict_empty in He.
    destruct Hcases as [[_ Hrun] | [Ht _]]; [exact Hrun | congruence].
  - intros Hne. apply truthy_dict_nonempty in Hne.
    destruct Hcases as [[Hf _] | [_ (t' & l2 & Hcr & Hcases)]]; [congruence |].
    destruct (create_task_cases llm c message) as (t & Ht & Htiff).
    exists t. split; [exact Ht |]. split; [exact Htiff |].
    rewrite (create_with_agents env llm message c _ Ht) in Hcr.
    injection Hcr as <- <-.
    split.
    + intros He. apply truthy_dict_empty in He.
      destruct Hcases as [[_ Hrun] | [Htt _]]; [exact Hrun | congruence].
    + intros Htne. apply truthy_dict_nonempty in Htne.
      destruct Hcases
        as [[Hf _] | [_ (x & l3 & b & ls & Hx & Hs & Hfin)]]; [congruence |].
      pose proof (execute_dict_trace _ _ _ _ _ Hx) as ->.
      destruct Hfin as [(d & -> & Hrun) | (Hnd & -> & Hrun)].
      * eexists. exists ls. split; [exact Hrun |].
        split; cbn; discriminate.
      * eexists. exists []. split; [exact Hrun |].
        rewrite (proj1 (proj2 (proj2 (proj2
                   (error_result_fields message _))))).
        split; intros E; injection E; intros; congruence.
Qed.

(** * Properties of the IDIT API client *)

Section IDIT.

Import IDITAPIClient.

Lemma error_response_fields (e : string) (code : Z) (t : value) :
  exists d,
    _create_error_response e code t = VDict d /\
    dict_get d "success" VNone = VBool false /\
    dict_get d "status_code" VNone = VInt code /\
    dict_get d "data" VNone = VDict ∅ /\
    dict_get d "message" VNone = VStr e /\
    dict_get d "execution_time" VNone = t.
Proof. eexists. split; [reflexivity |]. repeat split; reflexivity. Qed.

Lemma parse_response_object (r : response) (t : value) (o : dict) :
  is_success r = true ->
  response_data r = VDict o ->
  exists d,
    _parse_response r t = Ok (VDict d) /\
    dict_get d "success" VNone = VBool true /\
    dict_get d "status_code" VNone = VInt (status_code r) /\
    dict_get d "data" VNone = VDict o /\
    dict_get d "message" VNone
    = dict_get o "message" (VStr (reason_phrase r)) /\
    dict_get d "execution_time" VNone = t.
Proof.
  intros Hs Ho. unfold _parse_response, res_bind. rewrite Hs, Ho.
  cbn [value_get]. eexists. split; [reflexivity |]. repeat split; reflexivity.
Qed.

Lemma parse_response_not_object (r : response) (t : value) :
  is_success r = true ->
  (forall o, response_data r <> VDict o) ->
  _parse_response r t = Exn (attribute_error (response_data r) "get").
Proof.
  intros Hs Ho. unfold _parse_response, res_bind. rewrite Hs.
  rewrite value_get_not_dict by exact Ho. reflexivity.
Qed.

Lemma parse_response_error_status (r : response) (t : value) :
  is_success r = false ->
  exists d,
    _parse_response r t = Ok (VDict d) /\
    dict_get d "success" VNone = VBool false /\
    dict_get d "status_code" VNone = VInt (status_code r) /\
    dict_get d "data" VNone = response_data r /\
    dict_get d "message" VNone = VStr ("Error: " ++ reason_phrase r) /\
    dict_get d "execution_time" VNone = t.
Proof.
  intros Hs. unfold _parse_response, res_bind. rewrite Hs.
  eexists. split; [reflexivity |]. repeat split; reflexivity.
Qed.

Lemma value_dict_dec (v : value) :
  (exists o, v = VDict o) \/ (forall o, v <> VDict o).
Proof. destruct v; try (right; discriminate). left. eauto. Qed.

(** The result of [execute_action], case by case. *)
Lemma execute_action_cases (c : client) (endpoint method : string)
    (data timeout : value) :
  exists d,
    execute_action c endpoint method data timeout = VDict d /\
    dict_get d "execution_time" VNone = elapsed c /\
    ((dict_get d "success" VNone = VBool true /\
      exists req r o,
        build_request c endpoint method data timeout = Some req /\
        send c req = Responded r /\ is_success r = true /\
        response_data r = VDict o /\
        dict_get d "status_code" VNone = VInt (status_code r) /\
        dict_get d "data" VNone = VDict o /\
        dict_get d "message" VNone
        = dict_get o "message" (VStr (reason_phrase r))) \/
     (dict_get d "success" VNone = VBool false /\
      ((exists req r,
          build_request c endpoint method data timeout = Some req /\
          send c req = Responded r /\ is_success r = false /\
          dict_get d "status_code" VNone = VInt (status_code r) /\
          dict_get d "data" VNone = response_data r /\
          dict_get d "message" VNone
          = VStr ("Error: " ++ reason_phrase r)) \/
       (exists req r,
          build_request c endpoint method data timeout = Some req /\
          send c req = Responded r /\ is_success r = true /\
          (forall o, response_data r <> VDict o) /\
          dict_get d "status_code" VNone = VInt 500 /\
          dict_get d "data" VNone = VDict ∅ /\
          dict_get d "message" VNone
          = VStr (attribute_error (response_data r) "get")) \/
       (exists req e,
          build_request c endpoint method data timeout = Some req /\
          send c req = Failed (TimeoutException e) /\
          dict_get d "status_code" VNone = VInt 408 /\
          dict_get d "data" VNone = VDict ∅ /\
          dict_get d "message" VNone = VStr "Request timeout") \/
       (exists req e,
          build_request c endpoint method data timeout = Some req /\
          (send c req = Failed (RequestError e) \/
           send c req = Failed (OtherException e)) /\
          dict_get d "status_code" VNone = VInt 500 /\
          dict_get d "data" VNone = VDict ∅ /\
          dict_get d "message" VNone = VStr e) \/
       (build_request c endpoint method data timeout = None /\
        dict_get d "status_code" VNone = VInt 500 /\
        dict_get d "data" VNone = VDict ∅ /\
        dict_get d "message" VNone
        = VStr ("Unsupported HTTP method: " ++ method))))).
Proof.
  unfold execute_action, IDITAPIClient.execute_body.
  destruct (build_request c endpoint method data timeout) as [req|] eqn:Hb.
  2: { destruct (error_response_fields
                   ("Unsupported HTTP method: " ++ method) 500 (elapsed c))
         as (d & -> & Hs & Hc & Hd & Hm & Ht).
       exists d. split; [reflexivity |]. split; [exact Ht |]. right.
       split; [exact Hs |]. do 4 right. auto. }
  destruct (send c req) as [r|[e|e|e]] eqn:Hsend.
  - destruct (is_success r) eqn:Hok.
    + destruct (value_dict_dec (response_data r)) as [[o Ho] | Hno].
      * destruct (parse_response_object r (elapsed c) o Hok Ho)
          as (d & -> & Hs & Hc & Hd & Hm & Ht).
        exists d. split; [reflexivity |]. split; [exact Ht |]. left.
        split; [exact Hs |]. exists req, r, o. auto 10.
      * rewrite (parse_response_not_object r (elapsed c) Hok Hno).
        destruct (error_response_fields
                    (attribute_error (response_data r) "get") 500 (elapsed c))
          as (d & -> & Hs & Hc & Hd & Hm & Ht).
        exists d. split; [reflexivity |]. split; [exact Ht |]. right.
        split; [exact Hs |]. right. left. exists req, r. auto 10.
    + destruct (parse_response_error_status r (elapsed c) Hok)
        as (d & -> & Hs & Hc & Hd & Hm & Ht).
      exists d. split; [reflexivity |]. split; [exact Ht |]. right.
      split; [exact Hs |]. left. exists req, r. auto 10.
  - destruct (error_response_fields "Request timeout" 408 (elapsed c))
      as (d & -> & Hs & Hc & Hd & Hm & Ht).
    exists d. split; [reflexivity |]. split; [exact Ht |]. right.
    split; [exact Hs |]. do 2 right. left. exists req, e. auto 10.
  - destruct (error_response_fields e 500 (elapsed c))
      as (d & -> & Hs & Hc & Hd & Hm & Ht).
    exists d. split; [reflexivity |]. split; [exact Ht |]. right.
    split; [exact Hs |]. do 3 right. left. exists req, e. auto 10.
  - destruct (error_response_fields e 500 (elapsed c))
      as (d & -> & Hs & Hc & Hd & Hm & Ht).
    exists d. split; [reflexivity |]. split; [exact Ht |]. right.
    split; [exact Hs |]. do 3 right. left. exists req, e. auto 10.
Qed.

(** X16.  [execute_action] returns a result dictionary in every case.  Its
    [success] is [True] exactly when the method selected a request, the
    server answered it with a status from 200 to 299, and the body was
    empty, unparsable or a JSON object.  A 2xx answer whose body is JSON of
    another kind (an array, a number) is reported as a failure with status
    500, the text of the attribute error as message and empty data; a
    timeout is reported with status 408 and the message ["Request
    timeout"]; any other exception of the request is reported with status
    500 and its text as message; an answer outside 200 to 299 keeps its
    status and its data, with the message ["Error: "] followed by the
    reason phrase. *)
Theorem execute_action_success (c : client) (endpoint method : string)
    (data timeout : value) :
  exists d,
    execute_action c endpoint method data timeout = VDict d /\
    (exists b, dict_get d "success" VNone = VBool b) /\
    (dict_get d "success" VNone = VBool true <->
     exists req r o,
       build_request c endpoint method data timeout = Some req /\
       send c req = Responded r /\
       is_success r = true /\ response_data r = VDict o) /\
    (forall req r,
       build_request c endpoint method data timeout = Some req ->
       send c req = Responded r ->
       is_success r = true ->
       (forall o, response_data r <> VDict o) ->
       dict_get d "status_code" VNone = VInt 500 /\
       dict_get d "data" VNone = VDict ∅ /\
       dict_get d "message" VNone
       = VStr (attribute_error (response_data r) "get")) /\
    (forall req e,
       build_request c endpoint method data timeout = Some req ->
       send c req = Failed (TimeoutException e) ->
       dict_get d "status_code" VNone = VInt 408 /\
       dict_get d "message" VNone = VStr "Request timeout") /\
    (forall req r,
       build_request c endpoint method data timeout = Some req ->
       send c req = Responded r ->
       is_success r = false ->
       dict_get d "status_code" VNone = VInt (status_code r) /\
       dict_get d "data" VNone = response_data r /\
       dict_get d "message" VNone = VStr ("Error: " ++ reason_phrase r)) /\
    (forall req e,
       build_request c endpoint method data timeout = Some req ->
       send c req = Failed (RequestError e) \/
       send c req = Failed (OtherException e) ->
       dict_get d "status_code" VNone = VInt 500 /\
       dict_get d "data" VNone = VDict ∅ /\
       dict_get d "message" VNone = VStr e).
Proof.
  destruct (execute_action_cases c endpoint method data timeout)
    as (d & Hd & _ & Hcases).
  exists d. split; [exact Hd |].
  split; [destruct Hcases as [[H _] | [H _]]; eauto |].
  split; [| split; [| split; [| split]]].
  - split.
    + intros Ht. destruct Hcases as [[_ H] | [H _]]; [| congruence].
      destruct H as (req & r & o & Hb & Hs & Hok & Ho & _). eauto 10.
    + intros (req & r & o & Hb & Hs & Hok & Ho).
      destruct Hcases as [[H _] | [_ H]]; [exact H | exfalso].
      destruct H as [(req' & r' & Hb' & Hs' & Hok' & _)
                    | [(req' & r' & Hb' & Hs' & _ & Hno & _)
                    | [(req' & e & Hb' & Hs' & _)
                    | [(req' & e & Hb' & Hs' & _) | (Hb' & _)]]]];
        rewrite Hb in Hb'; try discriminate Hb';
        injection Hb' as <-; rewrite Hs in Hs'.
      * injection Hs' as <-. congruence.
      * injection Hs' as <-. exact (Hno o Ho).
      * discriminate Hs'.
      * destruct Hs' as [Hs' | Hs']; discriminate Hs'.
  - intros req r Hb Hs Hok Hno.
    destruct Hcases as [[_ H] | [_ H]].
    { destruct H as (req' & r' & o & Hb' & Hs' & _ & Ho & _).
      rewrite Hb in Hb'. injection Hb' as <-. rewrite Hs in Hs'.
      injection Hs' as <-. exfalso. exact (Hno o Ho). }
    destruct H as [(req' & r' & Hb' & Hs' & Hok' & _)
                  | [(req' & r' & Hb' & Hs' & _ & _ & H)
                  | [(req' & e & Hb' & Hs' & _)
                  | [(req' & e & Hb' & Hs' & _) | (Hb' & _)]]]];
      rewrite Hb in Hb'; try discriminate Hb';
      injection Hb' as <-; rewrite Hs in Hs'.
    + injection Hs' as <-. congruence.
    + injection Hs' as <-. exact H.
    + discriminate Hs'.
    + destruct Hs' as [Hs' | Hs']; discriminate Hs'.
  - intros req e Hb Hs.
    destruct Hcases as [[_ H] | [_ H]].
    { destruct H as (req' & r' & o & Hb' & Hs' & _).
      rewrite Hb in Hb'. injection Hb' as <-. rewrite Hs in Hs'.
      discriminate Hs'. }
    destruct H as [(req' & r' & Hb' & Hs' & _)
                  | [(req' & r' & Hb' & Hs' & _)
                  | [(req' & e' & Hb' & Hs' & Hc & _ & Hm)
                  | [(req' & e' & Hb' & Hs' & _) | (Hb' & _)]]]];
      rewrite Hb in Hb'; try discriminate Hb';
      injection Hb' as <-; rewrite Hs in Hs'; try discriminate Hs'.
    + split; assumption.
    + destruct Hs' as [Hs' | Hs']; discriminate Hs'.
  - intros req r Hb Hs Hok.
    destruct Hcases as [[_ H] | [_ H]].
    { destruct H as (req' & r' & o & Hb' & Hs' & Hok' & _).
      rewrite Hb in Hb'. injection Hb' as <-. rewrite Hs in Hs'.
      injection Hs' as <-. congruence. }
    destruct H as [(req' & r' & Hb' & Hs' & _ & Hc & Hdt & Hm)
                  | [(req' & r' & Hb' & Hs' & Hok' & _)
                  | [(req' & e' & Hb' & Hs' & _)
                  | [(req' & e' & Hb' & Hs' & _) | (Hb' & _)]]]];
      rewrite Hb in Hb'; try discriminate Hb';
      injection Hb' as <-; rewrite Hs in Hs'; try discriminate Hs'.
    + injection Hs' as <-. repeat split; assumption.
    + injection Hs' as <-. congruence.
    + destruct Hs' as [Hs' | Hs']; discriminate Hs'.
  - intros req e Hb Hs. revert Hd.
    unfold execute_action, IDITAPIClient.execute_body. rewrite Hb.
    destruct Hs as [Hs | Hs]; rewrite Hs; intros Hd; injection Hd as <-;
      repeat split; reflexivity.
Qed.

(** X17.  A method that is none of GET, POST, PUT and DELETE in any letter
    case sends no request: the result is the error response with status
    500 and the message ["Unsupported HTTP method: "] followed by the
    method as given, whatever the server would have answered. *)
Theorem unsupported_method_sends_nothing (c : client)
    (endpoint method : string) (data timeout : value) :
  upper c method <> "GET" -> upper c method <> "POST" ->
  upper c method <> "PUT" -> upper c method <> "DELETE" ->
  execute_action c endpoint method data timeout
  = _create_error_response ("Unsupported HTTP method: " ++ method) 500
                           (elapsed c) /\
  (exists d,
     execute_action c endpoint method data timeout = VDict d /\
     dict_get d "success" VNone = VBool false /\
     dict_get d "status_code" VNone = VInt 500 /\
     dict_get d "data" VNone = VDict ∅ /\
     dict_get d "message" VNone
     = VStr ("Unsupported HTTP method: " ++ method)) /\
  forall server,
    execute_action
      {| base_url := base_url c; default_timeout := default_timeout c;
         send := server; upper := upper c; elapsed := elapsed c |}
      endpoint method data timeout
    = execute_action c endpoint method data timeout.
Proof.
  intros Hg Hp Hu Hd.
  apply String.eqb_neq in Hg, Hp, Hu, Hd.
  assert (forall server,
            execute_action
              {| base_url := base_url c; default_timeout := default_timeout c;
                 send := server; upper := upper c; elapsed := elapsed c |}
              endpoint method data timeout
            = _create_error_response ("Unsupported HTTP method: " ++ method)
                                     500 (elapsed c)) as H.
  { intros server.
    unfold execute_action, IDITAPIClient.execute_body, build_request.
    cbn [upper elapsed]. rewrite Hg, Hp, Hu, Hd. reflexivity. }
  assert (execute_action c endpoint method data timeout
          = _create_error_response ("Unsupported HTTP method: " ++ method)
                                   500 (elapsed c)) as H0.
  { unfold execute_action, IDITAPIClient.execute_body, build_request.
    rewrite Hg, Hp, Hu, Hd. reflexivity. }
  split; [exact H0 |]. split.
  - rewrite H0. eexists. split; [reflexivity |]. repeat split; reflexivity.
  - intros server. rewrite H, H0. reflexivity.
Qed.

Lemma unsupported_method_sends_nothing_witness :
  execute_action idit_answers_array "/api/v1/claims/status" "patch"
                 VNone VNone
  = _create_error_response "Unsupported HTTP method: patch" 500 (VInt 0).
Proof.
  exact (proj1 (unsupported_method_sends_nothing idit_answers_array
                  "/api/v1/claims/status" "patch" VNone VNone
                  ltac:(discriminate) ltac:(discriminate)
                  ltac:(discriminate) ltac:(discriminate))).
Defined.

(** X18.  [health_check] never raises and answers a boolean.  It asks for
    [GET base_url/health] without parameters and with the default timeout
    of the client, and answers [True] exactly when the server answered with
    a status from 200 to 299 and a body that is empty, unparsable or a JSON
    object.  A healthy server that answers with a JSON array is reported as
    unhealthy. *)
Theorem health_check_spec (c : client) :
  upper c "GET" = "GET" ->
  let req := Get (base_url c ++ "/health") VNone (default_timeout c) in
  (exists b, health_check c = VBool b) /\
  (health_check c = VBool true <->
   exists r o, send c req = Responded r /\ is_success r = true /\
               response_data r = VDict o) /\
  (forall r, send c req = Responded r ->
             (forall o, response_data r <> VDict o) ->
             health_check c = VBool false).
Proof.
  intros Hup req.
  assert (build_request c "/health" "GET" VNone VNone = Some req) as Hb.
  { unfold build_request. rewrite Hup. reflexivity. }
  destruct (execute_action_cases c "/health" "GET" VNone VNone)
    as (d & Hd & _ & Hcases).
  unfold health_check, success_of. rewrite Hd.
  assert (forall b, dict_get d "success" VNone = VBool b ->
                    match match d !! "success" with
                          | Some v => Ok v
                          | None => Exn "'success'"
                          end with
                    | Ok v => v
                    | Exn _ => VBool false
                    end = VBool b) as Hdef.
  { intros b. unfold dict_get. destruct (d !! "success"); cbn; [auto |].
    discriminate. }
  split; [| split].
  - destruct Hcases as [[H _] | [H _]]; eauto.
  - split.
    + intros Ht. destruct Hcases as [[_ H] | [H _]].
      * destruct H as (req' & r & o & Hb' & Hs & Hok & Ho & _).
        rewrite Hb in Hb'. injection Hb' as <-. eauto.
      * rewrite (Hdef _ H) in Ht. discriminate Ht.
    + intros (r & o & Hs & Hok & Ho).
      destruct Hcases as [[H _] | [_ H]]; [exact (Hdef _ H) | exfalso].
      destruct H as [(req' & r' & Hb' & Hs' & Hok' & _)
                    | [(req' & r' & Hb' & Hs' & _ & Hno & _)
                    | [(req' & e & Hb' & Hs' & _)
                    | [(req' & e & Hb' & Hs' & _) | (Hb' & _)]]]];
        rewrite Hb in Hb'; try discriminate Hb';
        injection Hb' as <-; rewrite Hs in Hs'.
      * injection Hs' as <-. congruence.
      * injection Hs' as <-. exact (Hno o Ho).
      * discriminate Hs'.
      * destruct Hs' as [Hs' | Hs']; discriminate Hs'.
  - intros r Hs Hno.
    destruct Hcases as [[_ H] | [H _]]; [exfalso | exact (Hdef _ H)].
    destruct H as (req' & r' & o & Hb' & Hs' & _ & Ho & _).
    rewrite Hb in Hb'. injection Hb' as <-. rewrite Hs in Hs'.
    injection Hs' as <-. exact (Hno o Ho).
Qed.

(** The server answers [200 OK] with a JSON array: reported unhealthy. *)
Lemma health_check_spec_witness :
  health_check idit_answers_array = VBool false.
Proof.
  refine (proj2 (proj2 (health_check_spec idit_answers_array eq_refl))
            _ eq_refl _).
  intros o. discriminate.
Defined.

End IDIT.
